(** * ACE Elite Leaderboard: the stats-collection pipeline

    A shallow embedding of the collection pipeline of the repository
    ([scheduler.py], [models.py], [services/codeforces.py],
    [services/leetcode.py], [services/codechef.py]), and of the leaderboard
    of the admin dashboard ([app.py]), and the proofs of its specified
    properties.

    Conventions of the embedding.
    - Python values that come out of JSON are values of [pyval]; Python
      exceptions are values of [exn]; a Python expression that may raise is a
      [Result].
    - The outside world (network, database engine, clock) is an [Env]: a
      record of oracles indexed by the number of calls made so far.  A
      theorem holds for every behaviour of the network and of the database,
      unless it names the behaviour it assumes ([accepting]).
    - The Flask application context and the SQLAlchemy session are the
      [session] field of the state: [NoContext] in a thread that has no
      application context (every use of [db.session] raises there),
      [Active] inside [with app.app_context()], [Inactive] after a commit the
      engine refused and until [db.session.rollback()] (a read of a column
      of a loaded object raises there).  The scheduler functions are values
      of [Run]: they return or raise, and leave a state.
    - [print] is not modelled; the log of a state records the adapter calls,
      the sleeps and the batches instead.
    - Durations are in milliseconds: [time.sleep(2)] is [2000],
      [time.sleep(0.5)] is [500].
    - Timestamps are microseconds since the epoch (the resolution of
      [datetime]). *)

From Stdlib Require Import ZArith List String Ascii Bool Lia PeanoNat DecimalString.
From Stdlib Require Import Permutation Sorted Floats.
Import ListNotations.
Open Scope string_scope.
Open Scope Z_scope.
Set Warnings "-register-all".

(** ** Python values and exceptions *)

Module Py.

(** The exception classes the pipeline distinguishes.  All of them are
    subclasses of [Exception]. *)
Inductive exn_kind : Type :=
| RequestException   (* requests.RequestException and its subclasses *)
| KeyError
| ValueError
| IndexError
| TypeError
| AttributeError
| DatabaseError      (* what the engine raises when it refuses a statement *)
| RuntimeError
| PendingRollbackError
| OverflowError
| OtherException.

(** An exception object: its class and [str(e)]. *)
Record exn : Type := Exn { kind : exn_kind; message : string }.

(** The outcome of evaluating a Python expression. *)
Inductive Result (A : Type) : Type :=
| Returned (a : A)
| Raised (e : exn).
Arguments Returned {A} a.
Arguments Raised {A} e.

Definition bind {A B : Type} (r : Result A) (k : A -> Result B) : Result B :=
  match r with
  | Returned a => k a
  | Raised e => Raised e
  end.

(** The values [json.loads] produces. *)
Inductive pyval : Type :=
| PNone
| PBool (b : bool)
| PInt (z : Z)
| PFloat (f : float)
| PStr (s : string)
| PList (l : list pyval)
| PDict (d : list (string * pyval)).

(** [bool(v)] *)
Definition truthy (v : pyval) : bool :=
  match v with
  | PNone => false
  | PBool b => b
  | PInt z => negb (z =? 0)
  | PFloat f => negb (PrimFloat.eqb f PrimFloat.zero)
  | PStr s => negb (String.eqb s "")
  | PList l => match l with [] => false | _ => true end
  | PDict d => match d with [] => false | _ => true end
  end.

(** [v == s] for a string literal [s] *)
Definition is_str (v : pyval) (s : string) : bool :=
  match v with
  | PStr t => String.eqb t s
  | _ => false
  end.

(** The name Python prints for the type of a value. *)
Definition type_name (v : pyval) : string :=
  match v with
  | PNone => "NoneType"
  | PBool _ => "bool"
  | PInt _ => "int"
  | PFloat _ => "float"
  | PStr _ => "str"
  | PList _ => "list"
  | PDict _ => "dict"
  end.

Fixpoint dict_lookup (d : list (string * pyval)) (key : string) : option pyval :=
  match d with
  | [] => None
  | (k, v) :: rest => if String.eqb k key then Some v else dict_lookup rest key
  end.

(** [v[key]] for a string [key] *)
Definition getitem (v : pyval) (key : string) : Result pyval :=
  match v with
  | PDict d =>
      match dict_lookup d key with
      | Some x => Returned x
      | None => Raised (Exn KeyError ("'" ++ key ++ "'"))
      end
  | PList _ => Raised (Exn TypeError "list indices must be integers or slices, not str")
  | PStr _ => Raised (Exn TypeError "string indices must be integers, not 'str'")
  | _ => Raised (Exn TypeError ("'" ++ type_name v ++ "' object is not subscriptable"))
  end.

(** [v[0]] *)
Definition getitem0 (v : pyval) : Result pyval :=
  match v with
  | PList l =>
      match l with
      | x :: _ => Returned x
      | [] => Raised (Exn IndexError "list index out of range")
      end
  | PStr s =>
      match s with
      | String c _ => Returned (PStr (String c EmptyString))
      | EmptyString => Raised (Exn IndexError "string index out of range")
      end
  | PDict _ => Raised (Exn KeyError "0")
  | _ => Raised (Exn TypeError ("'" ++ type_name v ++ "' object is not subscriptable"))
  end.

(** [v.get(key, default)] *)
Definition get (v : pyval) (key : string) (default : pyval) : Result pyval :=
  match v with
  | PDict d =>
      match dict_lookup d key with
      | Some x => Returned x
      | None => Returned default
      end
  | _ => Raised (Exn AttributeError ("'" ++ type_name v ++ "' object has no attribute 'get'"))
  end.

Fixpoint chars (s : string) : list pyval :=
  match s with
  | EmptyString => []
  | String c rest => PStr (String c EmptyString) :: chars rest
  end.

(** The items a [for] loop over [v] visits. *)
Definition iter (v : pyval) : Result (list pyval) :=
  match v with
  | PList l => Returned l
  | PDict d => Returned (map (fun kv => PStr (fst kv)) d)
  | PStr s => Returned (chars s)
  | _ => Raised (Exn TypeError ("'" ++ type_name v ++ "' object is not iterable"))
  end.

(** [needle in hay] for two strings *)
Fixpoint substring_of (needle hay : string) : bool :=
  if String.prefix needle hay then true
  else match hay with
       | EmptyString => false
       | String _ rest => substring_of needle rest
       end.

(** [key in v] for a string [key] *)
Definition contains (v : pyval) (key : string) : Result bool :=
  match v with
  | PDict d => Returned (match dict_lookup d key with Some _ => true | None => false end)
  | PList l => Returned (existsb (fun x => is_str x key) l)
  | PStr s => Returned (substring_of key s)
  | _ => Raised (Exn TypeError ("argument of type '" ++ type_name v ++ "' is not iterable"))
  end.

End Py.

Import Py.

Notation "'let*' x ':=' e 'in' k" := (Py.bind e (fun x => k))
  (at level 10, x name, e at level 100, k at level 200).

(** ** The network *)

Module Http.

(** What [BeautifulSoup(response.content, 'html.parser')] answers to the
    queries the CodeChef adapter makes.  An element that is found is given by
    its [.text] (for a script, by its [.string], which may be [None]). *)
Record Soup : Type := {
  rating_number : option string;         (* find('div', class_='rating-number') *)
  rating_text : option string;           (* find(text=re.compile(r'Rating\s*:\s*\d+')) *)
  problems_solved : option (option string);
                                         (* find('section', class_='problems-solved'), then its find('h5') *)
  fully_solved : option (option string); (* find('h3', text=re.compile(r'Fully Solved')), then its
                                            find_next('span', class_='count') *)
  scripts : list (option string);        (* find_all('script') *)
  user_details_container : bool          (* find('div', class_='user-details-container') is not None *)
}.

(** An HTTP response: its status, what [response.json()] gives ([None] when
    it raises) and the parsed page. *)
Record Response : Type := {
  status_code : Z;
  json : option pyval;
  soup : Soup
}.

Record Request : Type := {
  verb : string;
  url : string;
  timeout : Z;
  payload : option pyval
}.

(** A request either raises a [requests.RequestException] or is answered. *)
Inductive HttpResult : Type :=
| Failed (msg : string)
| Answered (r : Response).

(** The network answers the [n]-th request of a run. *)
Definition Network : Type := nat -> Request -> HttpResult.

Inductive NetEvent : Type :=
| Sent (r : Request)
| Slept (ms : Z).

(** The state of the HTTP client side: how many requests were made, and what
    the adapters did. *)
Record Net : Type := { requests_made : nat; net_log : list NetEvent }.

(** Adapter code: it may raise, and it talks to the network. *)
Definition M (A : Type) : Type := Net -> Result A * Net.

Definition ret {A : Type} (a : A) : M A := fun n => (Returned a, n).

Definition mbind {A B : Type} (m : M A) (k : A -> M B) : M B :=
  fun n =>
    match m n with
    | (Returned a, n') => k a n'
    | (Raised e, n') => (Raised e, n')
    end.

Definition lift {A : Type} (r : Result A) : M A := fun n => (r, n).

(** [session.get] / [session.post] *)
Definition send (net : Network) (r : Request) : M Response :=
  fun n =>
    let n' := {| requests_made := S (requests_made n);
                 net_log := net_log n ++ [Sent r] |} in
    match net (requests_made n) r with
    | Failed msg => (Raised (Exn RequestException msg), n')
    | Answered resp => (Returned resp, n')
    end.

(** [time.sleep] inside an adapter *)
Definition sleep (ms : Z) : M unit :=
  fun n => (Returned tt,
            {| requests_made := requests_made n; net_log := net_log n ++ [Slept ms] |}).

(** [response.json()] *)
Definition response_json (r : Response) : Result pyval :=
  match json r with
  | Some v => Returned v
  | None => Raised (Exn ValueError "Expecting value: line 1 column 1 (char 0)")
  end.

(** [try: body except (kinds): return None] *)
Definition returning_none_on {A : Type} (caught : exn_kind -> bool) (body : M (option A))
  : M (option A) :=
  fun n =>
    match body n with
    | (Raised e, n') => if caught (kind e) then (Returned None, n') else (Raised e, n')
    | r => r
    end.

(** [try: body except: return False] *)
Definition returning_false_on_any (body : M bool) : M bool :=
  fun n =>
    match body n with
    | (Raised _, n') => (Returned false, n')
    | r => r
    end.

End Http.

Import Http.

Notation "x <- m ;; k" := (Http.mbind m (fun x => k))
  (at level 200, m at level 100, k at level 200, right associativity, only parsing).

(** ** services/codeforces.py *)

Module Codeforces.

Definition BASE_URL : string := "https://codeforces.com/api".

(** The dictionary [get_user_info] returns; its keys are fixed. *)
Record Info : Type := {
  rating : pyval;
  max_rating : pyval;
  solved : Z;
  handle : pyval;
  rank : pyval
}.

(** [solved_problems.add(problem_id)] on a set kept as a duplicate-free list *)
Definition set_add (x : string) (s : list string) : list string :=
  if existsb (String.eqb x) s then s else s ++ [x].

(** The loop over the submissions.  [fmt] is the formatting of a value inside
    an f-string. *)
Fixpoint solved_problems (fmt : pyval -> string) (submissions : list pyval)
  (acc : list string) : Result (list string) :=
  match submissions with
  | [] => Returned acc
  | submission :: rest =>
      let* verdict := Py.get submission "verdict" PNone in
      if is_str verdict "OK" then
        let* problem := getitem submission "problem" in
        let* contestId := getitem problem "contestId" in
        let* index := getitem problem "index" in
        solved_problems fmt rest (set_add (fmt contestId ++ fmt index) acc)
      else solved_problems fmt rest acc
  end.

(** The body of the [try] of [get_user_info]. *)
Definition get_user_info_body (net : Network) (fmt : pyval -> string) (handle : string)
  : M (option Info) :=
  response <- send net {| verb := "GET";
                          url := BASE_URL ++ "/user.info?handles=" ++ handle;
                          timeout := 10; payload := None |} ;;
  if negb (status_code response =? 200) then ret None else
  data <- lift (response_json response) ;;
  status <- lift (getitem data "status") ;;
  if negb (is_str status "OK") then ret None else
  result <- lift (getitem data "result") ;;
  user <- lift (getitem0 result) ;;
  _ <- sleep 500 ;;
  submissions_response <- send net {| verb := "GET";
                                      url := BASE_URL ++ "/user.status?handle=" ++ handle;
                                      timeout := 10; payload := None |} ;;
  solved_set <-
    (if status_code submissions_response =? 200 then
       submissions_data <- lift (response_json submissions_response) ;;
       submissions_status <- lift (getitem submissions_data "status") ;;
       if is_str submissions_status "OK" then
         submissions <- lift (getitem submissions_data "result") ;;
         items <- lift (iter submissions) ;;
         lift (solved_problems fmt items [])
       else ret []
     else ret []) ;;
  user_rating <- lift (Py.get user "rating" (PInt 0)) ;;
  user_max_rating <- lift (Py.get user "maxRating" (PInt 0)) ;;
  user_handle <- lift (Py.get user "handle" PNone) ;;
  user_rank <- lift (Py.get user "rank" (PStr "Unrated")) ;;
  ret (Some {| rating := user_rating;
               max_rating := user_max_rating;
               solved := Z.of_nat (List.length solved_set);
               handle := user_handle;
               rank := user_rank |}).

(** The exceptions the two [except] clauses of [get_user_info] name. *)
Definition caught (k : exn_kind) : bool :=
  match k with
  | RequestException => true
  | KeyError | ValueError | IndexError => true
  | _ => false
  end.

Definition get_user_info (net : Network) (fmt : pyval -> string) (handle : string)
  : M (option Info) :=
  returning_none_on caught (get_user_info_body net fmt handle).

(** The body of the [try] of [validate_handle]. *)
Definition validate_handle_body (net : Network) (handle : string) : M bool :=
  response <- send net {| verb := "GET";
                          url := BASE_URL ++ "/user.info?handles=" ++ handle;
                          timeout := 10; payload := None |} ;;
  if status_code response =? 200 then
    data <- lift (response_json response) ;;
    status <- lift (getitem data "status") ;;
    ret (is_str status "OK")
  else ret false.

Definition validate_handle (net : Network) (handle : string) : M bool :=
  returning_false_on_any (validate_handle_body net handle).

End Codeforces.

(** ** services/leetcode.py *)

Module LeetCode.

Definition GRAPHQL_URL : string := "https://leetcode.com/graphql".

Definition query : string := "
            query getUserProfile($username: String!) {
                matchedUser(username: $username) {
                    username
                    submitStats {
                        acSubmissionNum {
                            difficulty
                            count
                        }
                    }
                    profile {
                        ranking
                    }
                }
            }
            ".

(** The dictionary [get_user_stats] returns. *)
Record Stats : Type := {
  username : pyval;
  total_solved : pyval;
  easy : pyval;
  medium : pyval;
  hard : pyval;
  ranking : pyval
}.

(** The four counters of the loop over [acSubmissionNum]. *)
Record Counts : Type := { c_easy : pyval; c_medium : pyval; c_hard : pyval; c_total : pyval }.

Fixpoint difficulty_counts (submissions : list pyval) (c : Counts) : Result Counts :=
  match submissions with
  | [] => Returned c
  | stat :: rest =>
      let* difficulty := getitem stat "difficulty" in
      let* count := getitem stat "count" in
      difficulty_counts rest
        (if is_str difficulty "Easy" then
           {| c_easy := count; c_medium := c_medium c; c_hard := c_hard c; c_total := c_total c |}
         else if is_str difficulty "Medium" then
           {| c_easy := c_easy c; c_medium := count; c_hard := c_hard c; c_total := c_total c |}
         else if is_str difficulty "Hard" then
           {| c_easy := c_easy c; c_medium := c_medium c; c_hard := count; c_total := c_total c |}
         else if is_str difficulty "All" then
           {| c_easy := c_easy c; c_medium := c_medium c; c_hard := c_hard c; c_total := count |}
         else c)
  end.

(** [not data.get('data', {}).get('matchedUser')] *)
Definition no_matched_user (data : pyval) : Result bool :=
  let* d := Py.get data "data" (PDict []) in
  let* u := Py.get d "matchedUser" PNone in
  Returned (negb (truthy u)).

(** The body of the [try] of [get_user_stats]. *)
Definition get_user_stats_body (net : Network) (user : string) : M (option Stats) :=
  response <- send net {| verb := "POST"; url := GRAPHQL_URL; timeout := 15;
                          payload := Some (PDict [("query", PStr query);
                                                  ("variables", PDict [("username", PStr user)])]) |} ;;
  if negb (status_code response =? 200) then ret None else
  data <- lift (response_json response) ;;
  has_errors <- lift (contains data "errors") ;;
  unmatched <- (if has_errors : bool then ret true else lift (no_matched_user data)) ;;
  if unmatched : bool then ret None else
  data_field <- lift (getitem data "data") ;;
  user_data <- lift (getitem data_field "matchedUser") ;;
  submit_stats <- lift (getitem user_data "submitStats") ;;
  submissions <- lift (getitem submit_stats "acSubmissionNum") ;;
  items <- lift (iter submissions) ;;
  c <- lift (difficulty_counts items
               {| c_easy := PInt 0; c_medium := PInt 0; c_hard := PInt 0; c_total := PInt 0 |}) ;;
  name <- lift (getitem user_data "username") ;;
  profile <- lift (Py.get user_data "profile" (PDict [])) ;;
  rank <- lift (Py.get profile "ranking" (PInt 0)) ;;
  ret (Some {| username := name;
               total_solved := c_total c;
               easy := c_easy c;
               medium := c_medium c;
               hard := c_hard c;
               ranking := rank |}).

Definition caught (k : exn_kind) : bool :=
  match k with
  | RequestException => true
  | KeyError | ValueError | IndexError => true
  | _ => false
  end.

Definition get_user_stats (net : Network) (user : string) : M (option Stats) :=
  returning_none_on caught (get_user_stats_body net user).

(** [result = self.get_user_stats(username); return result is not None] *)
Definition validate_username_body (net : Network) (user : string) : M bool :=
  result <- get_user_stats net user ;;
  ret (match result with Some _ => true | None => false end).

Definition validate_username (net : Network) (user : string) : M bool :=
  returning_false_on_any (validate_username_body net user).

End LeetCode.

(** ** services/codechef.py *)

Module CodeChef.

Definition BASE_URL : string := "https://www.codechef.com".

(** The text functions of the standard library the scraper applies to the
    page; each is named after the expression of the source it stands for. *)
Record TextLib : Type := {
  int_of_stripped : string -> option Z;
    (* int(text.strip()); None when it raises ValueError *)
  first_number : string -> option Z;
    (* m = re.search(r'\d+', text); int(m.group()); None when there is no match *)
  int_of_count : string -> option Z;
    (* int(text.strip().replace('(', '').replace(')', '')); None on ValueError *)
  mentions_fully_solved : string -> bool;
    (* 'fully solved' in text.lower() *)
  fully_solved_number : string -> option Z
    (* m = re.search(r'"fully_solved"\s*:\s*(\d+)', text); int(m.group(1)) *)
}.

(** The dictionary [get_user_stats] returns. *)
Record Stats : Type := {
  username : string;
  rating : Z;
  solved : Z;
  stars : string
}.

Definition _get_star_rating (rating : Z) : string :=
  if rating >=? 2500 then "7★"
  else if rating >=? 2200 then "6★"
  else if rating >=? 1800 then "5★"
  else if rating >=? 1600 then "4★"
  else if rating >=? 1400 then "3★"
  else if rating >=? 1200 then "2★"
  else if rating >? 0 then "1★"
  else "Unrated".

Definition nonempty (text : string) : bool := negb (String.eqb text "").

(** "Try to find rating" and its alternative. *)
Definition find_rating (lib : TextLib) (page : Soup) : Z :=
  let rating :=
    match rating_number page with
    | Some text => match int_of_stripped lib text with Some n => n | None => 0 end
    | None => 0
    end in
  if rating =? 0 then
    match rating_text page with
    | Some text =>
        if nonempty text
        then match first_number lib text with Some n => n | None => rating end
        else rating
    | None => rating
    end
  else rating.

(** The loop over the script tags, left at the first match. *)
Fixpoint scan_scripts (lib : TextLib) (tags : list (option string)) (solved : Z) : Z :=
  match tags with
  | [] => solved
  | script :: rest =>
      match script with
      | Some text =>
          if nonempty text && mentions_fully_solved lib text
          then match fully_solved_number lib text with
               | Some n => n
               | None => scan_scripts lib rest solved
               end
          else scan_scripts lib rest solved
      | None => scan_scripts lib rest solved
      end
  end.

(** "Try to find solved count" and its two alternatives. *)
Definition find_solved (lib : TextLib) (page : Soup) : Z :=
  let solved :=
    match problems_solved page with
    | Some (Some text) => match first_number lib text with Some n => n | None => 0 end
    | _ => 0
    end in
  let solved :=
    if solved =? 0 then
      match fully_solved page with
      | Some (Some text) => match int_of_count lib text with Some n => n | None => solved end
      | _ => solved
      end
    else solved in
  if solved =? 0 then scan_scripts lib (scripts page) solved else solved.

(** The body of the [try] of [get_user_stats]. *)
Definition get_user_stats_body (net : Network) (lib : TextLib) (user : string)
  : M (option Stats) :=
  response <- send net {| verb := "GET"; url := BASE_URL ++ "/users/" ++ user;
                          timeout := 15; payload := None |} ;;
  if negb (status_code response =? 200) then ret None else
  let page := soup response in
  let rating := find_rating lib page in
  let solved := find_solved lib page in
  if (rating =? 0) && (solved =? 0) && negb (user_details_container page) then ret None
  else ret (Some {| username := user;
                    rating := rating;
                    solved := solved;
                    stars := _get_star_rating rating |}).

(** [except requests.RequestException] and then [except Exception]: every
    exception is caught. *)
Definition caught (k : exn_kind) : bool := true.

Definition get_user_stats (net : Network) (lib : TextLib) (user : string)
  : M (option Stats) :=
  returning_none_on caught (get_user_stats_body net lib user).

(** The body of the [try] of [validate_username]. *)
Definition validate_username_body (net : Network) (user : string) : M bool :=
  response <- send net {| verb := "GET"; url := BASE_URL ++ "/users/" ++ user;
                          timeout := 10; payload := None |} ;;
  ret (status_code response =? 200).

Definition validate_username (net : Network) (user : string) : M bool :=
  returning_false_on_any (validate_username_body net user).

End CodeChef.

(** ** models.py *)

Module StatsSnapshot.

(** A row of [stats_snapshots].  The statistics columns hold whatever Python
    value the scheduler stored: [PNone] is NULL.  Every row is inserted by
    the scheduler without a timestamp, so the column default stamps it: the
    timestamp is never NULL. *)
Record t : Type := {
  id : Z;
  student_id : Z;
  platform : string;
  rating : pyval;
  max_rating : pyval;
  solved : pyval;
  easy : pyval;
  medium : pyval;
  hard : pyval;
  timestamp : Z;
  fetch_status : string;
  error_message : option string
}.

End StatsSnapshot.

(** [ORDER BY key ASC|DESC]: a stable insertion sort. *)
Module Query.

Section OrderBy.
Context {A : Type}.
Variable before : Z -> Z -> bool.
Variable key : A -> Z.

Fixpoint insert (x : A) (l : list A) : list A :=
  match l with
  | [] => [x]
  | y :: rest => if before (key x) (key y) then x :: y :: rest else y :: insert x rest
  end.

Fixpoint order_by (l : list A) : list A :=
  match l with
  | [] => []
  | x :: rest => insert x (order_by rest)
  end.

End OrderBy.

Definition asc {A : Type} (key : A -> Z) : list A -> list A := order_by Z.leb key.
Definition desc {A : Type} (key : A -> Z) : list A -> list A := order_by Z.geb key.

(** [.first()] *)
Definition first {A : Type} (l : list A) : option A :=
  match l with
  | [] => None
  | x :: _ => Some x
  end.

End Query.

Module Student.

(** The columns of [students] the pipeline reads. *)
Record t : Type := {
  id : Z;
  name : string;
  roll_number : string;
  cf_handle : option string;
  lc_username : option string;
  cc_username : option string
}.

(** The relationship [stats_snapshots]: the rows of the student. *)
Definition stats_snapshots (self : t) (table : list StatsSnapshot.t) : list StatsSnapshot.t :=
  filter (fun row => StatsSnapshot.student_id row =? id self) table.

Definition get_latest_stats (self : t) (platform : string) (table : list StatsSnapshot.t)
  : option StatsSnapshot.t :=
  Query.first
    (Query.desc StatsSnapshot.timestamp
       (filter (fun row => String.eqb (StatsSnapshot.platform row) platform)
          (stats_snapshots self table))).

(** [timedelta(days=days)] in microseconds.  A [timedelta] holds at most
    999999999 days, and the C implementation converts the days to a C int
    first. *)
Definition timedelta_days (days : Z) : Result Z :=
  if Z.abs days <=? 999999999 then Returned (days * 86400000000)
  else if Z.abs days <=? 2147483647
       then Raised (Exn OverflowError
                      ("days=" ++ NilZero.string_of_int (Z.to_int days)
                       ++ "; must have magnitude <= 999999999"))
       else Raised (Exn OverflowError "Python int too large to convert to C int").

(** [datetime.min] and [datetime.max]: the first microsecond of year 1 and
    the last of year 9999. *)
Definition datetime_min : Z := -62135596800000000.
Definition datetime_max : Z := 253402300799999999.

(** [moment - delta] for a [datetime] and a [timedelta] *)
Definition datetime_sub (moment delta : Z) : Result Z :=
  if (datetime_min <=? moment - delta) && (moment - delta <=? datetime_max)
  then Returned (moment - delta)
  else Raised (Exn OverflowError "date value out of range").

(** [utcnow] is the reading of the clock at the call. *)
Definition get_stats_history (self : t) (platform : string) (days : Z) (utcnow : Z)
  (table : list StatsSnapshot.t) : Result (list StatsSnapshot.t) :=
  let* delta := timedelta_days days in
  let* cutoff := datetime_sub utcnow delta in
  Returned
    (Query.asc StatsSnapshot.timestamp
       (filter (fun row => String.eqb (StatsSnapshot.platform row) platform
                           && (StatsSnapshot.timestamp row >=? cutoff))
          (stats_snapshots self table))).

End Student.

(** ** scheduler.py *)

Module Scheduler.

(** What [db.session.commit()] does with the pending row: the engine either
    inserts it, stamping it with the clock ([default=datetime.utcnow]), or
    refuses it, and the flush fails. *)
Inductive CommitOutcome : Type :=
| Committed (utcnow : Z)
| Rejected (msg : string).

(** The outside world of the scheduler. *)
Record Env : Type := {
  network : Network;                 (* the three platforms *)
  fmt : pyval -> string;             (* formatting inside an f-string *)
  text : CodeChef.TextLib;
  commit : nat -> CommitOutcome      (* the outcome of the [n]-th commit *)
}.

(** [db.session] as the running thread sees it.  The session belongs to the
    application context of the thread.  A thread without a context has none:
    every use of [db.session] raises [RuntimeError].  After a flush that
    failed, SQLAlchemy has rolled the transaction back and expired the rows
    the session had loaded; until [rollback()] is called every statement,
    and so every read of a column of such a row, raises
    [PendingRollbackError]. *)
Inductive Session : Type :=
| NoContext
| Active
| Inactive.

(** What an adapter call gave. *)
Inductive CallResult : Type :=
| Got                       (* a dictionary *)
| Absent                    (* None *)
| Fault (e : exn).          (* it raised *)

(** What the scheduler does, in order: the adapter calls and the sleeps of
    the retry loops, the batches and the sleeps between them. *)
Inductive Event : Type :=
| Called (student_id : Z) (platform : string) (r : CallResult)
| Waited (ms : Z)
| BatchStarted (number : nat) (members : list Z)
| Paused (ms : Z).

Record State : Type := {
  students : list Student.t;             (* the table [students] *)
  snapshots : list StatsSnapshot.t;      (* the table [stats_snapshots], oldest row first *)
  commits : nat;                         (* commits that reached the engine so far *)
  net : Net;
  log : list Event;
  session : Session                      (* of the running thread *)
}.

(** Scheduler code: it may raise, and it changes the state. *)
Definition Run (A : Type) : Type := State -> Result A * State.

Definition done {A : Type} (a : A) : Run A := fun s => (Returned a, s).

Definition raise {A : Type} (e : exn) : Run A := fun s => (Raised e, s).

Definition and_then {A B : Type} (m : Run A) (k : A -> Run B) : Run B :=
  fun s =>
    match m s with
    | (Returned a, s') => k a s'
    | (Raised e, s') => (Raised e, s')
    end.

Notation "x <~ m ;; k" := (and_then m (fun x => k))
  (at level 200, m at level 100, k at level 200, right associativity, only parsing).

(** [try: body except Exception as e: handler] *)
Definition try_except {A : Type} (body : Run A) (handler : exn -> Run A) : Run A :=
  fun s =>
    match body s with
    | (Raised e, s') => handler e s'
    | r => r
    end.

Definition set_session (v : Session) (s : State) : State :=
  {| students := students s; snapshots := snapshots s; commits := commits s;
     net := net s; log := log s; session := v |}.

Definition log_event (e : Event) (s : State) : State :=
  {| students := students s; snapshots := snapshots s; commits := commits s;
     net := net s; log := log s ++ [e]; session := session s |}.

(** The first sentence of the message of the two errors of the session. *)
Definition working_outside_context : exn :=
  Exn RuntimeError "Working outside of application context.".

Definition pending_rollback : exn :=
  Exn PendingRollbackError
    "This Session's transaction has been rolled back due to a previous exception during flush.".

(** Reading a column of a row the session loaded ([student.cf_handle],
    [student.id]).  The rows of the pool threads were loaded by the main
    thread and are read without the session; after a commit or a rollback
    the row is loaded again, from a table of students nothing here changes. *)
Definition attribute {A : Type} (value : A) : Run A :=
  fun s =>
    match session s with
    | Inactive => (Raised pending_rollback, s)
    | _ => (Returned value, s)
    end.

(** The primary key of the next row: one more than the largest in the table. *)
Definition next_id (table : list StatsSnapshot.t) : Z :=
  1 + fold_right (fun row m => Z.max (StatsSnapshot.id row) m) 0 table.

(** [db.session.add(snapshot); db.session.commit()].  The pending row gets its
    key and its timestamp when it is inserted.  A commit the engine refuses
    leaves the table as it was and the session inactive. *)
Definition add_and_commit (env : Env) (snapshot : Z -> Z -> StatsSnapshot.t) : Run unit :=
  fun s =>
    match session s with
    | NoContext => (Raised working_outside_context, s)
    | Inactive => (Raised pending_rollback, s)
    | Active =>
        match commit env (commits s) with
        | Committed utcnow =>
            (Returned tt,
             {| students := students s;
                snapshots := snapshots s ++ [snapshot (next_id (snapshots s)) utcnow];
                commits := S (commits s);
                net := net s; log := log s; session := Active |})
        | Rejected msg =>
            (Raised (Exn DatabaseError msg),
             {| students := students s; snapshots := snapshots s;
                commits := S (commits s);
                net := net s; log := log s; session := Inactive |})
        end
    end.

(** [db.session.rollback()] *)
Definition rollback : Run unit :=
  fun s =>
    match session s with
    | NoContext => (Raised working_outside_context, s)
    | _ => (Returned tt, set_session Active s)
    end.

(** [StatsSnapshot(student_id=..., platform=..., fetch_status='failed',
    error_message=..., solved=0)] *)
Definition failed_snapshot (student_id : Z) (platform : string) (error_message : string)
  : Z -> Z -> StatsSnapshot.t :=
  fun id utcnow =>
    {| StatsSnapshot.id := id;
       StatsSnapshot.student_id := student_id;
       StatsSnapshot.platform := platform;
       StatsSnapshot.rating := PNone;
       StatsSnapshot.max_rating := PNone;
       StatsSnapshot.solved := PInt 0;
       StatsSnapshot.easy := PNone;
       StatsSnapshot.medium := PNone;
       StatsSnapshot.hard := PNone;
       StatsSnapshot.timestamp := utcnow;
       StatsSnapshot.fetch_status := "failed";
       StatsSnapshot.error_message := Some error_message |}.

(** The [except] branch prints and rolls back; an exception of the rollback
    leaves the function. *)
Definition _save_failed_snapshot (env : Env) (student_id : Z) (platform : string)
  (error_message : string) : Run unit :=
  try_except
    (add_and_commit env (failed_snapshot student_id platform error_message))
    (fun _ => rollback).

(** [time.sleep(2)] in a retry loop *)
Definition wait (ms : Z) : Run unit := fun s => (Returned tt, log_event (Waited ms) s).

(** [time.sleep(2)] between two batches *)
Definition pause (ms : Z) (s : State) : State := log_event (Paused ms) s.

Definition summary {D : Type} (r : Result (option D)) : CallResult :=
  match r with
  | Returned (Some _) => Got
  | Returned None => Absent
  | Raised e => Fault e
  end.

Definition max_retries : nat := 3.

(** The handle as it appears in a URL. *)
Definition handle_text (h : option string) : string :=
  match h with
  | Some x => x
  | None => "None"
  end.

(** How an iteration of the loop ends when it does not raise: with [return],
    or at its end or a [continue]. *)
Inductive Flow : Type :=
| Leave
| Go_on.

(** The retry loop.  [_fetch_codeforces_stats], [_fetch_leetcode_stats] and
    [_fetch_codechef_stats] are the same loop around three adapters and three
    constructors of the success row; the loop is written once, over the
    column [handle] of the student, the adapter [adapter] and the
    constructor [success_snapshot]. *)
Section RetryLoop.
Context {D : Type}.
Variable env : Env.
Variable student_id : Z.
Variable handle : option string.
Variable platform : string.
Variable adapter : string -> M (option D).
Variable success_snapshot : Z -> D -> Z -> Z -> StatsSnapshot.t.

(** The adapter call of an attempt. *)
Definition call_adapter (call : M (option D)) : Run (option D) :=
  fun s =>
    let (r, n) := call (net s) in
    (r, log_event (Called student_id platform (summary r))
          {| students := students s; snapshots := snapshots s; commits := commits s;
             net := n; log := log s; session := session s |}).

(** What both the [else] branch and the [except] clause do with a failed
    attempt: sleep and [continue] unless it was the last one, else save the
    failed snapshot and print. *)
Definition failed_attempt (attempt : nat) (error_message : string) : Run Flow :=
  if (attempt <? max_retries - 1)%nat
  then _ <~ wait 2000 ;; done Go_on
  else sid <~ attribute student_id ;;
       _ <~ _save_failed_snapshot env sid platform error_message ;;
       done Go_on.

(** The [try] block of an iteration. *)
Definition attempt_body (attempt : nat) : Run Flow :=
  h <~ attribute handle ;;
  data <~ call_adapter (adapter (handle_text h)) ;;
  match data with
  | Some d =>
      sid <~ attribute student_id ;;
      _ <~ add_and_commit env (success_snapshot sid d) ;;
      done Leave
  | None => failed_attempt attempt "Failed to fetch data"
  end.

(** One iteration of [for attempt in range(max_retries)]: the [except
    Exception] clause catches what the adapter, the session and the saving
    of the failed snapshot in the [else] branch raise. *)
Definition attempt_once (attempt : nat) : Run Flow :=
  try_except (attempt_body attempt) (fun e => failed_attempt attempt (message e)).

Fixpoint for_attempts (attempts : list nat) : Run unit :=
  match attempts with
  | [] => done tt
  | attempt :: rest =>
      flow <~ attempt_once attempt ;;
      match flow with
      | Leave => done tt
      | Go_on => for_attempts rest
      end
  end.

Definition fetch_with_retry : Run unit := for_attempts (seq 0 max_retries).

End RetryLoop.

(** [if student.cf_handle:] *)
Definition registered_handle (h : option string) : bool :=
  match h with
  | Some x => negb (String.eqb x "")
  | None => false
  end.

Definition codeforces_snapshot (student_id : Z) (data : Codeforces.Info)
  : Z -> Z -> StatsSnapshot.t :=
  fun id utcnow =>
    {| StatsSnapshot.id := id;
       StatsSnapshot.student_id := student_id;
       StatsSnapshot.platform := "CF";
       StatsSnapshot.rating := Codeforces.rating data;
       StatsSnapshot.max_rating := Codeforces.max_rating data;
       StatsSnapshot.solved := PInt (Codeforces.solved data);
       StatsSnapshot.easy := PNone;
       StatsSnapshot.medium := PNone;
       StatsSnapshot.hard := PNone;
       StatsSnapshot.timestamp := utcnow;
       StatsSnapshot.fetch_status := "success";
       StatsSnapshot.error_message := None |}.

Definition leetcode_snapshot (student_id : Z) (data : LeetCode.Stats)
  : Z -> Z -> StatsSnapshot.t :=
  fun id utcnow =>
    {| StatsSnapshot.id := id;
       StatsSnapshot.student_id := student_id;
       StatsSnapshot.platform := "LC";
       StatsSnapshot.rating := PNone;
       StatsSnapshot.max_rating := PNone;
       StatsSnapshot.solved := LeetCode.total_solved data;
       StatsSnapshot.easy := LeetCode.easy data;
       StatsSnapshot.medium := LeetCode.medium data;
       StatsSnapshot.hard := LeetCode.hard data;
       StatsSnapshot.timestamp := utcnow;
       StatsSnapshot.fetch_status := "success";
       StatsSnapshot.error_message := None |}.

Definition codechef_snapshot (student_id : Z) (data : CodeChef.Stats)
  : Z -> Z -> StatsSnapshot.t :=
  fun id utcnow =>
    {| StatsSnapshot.id := id;
       StatsSnapshot.student_id := student_id;
       StatsSnapshot.platform := "CC";
       StatsSnapshot.rating := PInt (CodeChef.rating data);
       StatsSnapshot.max_rating := PNone;
       StatsSnapshot.solved := PInt (CodeChef.solved data);
       StatsSnapshot.easy := PNone;
       StatsSnapshot.medium := PNone;
       StatsSnapshot.hard := PNone;
       StatsSnapshot.timestamp := utcnow;
       StatsSnapshot.fetch_status := "success";
       StatsSnapshot.error_message := None |}.

Definition _fetch_codeforces_stats (env : Env) (student : Student.t) : Run unit :=
  fetch_with_retry env (Student.id student) (Student.cf_handle student) "CF"
    (Codeforces.get_user_info (network env) (fmt env)) codeforces_snapshot.

Definition _fetch_leetcode_stats (env : Env) (student : Student.t) : Run unit :=
  fetch_with_retry env (Student.id student) (Student.lc_username student) "LC"
    (LeetCode.get_user_stats (network env)) leetcode_snapshot.

Definition _fetch_codechef_stats (env : Env) (student : Student.t) : Run unit :=
  fetch_with_retry env (Student.id student) (Student.cc_username student) "CC"
    (CodeChef.get_user_stats (network env) (text env)) codechef_snapshot.

(** [if student.<handle>: self._fetch_<platform>_stats(student)] *)
Definition when_registered (handle : option string) (fetch : Run unit) : Run unit :=
  h <~ attribute handle ;;
  if registered_handle h then fetch else done tt.

(** The three [if]s that [_fetch_student_all_platforms] and
    [fetch_student_stats] share. *)
Definition fetch_platforms (env : Env) (student : Student.t) : Run unit :=
  _ <~ when_registered (Student.cf_handle student) (_fetch_codeforces_stats env student) ;;
  _ <~ when_registered (Student.lc_username student) (_fetch_leetcode_stats env student) ;;
  when_registered (Student.cc_username student) (_fetch_codechef_stats env student).

Definition _fetch_student_all_platforms (env : Env) (student : Student.t) : Run unit :=
  _ <~ attribute (Student.name student) ;;
  _ <~ attribute (Student.roll_number student) ;;
  fetch_platforms env student.

(** [Student.query.get(student_id)] *)
Definition query_get (student_id : Z) (table : list Student.t) : option Student.t :=
  find (fun st => Student.id st =? student_id) table.

(** [with self.app.app_context():] the block runs with a context of its own,
    and so with a session of its own; the context is popped when the block is
    left, also by an exception, and its session is removed. *)
Definition with_app_context {A : Type} (block : Run A) : Run A :=
  fun s =>
    let (r, s') := block (set_session Active s) in
    (r, set_session (session s) s').

(** The scheduler is bound to the application ([scheduler.init_app(app)] in
    app.py). *)
Definition fetch_student_stats (env : Env) (student_id : Z) : Run bool :=
  with_app_context
    (fun s =>
       match query_get student_id (students s) with
       | None => done false s
       | Some student => (_ <~ fetch_platforms env student ;; done true) s
       end).

(** [range(0, stop, step)]: [ceil(stop / step)] items, the [k]-th is
    [k * step]. *)
Definition range0 (stop step : nat) : list nat :=
  map (fun k => (k * step)%nat) (seq 0 ((stop + step - 1) / step)).

(** [l[i:j]] for [0 <= i <= j] *)
Definition slice {A : Type} (l : list A) (i j : nat) : list A :=
  firstn (j - i) (skipn i l).

Definition batch_size : nat := 10.
Definition max_workers : nat := 5.

(** A call submitted to the pool runs in a thread of the pool.  No
    application context is pushed there: the one of [fetch_all_stats]
    belongs to the thread that called it.  What the call raises is kept in
    its future, which [concurrent.futures.wait] does not read. *)
Definition in_pool_thread (work : Run unit) (s : State) : State :=
  set_session (session s) (snd (work (set_session NoContext s))).

(** The worker pool of a batch: [_fetch_student_all_platforms] is submitted
    for each student of the batch and the pool is joined.  The embedding runs
    the submitted calls one after the other, in the order of submission. *)
Definition run_batch (env : Env) (batch : list Student.t) (s : State) : State :=
  fold_left (fun s student => in_pool_thread (_fetch_student_all_platforms env student) s)
    batch s.

(** The body of [for i in range(0, len(students), batch_size)]. *)
Definition batch_step (env : Env) (roster : list Student.t) (s : State) (i : nat) : State :=
  let batch := slice roster i (i + batch_size) in
  let s := log_event (BatchStarted (i / batch_size + 1) (map Student.id batch)) s in
  let s := run_batch env batch s in
  if (i + batch_size <? List.length roster)%nat then pause 2000 s else s.

(** [app] tells whether the scheduler was initialised with the application.
    The function returns [None] on every path, and nothing it calls raises
    into it: the state after the call is all there is to it. *)
Definition fetch_all_stats (env : Env) (app : bool) (s : State) : State :=
  if negb app then s
  else
    snd (with_app_context
           (fun s =>
              let roster := students s in
              match roster with
              | [] => done tt s
              | _ =>
                  done tt
                    (fold_left (batch_step env roster)
                       (range0 (List.length roster) batch_size) s)
              end) s).

End Scheduler.

Import Scheduler.
Open Scope list_scope.

(** ** The vocabulary of the specification *)

Module Spec.

(** The snapshot store accepts every write. *)
Definition accepting (env : Env) : Prop :=
  forall n, exists utcnow, commit env n = Committed utcnow.

(** The log of a retry loop whose adapter calls gave [rs]: one call per
    attempt, and the fixed delay between two attempts. *)
Fixpoint attempts_log (student_id : Z) (platform : string) (rs : list CallResult)
  : list Event :=
  match rs with
  | [] => []
  | r :: rest =>
      match rest with
      | [] => [Called student_id platform r]
      | _ => Called student_id platform r :: Waited 2000 :: attempts_log student_id platform rest
      end
  end.

(** The error a failed attempt leaves. *)
Definition error_text (r : CallResult) : string :=
  match r with
  | Fault e => message e
  | _ => "Failed to fetch data"%string
  end.

(** The retry policy, between the state [s] before the loop and the state
    [s'] after it: at most [max_retries] attempts; either the last attempt is
    the first that gave data, and its success row is the one row appended, or
    all [max_retries] attempts failed and the one row appended is the failed
    snapshot carrying the error of the last attempt. *)
Definition retry_policy {D : Type} (student_id : Z) (platform : string)
  (call : M (option D)) (success_snapshot : D -> Z -> Z -> StatsSnapshot.t)
  (s s' : State) : Prop :=
  exists rs : list CallResult,
    log s' = log s ++ attempts_log student_id platform rs /\
    (1 <= List.length rs <= max_retries)%nat /\
    ((exists fails d n utcnow,
         rs = fails ++ [Got] /\ ~ In Got fails /\
         fst (call n) = Returned (Some d) /\
         snapshots s' =
           snapshots s ++ [success_snapshot d (next_id (snapshots s)) utcnow])
     \/
     (List.length rs = max_retries /\ ~ In Got rs /\
      exists utcnow,
        snapshots s' =
          snapshots s ++ [failed_snapshot student_id platform (error_text (last rs Absent))
                            (next_id (snapshots s)) utcnow])).

(** [appended P t t']: the table [t'] is [t] followed by new rows, each with
    a fresh key and each satisfying [P]. *)
Inductive appended (P : StatsSnapshot.t -> Prop)
  : list StatsSnapshot.t -> list StatsSnapshot.t -> Prop :=
| appended_none t : appended P t t
| appended_row t t' row :
    appended P t t' -> P row -> StatsSnapshot.id row = next_id t' ->
    appended P t (t' ++ [row]).

Definition platforms : list string := ["CF"; "LC"; "CC"]%string.

(** The handle a student registered for a platform. *)
Definition handle_for (student : Student.t) (platform : string) : option string :=
  if String.eqb platform "CF" then Student.cf_handle student
  else if String.eqb platform "LC" then Student.lc_username student
  else if String.eqb platform "CC" then Student.cc_username student
  else None.

Definition registered (student : Student.t) (platform : string) : bool :=
  registered_handle (handle_for student platform).

(** The (student, platform) pairs a cycle over [roster] has to process. *)
Definition work_list (roster : list Student.t) : list (Z * string) :=
  flat_map (fun st => map (fun p => (Student.id st, p)) (filter (registered st) platforms))
    roster.

(** The run of one pair in a cycle: what it logged and the row it appended. *)
Definition pair_run (student_id : Z) (platform : string) (events : list Event)
  (row : StatsSnapshot.t) : Prop :=
  exists rs : list CallResult,
    events = attempts_log student_id platform rs /\
    (1 <= List.length rs <= max_retries)%nat /\
    StatsSnapshot.student_id row = student_id /\
    StatsSnapshot.platform row = platform /\
    ((In Got rs /\ StatsSnapshot.fetch_status row = "success"%string)
     \/
     (~ In Got rs /\ List.length rs = max_retries /\
      StatsSnapshot.fetch_status row = "failed"%string)).

(** A cycle over the pairs [work]: the runs of the pairs one after the other,
    one row each. *)
Inductive cycle_runs : list (Z * string) -> list Event -> list StatsSnapshot.t -> Prop :=
| cycle_done : cycle_runs [] [] []
| cycle_pair student_id platform events row work events' rows :
    pair_run student_id platform events row ->
    cycle_runs work events' rows ->
    cycle_runs ((student_id, platform) :: work) (events ++ events') (row :: rows).

(** The batches [fetch_all_stats] cuts the roster into. *)
Definition batches_of (roster : list Student.t) : list (list Student.t) :=
  map (fun i => slice roster i (i + batch_size)) (range0 (List.length roster) batch_size).

(** What [_fetch_student_all_platforms] logs in a thread of the pool: the
    three attempts of the first platform the student registered, and the two
    delays between them; nothing for a student without a handle. *)
Definition worker_log (student : Student.t) (events : list Event) : Prop :=
  match filter (registered student) platforms with
  | [] => events = []
  | platform :: _ =>
      exists r1 r2 r3,
        events = attempts_log (Student.id student) platform [r1; r2; r3]
  end.

(** What the workers of a batch log, one student after the other. *)
Inductive workers_log : list Student.t -> list Event -> Prop :=
| workers_none : workers_log [] []
| workers_next student rest events l :
    worker_log student events -> workers_log rest l ->
    workers_log (student :: rest) (events ++ l).

(** The log of a cycle over [batches], numbered from [number]: each batch is
    started, its workers run, and a pause follows unless it is the last. *)
Inductive batches_log : nat -> list (list Student.t) -> list Event -> Prop :=
| batches_last number b w :
    workers_log b w ->
    batches_log number [b] (BatchStarted number (map Student.id b) :: w)
| batches_more number b b' rest w l :
    workers_log b w ->
    batches_log (S number) (b' :: rest) l ->
    batches_log number (b :: b' :: rest)
      (BatchStarted number (map Student.id b) :: w ++ Paused 2000 :: l).

(** The rows of a (student, platform) pair. *)
Definition rows_of (student_id : Z) (platform : string) (table : list StatsSnapshot.t)
  : list StatsSnapshot.t :=
  filter (fun row => (StatsSnapshot.student_id row =? student_id)
                     && String.eqb (StatsSnapshot.platform row) platform) table.

(** The zero/absent payload of a failed snapshot. *)
Definition failed_payload (row : StatsSnapshot.t) : Prop :=
  StatsSnapshot.fetch_status row = "failed"%string /\
  StatsSnapshot.solved row = PInt 0 /\
  StatsSnapshot.rating row = PNone /\
  StatsSnapshot.max_rating row = PNone /\
  StatsSnapshot.easy row = PNone /\
  StatsSnapshot.medium row = PNone /\
  StatsSnapshot.hard row = PNone.

(** Worker events: what the retry loops log. *)
Definition is_worker (e : Event) : bool :=
  match e with
  | Called _ _ _ | Waited _ => true
  | _ => false
  end.

(** Between [s] and [s'] the pairs [work] were processed, in order: the
    worker events logged are the runs of the pairs, and one row per pair was
    appended. *)
Definition cycle_between (work : list (Z * string)) (s s' : State) : Prop :=
  exists l rows,
    log s' = log s ++ l /\
    snapshots s' = snapshots s ++ rows /\
    cycle_runs work (filter is_worker l) rows /\
    List.length rows = List.length work.

(** Between [s] and [s'] the rows [rows] were appended, the events [events]
    were logged, [k] commits reached the engine, and the session was left
    in the state [v]; the roster is as it was. *)
Definition ends (s s' : State) (rows : list StatsSnapshot.t) (events : list Event)
  (k : nat) (v : Session) : Prop :=
  students s' = students s /\
  snapshots s' = snapshots s ++ rows /\
  log s' = log s ++ events /\
  commits s' = (commits s + k)%nat /\
  session s' = v.

(** The state after an adapter call for the pair: the call gave [r] and left
    the connection as [n]. *)
Definition after_call {D : Type} (student_id : Z) (platform : string)
  (r : Result (option D)) (n : Net) (s : State) : State :=
  {| students := students s; snapshots := snapshots s; commits := commits s;
     net := n; log := log s ++ [Called student_id platform (summary r)];
     session := session s |}.




(** The students of a roster with a handle on some platform. *)
Definition with_handle (roster : list Student.t) : list Student.t :=
  filter (fun student => match filter (registered student) platforms with
                         | [] => false
                         | _ => true
                         end) roster.

(** [touches K s s']: between [s] and [s'] only retry loops ran, and only for
    pairs in [K]: the roster is as it was, the table got fresh rows of pairs
    in [K], the log got calls for pairs in [K] and delays. *)
Definition touches (K : Z -> string -> Prop) (s s' : State) : Prop :=
  students s' = students s /\
  appended (fun row => K (StatsSnapshot.student_id row) (StatsSnapshot.platform row))
    (snapshots s) (snapshots s') /\
  exists l, log s' = log s ++ l /\
    Forall (fun e => match e with
                     | Called a b _ => K a b
                     | Waited _ => True
                     | _ => False
                     end) l.

(** The same for a whole cycle, whose log also has the events of the batch
    loop. *)
Definition cycle_touches (K : Z -> string -> Prop) (s s' : State) : Prop :=
  students s' = students s /\
  appended (fun row => K (StatsSnapshot.student_id row) (StatsSnapshot.platform row))
    (snapshots s) (snapshots s') /\
  exists l, log s' = log s ++ l /\
    Forall (fun e => match e with
                     | Called a b _ => K a b
                     | _ => True
                     end) l.

Definition student_work (st : Student.t) : list (Z * string) :=
  map (fun p => (Student.id st, p)) (filter (registered st) platforms).

Definition student_pairs (st : Student.t) : Z -> string -> Prop :=
  fun a b => a = Student.id st /\ registered st b = true.

Definition roster_pairs (roster : list Student.t) : Z -> string -> Prop :=
  fun a b => exists st, In st roster /\ a = Student.id st /\ registered st b = true.

(** The pair [(a, p)] is left alone between [s] and [s']: no row is appended
    for it and no adapter call is made for it. *)
Definition untouched (a : Z) (p : string) (s s' : State) : Prop :=
  rows_of a p (snapshots s') = rows_of a p (snapshots s) /\
  forall r, In (Called a p r) (log s') -> In (Called a p r) (log s).

(** The number of batches of a roster of [n] students, and the [k]-th batch. *)
Definition batch_count (n : nat) : nat := (n + batch_size - 1) / batch_size.

Definition batch_at (roster : list Student.t) (k : nat) : list Student.t :=
  slice roster (k * batch_size) (k * batch_size + batch_size).

End Spec.

Import Spec.

(** ** Concrete environments, students and states *)

Module Examples.

Definition empty_page : Soup :=
  {| rating_number := None; rating_text := None; problems_solved := None;
     fully_solved := None; scripts := []; user_details_container := false |}.

Definition json_response (v : pyval) : Response :=
  {| status_code := 200; json := Some v; soup := empty_page |}.

(** Formatting of the values that occur in the examples. *)
Definition format (v : pyval) : string :=
  match v with
  | PStr s => s
  | PInt z => NilZero.string_of_int (Z.to_int z)
  | _ => ""%string
  end.

(** Texts of the examples are plain numbers. *)
Definition number (s : string) : option Z := option_map Z.of_int (NilZero.int_of_string s).

Definition texts : CodeChef.TextLib :=
  {| CodeChef.int_of_stripped := number;
     CodeChef.first_number := number;
     CodeChef.int_of_count := number;
     CodeChef.mentions_fully_solved := fun _ => false;
     CodeChef.fully_solved_number := fun _ => None |}.

Definition user_info : pyval :=
  PDict [("status", PStr "OK");
         ("result", PList [PDict [("handle", PStr "tourist"); ("rating", PInt 1500);
                                  ("maxRating", PInt 1600)]])]%string.

Definition user_status : pyval :=
  PDict [("status", PStr "OK");
         ("result",
          PList [PDict [("verdict", PStr "OK");
                        ("problem", PDict [("contestId", PInt 1); ("index", PStr "A")])];
                 PDict [("verdict", PStr "WRONG_ANSWER");
                        ("problem", PDict [("contestId", PInt 2); ("index", PStr "B")])]])]%string.

(** Codeforces answers both requests. *)
Definition codeforces_up : Network :=
  fun _ r =>
    if String.prefix (Codeforces.BASE_URL ++ "/user.info")%string (url r)
    then Answered (json_response user_info)
    else Answered (json_response user_status).

(** Every request fails. *)
Definition network_down : Network := fun _ _ => Failed "Connection refused".

(** A 200 answer whose body is the JSON array []. *)
Definition array_body : Network := fun _ _ => Answered (json_response (PList [])).

(** A 200 answer whose body is the JSON object {"data": null}. *)
Definition null_data : Network :=
  fun _ _ => Answered (json_response (PDict [("data", PNone)]%string)).

Definition idle : Net := {| requests_made := 0; net_log := [] |}.

Definition clock (n : nat) : CommitOutcome := Committed (1700000000000000 + Z.of_nat n).

Definition accepting_env : Env :=
  {| network := codeforces_up; fmt := format; text := texts; commit := clock |}.

Definition failing_env : Env :=
  {| network := network_down; fmt := format; text := texts; commit := clock |}.

Definition rejecting_env : Env :=
  {| network := codeforces_up; fmt := format; text := texts;
     commit := fun _ => Rejected "database is locked" |}.

Definition student (id : Z) (cf : option string) : Student.t :=
  {| Student.id := id; Student.name := "student"; Student.roll_number := "R";
     Student.cf_handle := cf; Student.lc_username := None; Student.cc_username := Some "" |}.

Definition alice : Student.t := student 1 (Some "tourist"%string).
Definition bob : Student.t := student 2 None.

Definition state_of (roster : list Student.t) : State :=
  {| students := roster; snapshots := []; commits := 0; net := idle; log := [];
     session := Active |}.

Definition start : State := state_of [alice; bob].

Definition roster23 : list Student.t :=
  map (fun k => student (Z.of_nat k) (Some "tourist"%string)) (seq 1 23).

End Examples.

(** ** The requests of the adapters and the parts of their bodies *)

Module Wire.

Definition info_request (handle : string) : Request :=
  {| verb := "GET"; url := (Codeforces.BASE_URL ++ "/user.info?handles=" ++ handle)%string;
     timeout := 10; payload := None |}.

Definition status_request (handle : string) : Request :=
  {| verb := "GET"; url := (Codeforces.BASE_URL ++ "/user.status?handle=" ++ handle)%string;
     timeout := 10; payload := None |}.

Definition graphql_request (user : string) : Request :=
  {| verb := "POST"; url := LeetCode.GRAPHQL_URL; timeout := 15;
     payload := Some (PDict [("query", PStr LeetCode.query);
                             ("variables", PDict [("username", PStr user)])]%string) |}.

Definition profile_request (user : string) (seconds : Z) : Request :=
  {| verb := "GET"; url := (CodeChef.BASE_URL ++ "/users/" ++ user)%string;
     timeout := seconds; payload := None |}.

(** The connection after one more request, and after a sleep. *)
Definition sent (r : Request) (n : Net) : Net :=
  {| requests_made := S (requests_made n); net_log := net_log n ++ [Sent r] |}.

Definition slept (ms : Z) (n : Net) : Net :=
  {| requests_made := requests_made n; net_log := net_log n ++ [Slept ms] |}.

(** A submission the loop of [get_user_info] counts:
    [submission.get('verdict') == 'OK']. *)
Definition accepted (submission : pyval) : bool :=
  match Py.get submission "verdict" PNone with
  | Returned verdict => is_str verdict "OK"
  | Raised _ => false
  end.

(** The id the loop of [get_user_info] forms for a submission. *)
Definition problem_id (fmt : pyval -> string) (submission : pyval) : Result string :=
  let* problem := getitem submission "problem" in
  let* contestId := getitem problem "contestId" in
  let* index := getitem problem "index" in
  Returned (fmt contestId ++ fmt index)%string.

(** [get_user_info] between its two requests: the user object of the first
    response, [None] when the status is not OK. *)
Definition user_of (response : Response) : Result (option pyval) :=
  let* data := response_json response in
  let* status := getitem data "status" in
  if negb (is_str status "OK") then Returned None else
  let* result := getitem data "result" in
  let* user := getitem0 result in
  Returned (Some user).

(** [get_user_info] after its second request: the set of solved problems of
    the second response. *)
Definition solved_set_of (fmt : pyval -> string) (submissions_response : Response)
  : Result (list string) :=
  if status_code submissions_response =? 200 then
    let* submissions_data := response_json submissions_response in
    let* submissions_status := getitem submissions_data "status" in
    if is_str submissions_status "OK" then
      let* submissions := getitem submissions_data "result" in
      let* items := iter submissions in
      Codeforces.solved_problems fmt items []
    else Returned []
  else Returned [].

(** The dictionary [get_user_info] returns, from the user object and the set. *)
Definition info_of (user : pyval) (solved_set : list string) : Result (option Codeforces.Info) :=
  let* user_rating := Py.get user "rating" (PInt 0) in
  let* user_max_rating := Py.get user "maxRating" (PInt 0) in
  let* user_handle := Py.get user "handle" PNone in
  let* user_rank := Py.get user "rank" (PStr "Unrated") in
  Returned (Some {| Codeforces.rating := user_rating;
                    Codeforces.max_rating := user_max_rating;
                    Codeforces.solved := Z.of_nat (List.length solved_set);
                    Codeforces.handle := user_handle;
                    Codeforces.rank := user_rank |}).

(** [d.get(key, default)] on the items of a dictionary *)
Definition lookup_or (d : list (string * pyval)) (key : string) (default : pyval) : pyval :=
  match dict_lookup d key with
  | Some x => x
  | None => default
  end.

(** The counter of the LeetCode [get_user_stats] a difficulty name feeds. *)
Definition counter (name : string) (c : LeetCode.Counts) : pyval :=
  if String.eqb name "Easy" then LeetCode.c_easy c
  else if String.eqb name "Medium" then LeetCode.c_medium c
  else if String.eqb name "Hard" then LeetCode.c_hard c
  else LeetCode.c_total c.

Definition difficulty_names : list string := ["Easy"; "Medium"; "Hard"; "All"]%string.

(** The entry [stat] is about the difficulty [name]. *)
Definition names (stat : pyval) (name : string) : bool :=
  match getitem stat "difficulty" with
  | Returned d => is_str d name
  | Raised _ => false
  end.

End Wire.

(** ** Counting the work of the scheduler *)

Module Cost.

Definition is_call (e : Event) : bool :=
  match e with
  | Called _ _ _ => true
  | _ => false
  end.

Definition is_wait (e : Event) : bool :=
  match e with
  | Waited _ => true
  | _ => false
  end.

(** The adapter calls and the retry delays in a log. *)
Definition calls (l : list Event) : nat := List.length (filter is_call l).
Definition waits (l : list Event) : nat := List.length (filter is_wait l).

(** A row as the scheduler writes it: of one of the three platforms, and
    either a success row without an error message or a failed row with the
    zero/absent payload and an error message. *)
Definition well_formed (row : StatsSnapshot.t) : Prop :=
  In (StatsSnapshot.platform row) platforms /\
  ((StatsSnapshot.fetch_status row = "success"%string /\
    StatsSnapshot.error_message row = None)
   \/
   (failed_payload row /\ exists msg, StatsSnapshot.error_message row = Some msg)).

(** Between [s] and [s'] at most [k] retry loops ran. *)
Definition effect (k : nat) (s s' : State) : Prop :=
  exists l rows,
    log s' = log s ++ l /\
    snapshots s' = snapshots s ++ rows /\
    (calls l <= 3 * k)%nat /\
    (waits l <= 2 * k)%nat /\
    (List.length rows <= k)%nat /\
    Forall well_formed rows /\
    Forall (fun e => is_worker e = true) l.

End Cost.

(** ** The newest snapshot of a pair *)

Module Latest.

(** The cutoff of a window of [days] days at the reading [utcnow] of the
    clock. *)
Definition cutoff (days utcnow : Z) : Z := utcnow - days * 86400000000.

(** The window is one [timedelta] holds, and its cutoff is a [datetime]. *)
Definition representable (days utcnow : Z) : Prop :=
  Z.abs days <= 999999999 /\
  Student.datetime_min <= cutoff days utcnow <= Student.datetime_max.

(** [row] is a snapshot of the student on the platform. *)
Definition of_pair (self : Student.t) (platform : string) (row : StatsSnapshot.t) : bool :=
  (StatsSnapshot.student_id row =? Student.id self)
  && String.eqb (StatsSnapshot.platform row) platform.

(** [latest] is a snapshot of the pair and every other one is strictly
    older: no two snapshots share the largest timestamp. *)
Definition only_newest (self : Student.t) (platform : string) (table : list StatsSnapshot.t)
  (latest : StatsSnapshot.t) : Prop :=
  In latest (rows_of (Student.id self) platform table) /\
  forall other, In other (rows_of (Student.id self) platform table) ->
                other = latest \/
                StatsSnapshot.timestamp other < StatsSnapshot.timestamp latest.

End Latest.

(** ** app.py: the leaderboard of the admin dashboard *)

Module Dashboard.

(** [func.max(StatsSnapshot.timestamp)] of the group of a student in the
    subquery of a platform; [None] when the group is empty. *)
Definition max_timestamp (platform : string) (student_id : Z) (table : list StatsSnapshot.t)
  : option Z :=
  match rows_of student_id platform table with
  | [] => None
  | row :: rest =>
      Some (fold_right (fun r m => Z.max (StatsSnapshot.timestamp r) m)
              (StatsSnapshot.timestamp row) rest)
  end.

(** The bulk query of a platform: the rows of the platform, of a student of
    the page, whose timestamp is the largest of their group.  The query has
    no ORDER BY; the rows are taken in the order of the table, which matters
    only when two rows of a group share the largest timestamp. *)
Definition latest_rows (platform : string) (student_ids : list Z)
  (table : list StatsSnapshot.t) : list StatsSnapshot.t :=
  filter (fun row =>
            String.eqb (StatsSnapshot.platform row) platform
            && existsb (Z.eqb (StatsSnapshot.student_id row)) student_ids
            && match max_timestamp platform (StatsSnapshot.student_id row) table with
               | Some m => StatsSnapshot.timestamp row =? m
               | None => false
               end)
    table.

(** [{s.student_id: s for s in stats}]: a later row replaces an earlier one. *)
Definition stats_dict (stats : list StatsSnapshot.t) (student_id : Z) : option StatsSnapshot.t :=
  find (fun row => StatsSnapshot.student_id row =? student_id) (rev stats).

(** [fetch_status == 'success'] *)
Definition visible (row : StatsSnapshot.t) : bool :=
  String.eqb (StatsSnapshot.fetch_status row) "success".

Definition cf_entry (student : Student.t) (cf_stats_dict : Z -> option StatsSnapshot.t) : pyval :=
  if registered_handle (Student.cf_handle student) then
    match cf_stats_dict (Student.id student) with
    | Some cf_stat =>
        if String.eqb (StatsSnapshot.fetch_status cf_stat) "success"
        then PDict [("rating", StatsSnapshot.rating cf_stat);
                    ("max_rating", StatsSnapshot.max_rating cf_stat);
                    ("solved", StatsSnapshot.solved cf_stat)]%string
        else PNone
    | None => PNone
    end
  else PNone.

Definition lc_entry (student : Student.t) (lc_stats_dict : Z -> option StatsSnapshot.t) : pyval :=
  if registered_handle (Student.lc_username student) then
    match lc_stats_dict (Student.id student) with
    | Some lc_stat =>
        if String.eqb (StatsSnapshot.fetch_status lc_stat) "success"
        then PDict [("solved", StatsSnapshot.solved lc_stat);
                    ("easy", StatsSnapshot.easy lc_stat);
                    ("medium", StatsSnapshot.medium lc_stat);
                    ("hard", StatsSnapshot.hard lc_stat)]%string
        else PNone
    | None => PNone
    end
  else PNone.

Definition cc_entry (student : Student.t) (cc_stats_dict : Z -> option StatsSnapshot.t) : pyval :=
  if registered_handle (Student.cc_username student) then
    match cc_stats_dict (Student.id student) with
    | Some cc_stat =>
        if String.eqb (StatsSnapshot.fetch_status cc_stat) "success"
        then PDict [("rating", StatsSnapshot.rating cc_stat);
                    ("solved", StatsSnapshot.solved cc_stat)]%string
        else PNone
    | None => PNone
    end
  else PNone.

(** An item of [leaderboard_data]. *)
Record student_data : Type := {
  id : Z;
  name : string;
  roll_number : string;
  cf_handle : option string;
  lc_username : option string;
  cc_username : option string;
  cf_stats : pyval;
  lc_stats : pyval;
  cc_stats : pyval
}.

(** [leaderboard_data] of [admin_dashboard], before the platform filter and
    the sort: [students] is the page of students the view loaded. *)
Definition leaderboard_data (students : list Student.t) (table : list StatsSnapshot.t)
  : list student_data :=
  let student_ids := map Student.id students in
  let cf_stats_dict := stats_dict (latest_rows "CF" student_ids table) in
  let lc_stats_dict := stats_dict (latest_rows "LC" student_ids table) in
  let cc_stats_dict := stats_dict (latest_rows "CC" student_ids table) in
  map (fun student =>
         {| id := Student.id student;
            name := Student.name student;
            roll_number := Student.roll_number student;
            cf_handle := Student.cf_handle student;
            lc_username := Student.lc_username student;
            cc_username := Student.cc_username student;
            cf_stats := cf_entry student cf_stats_dict;
            lc_stats := lc_entry student lc_stats_dict;
            cc_stats := cc_entry student cc_stats_dict |})
      students.

(** The entry of a platform in an item. *)
Definition entry (platform : string) (item : student_data) : pyval :=
  if String.eqb platform "CF" then cf_stats item
  else if String.eqb platform "LC" then lc_stats item
  else cc_stats item.

(** The snapshot the dashboard reads for a student on a platform. *)
Definition shown (platform : string) (students : list Student.t)
  (table : list StatsSnapshot.t) (student : Student.t) : option StatsSnapshot.t :=
  stats_dict (latest_rows platform (map Student.id students) table) (Student.id student).

(** The item of a student of the page. *)
Definition item (students : list Student.t) (table : list StatsSnapshot.t)
  (student : Student.t) : student_data :=
  let student_ids := map Student.id students in
  {| id := Student.id student;
     name := Student.name student;
     roll_number := Student.roll_number student;
     cf_handle := Student.cf_handle student;
     lc_username := Student.lc_username student;
     cc_username := Student.cc_username student;
     cf_stats := cf_entry student (stats_dict (latest_rows "CF" student_ids table));
     lc_stats := lc_entry student (stats_dict (latest_rows "LC" student_ids table));
     cc_stats := cc_entry student (stats_dict (latest_rows "CC" student_ids table)) |}.

End Dashboard.

(** ** More answers, pages and tables *)

Module Cases.

(** Codeforces answers the first request and not the second. *)
Definition status_down : Network :=
  fun _ r =>
    if String.prefix (Codeforces.BASE_URL ++ "/user.info")%string (url r)
    then Answered (Examples.json_response Examples.user_info)
    else Failed "Read timed out".

(** An accepted submission to a problem that belongs to no contest. *)
Definition gym_status : pyval :=
  PDict [("status", PStr "OK");
         ("result",
          PList [PDict [("verdict", PStr "OK");
                        ("problem", PDict [("problemsetName", PStr "acmsguru");
                                           ("index", PStr "A")])]])]%string.

Definition gym : Network :=
  fun _ r =>
    if String.prefix (Codeforces.BASE_URL ++ "/user.info")%string (url r)
    then Answered (Examples.json_response Examples.user_info)
    else Answered (Examples.json_response gym_status).

(** LeetCode does not know the user. *)
Definition no_match : list (string * pyval) :=
  [("data", PDict [("matchedUser", PNone)])]%string.

Definition unknown_user : Network :=
  fun _ _ => Answered (Examples.json_response (PDict no_match)).

Definition entry (difficulty : string) (count : Z) : pyval :=
  PDict [("difficulty", PStr difficulty); ("count", PInt count)]%string.

Definition zero : LeetCode.Counts :=
  {| LeetCode.c_easy := PInt 0; LeetCode.c_medium := PInt 0;
     LeetCode.c_hard := PInt 0; LeetCode.c_total := PInt 0 |}.

(** A profile page with the user container and nothing the scraper reads. *)
Definition bare_page : Soup :=
  {| rating_number := None; rating_text := None; problems_solved := None;
     fully_solved := None; scripts := []; user_details_container := true |}.

Definition bare_profile : Response :=
  {| status_code := 200; json := None; soup := bare_page |}.

Definition bare_env : Env :=
  {| network := fun _ _ => Answered bare_profile; fmt := Examples.format;
     text := Examples.texts; commit := Examples.clock |}.

Definition chef : Student.t :=
  {| Student.id := 3; Student.name := "student"; Student.roll_number := "R";
     Student.cf_handle := None; Student.lc_username := None;
     Student.cc_username := Some "chef"%string |}.

Definition row (id student_id : Z) (platform : string) (timestamp : Z)
  (fetch_status : string) (rating solved : pyval) : StatsSnapshot.t :=
  {| StatsSnapshot.id := id;
     StatsSnapshot.student_id := student_id;
     StatsSnapshot.platform := platform;
     StatsSnapshot.rating := rating;
     StatsSnapshot.max_rating := rating;
     StatsSnapshot.solved := solved;
     StatsSnapshot.easy := PNone;
     StatsSnapshot.medium := PNone;
     StatsSnapshot.hard := PNone;
     StatsSnapshot.timestamp := timestamp;
     StatsSnapshot.fetch_status := fetch_status;
     StatsSnapshot.error_message := None |}.

Definition first_row : StatsSnapshot.t := row 1 1 "CF" 1000 "success" (PInt 1500) (PInt 1).
Definition second_row : StatsSnapshot.t := row 2 3 "CC" 1500 "success" (PInt 0) (PInt 0).
Definition third_row : StatsSnapshot.t := row 3 1 "CF" 2000 "success" (PInt 1550) (PInt 2).

Definition table : list StatsSnapshot.t := [first_row; second_row; third_row].

Definition recorded : State :=
  {| students := [Examples.alice; Examples.bob; chef]; snapshots := table;
     commits := 0; net := Examples.idle; log := []; session := Active |}.

End Cases.

(** * Proofs *)

Import Cost Latest.

(** *** Tables and frames *)

Lemma appended_trans P t1 t2 t3 : appended P t1 t2 -> appended P t2 t3 -> appended P t1 t3.
Proof.
  intros H12 H23. induction H23.
  - exact H12.
  - apply appended_row; auto.
Qed.

Lemma appended_weaken (P Q : StatsSnapshot.t -> Prop) t t' :
  (forall row, P row -> Q row) -> appended P t t' -> appended Q t t'.
Proof.
  intros HPQ H. induction H.
  - apply appended_none.
  - apply appended_row; auto.
Qed.

Lemma touches_refl K s : touches K s s.
Proof.
  split; [reflexivity|]. split; [apply appended_none|].
  exists []. rewrite app_nil_r. split; [reflexivity|constructor].
Qed.

Lemma touches_trans K s1 s2 s3 : touches K s1 s2 -> touches K s2 s3 -> touches K s1 s3.
Proof.
  intros (Hs12 & Ha12 & l12 & Hl12 & Hf12) (Hs23 & Ha23 & l23 & Hl23 & Hf23).
  split; [congruence|]. split; [eapply appended_trans; eauto|].
  exists (l12 ++ l23). split.
  - rewrite Hl23, Hl12, app_assoc. reflexivity.
  - apply Forall_app. split; assumption.
Qed.

Lemma touches_weaken (K K' : Z -> string -> Prop) s s' :
  (forall a b, K a b -> K' a b) -> touches K s s' -> touches K' s s'.
Proof.
  intros HK (Hs & Ha & l & Hl & Hf).
  split; [assumption|]. split.
  - eapply appended_weaken; [|eassumption]. intros row; apply HK.
  - exists l. split; [assumption|].
    eapply Forall_impl; [|eassumption]. intros [a b r|ms|n m|ms]; simpl; auto.
Qed.

Lemma touches_session K v s : touches K s (set_session v s).
Proof.
  split; [reflexivity|]. split; [apply appended_none|].
  exists []. cbn [set_session log]. rewrite app_nil_r. split; [reflexivity|constructor].
Qed.

(** *** What a retry loop leaves *)

Lemma ends_refl s : ends s s [] [] 0 (session s).
Proof. unfold ends. rewrite !app_nil_r, Nat.add_0_r. repeat split. Qed.

Lemma ends_trans s1 s2 s3 r1 r2 e1 e2 k1 k2 v1 v2 :
  ends s1 s2 r1 e1 k1 v1 -> ends s2 s3 r2 e2 k2 v2 ->
  ends s1 s3 (r1 ++ r2) (e1 ++ e2) (k1 + k2) v2.
Proof.
  intros (Ha & Hb & Hc & Hd & He) (Ha' & Hb' & Hc' & Hd' & He').
  unfold ends. rewrite Ha', Ha, Hb', Hb, Hc', Hc, Hd', Hd, !app_assoc.
  repeat split; [lia|assumption].
Qed.

Lemma set_session_same s : set_session (session s) s = s.
Proof. destruct s. reflexivity. Qed.

Lemma set_session_twice v w s : set_session v (set_session w s) = set_session v s.
Proof. reflexivity. Qed.

Lemma attempts_log_cons sid p r rs :
  rs <> [] ->
  attempts_log sid p (r :: rs) = Called sid p r :: Waited 2000 :: attempts_log sid p rs.
Proof. destruct rs; [congruence|reflexivity]. Qed.

Lemma last_cons_nonempty (r : CallResult) rs d : rs <> [] -> last (r :: rs) d = last rs d.
Proof. destruct rs; [congruence|reflexivity]. Qed.

Lemma removelast_cons_nonempty {A : Type} (r : A) rs :
  rs <> [] -> removelast (r :: rs) = r :: removelast rs.
Proof. destruct rs; [congruence|reflexivity]. Qed.

Lemma calls_app l1 l2 : calls (l1 ++ l2) = (calls l1 + calls l2)%nat.
Proof. unfold calls. rewrite filter_app, length_app. reflexivity. Qed.

Lemma waits_app l1 l2 : waits (l1 ++ l2) = (waits l1 + waits l2)%nat.
Proof. unfold waits. rewrite filter_app, length_app. reflexivity. Qed.

Lemma attempts_log_counts sid p rs :
  rs <> [] ->
  calls (attempts_log sid p rs) = List.length rs /\
  S (waits (attempts_log sid p rs)) = List.length rs.
Proof.
  induction rs as [|r rs IH]; [congruence|]. intros _.
  destruct rs as [|r' rs']; [split; reflexivity|].
  change (attempts_log sid p (r :: r' :: rs'))
    with (Called sid p r :: Waited 2000 :: attempts_log sid p (r' :: rs')).
  destruct (IH ltac:(discriminate)) as [H1 H2].
  unfold calls, waits in *. cbn [filter is_call is_wait List.length] in *. split; lia.
Qed.

Lemma repeat_waited_counts k :
  calls (repeat (Waited 2000) k) = 0%nat /\ waits (repeat (Waited 2000) k) = k.
Proof.
  induction k as [|k [IH1 IH2]]; [split; reflexivity|].
  unfold calls, waits in *. cbn [repeat filter is_call is_wait List.length]. split; lia.
Qed.

Lemma attempts_log_pair sid p rs :
  Forall (fun e => match e with
                   | Called a b _ => a = sid /\ b = p
                   | Waited _ => True
                   | _ => False
                   end) (attempts_log sid p rs).
Proof.
  induction rs as [|r rs IH]; [constructor|].
  destruct rs as [|r' rs']; [repeat constructor|].
  change (attempts_log sid p (r :: r' :: rs'))
    with (Called sid p r :: Waited 2000 :: attempts_log sid p (r' :: rs')).
  constructor; [split; reflexivity|]. constructor; [exact I|exact IH].
Qed.

Lemma repeat_waited_pair (K : Z -> string -> Prop) k :
  Forall (fun e => match e with
                   | Called a b _ => K a b
                   | Waited _ => True
                   | _ => False
                   end) (repeat (Waited 2000) k).
Proof. induction k; constructor; auto. Qed.

Section RetryProofs.
Context {D : Type}.
Variable env : Env.
Variable sid : Z.
Variable handle : option string.
Variable p : string.
Variable adapter : string -> M (option D).
Variable mk : Z -> D -> Z -> Z -> StatsSnapshot.t.

Let call : M (option D) := adapter (handle_text handle).
Let loop : list nat -> Run unit := for_attempts env sid handle p adapter mk.

Lemma call_adapter_eq s :
  call_adapter sid p call s = (fst (call (net s)), after_call sid p (fst (call (net s))) (snd (call (net s))) s).
Proof. unfold call_adapter. destruct (call (net s)) as [r n]. reflexivity. Qed.

Lemma ends_called (r : Result (option D)) n s :
  ends s (after_call sid p r n s) [] [Called sid p (summary r)] 0 (session s).
Proof. unfold ends, after_call. cbn. rewrite app_nil_r, Nat.add_0_r. repeat split. Qed.

Lemma ends_waited s : ends s (log_event (Waited 2000) s) [] [Waited 2000] 0 (session s).
Proof. unfold ends, log_event. cbn. rewrite app_nil_r, Nat.add_0_r. repeat split. Qed.

(** One attempt, by the state of the session. *)
Lemma attempt_once_no_context a s :
  session s = NoContext ->
  attempt_once env sid handle p adapter mk a s =
  (let (r, n) := call (net s) in
   if (a <? max_retries - 1)%nat
   then (Returned Go_on, log_event (Waited 2000) (after_call sid p r n s))
   else (Raised working_outside_context, after_call sid p r n s)).
Proof.
  intros Hs. destruct s as [st sn c nt lg se]. cbn in Hs. subst se.
  unfold attempt_once, try_except, attempt_body, and_then, attribute, call_adapter.
  cbn [session net]. fold call.
  destruct (call nt) as [[[d|]|e] n];
    unfold failed_attempt, and_then, attribute, add_and_commit, _save_failed_snapshot,
      try_except, rollback, wait, done, log_event, after_call;
    cbn [session net log students snapshots commits];
    destruct (a <? max_retries - 1)%nat; reflexivity.
Qed.

Lemma attempt_once_inactive a s :
  session s = Inactive ->
  attempt_once env sid handle p adapter mk a s =
  if (a <? max_retries - 1)%nat
  then (Returned Go_on, log_event (Waited 2000) s)
  else (Raised pending_rollback, s).
Proof.
  intros Hs. destruct s as [st sn c nt lg se]. cbn in Hs. subst se.
  unfold attempt_once, try_except, attempt_body, and_then, attribute.
  cbn [session].
  unfold failed_attempt, and_then, attribute, wait, done, log_event;
    cbn [session net log students snapshots commits];
    destruct (a <? max_retries - 1)%nat; reflexivity.
Qed.

(** In a usable session a failed attempt does not raise. *)
Lemma failed_attempt_active a msg s :
  session s = Active ->
  failed_attempt env sid p a msg s =
  (Returned Go_on,
   if (a <? max_retries - 1)%nat then log_event (Waited 2000) s
   else snd (_save_failed_snapshot env sid p msg s)).
Proof.
  intros Hs. destruct s as [st sn c nt lg se]. cbn in Hs. subst se.
  unfold failed_attempt, and_then, attribute, wait, done. cbn [session].
  destruct (a <? max_retries - 1)%nat; [reflexivity|].
  unfold _save_failed_snapshot, try_except, add_and_commit, rollback. cbn [session commits].
  destruct (commit env c); reflexivity.
Qed.

Lemma save_failed_active msg s :
  session s = Active ->
  _save_failed_snapshot env sid p msg s =
  (Returned tt,
   match commit env (commits s) with
   | Committed utcnow =>
       {| students := students s;
          snapshots := snapshots s ++ [failed_snapshot sid p msg (next_id (snapshots s)) utcnow];
          commits := S (commits s); net := net s; log := log s; session := Active |}
   | Rejected _ =>
       {| students := students s; snapshots := snapshots s;
          commits := S (commits s); net := net s; log := log s; session := Active |}
   end).
Proof.
  intros Hs. unfold _save_failed_snapshot, try_except, add_and_commit, rollback. rewrite Hs.
  destruct (commit env (commits s)); reflexivity.
Qed.

Lemma attempt_once_active a s :
  session s = Active ->
  attempt_once env sid handle p adapter mk a s =
  (let (r, n) := call (net s) in
   let s1 := after_call sid p r n s in
   match r with
   | Returned (Some d) =>
       match commit env (commits s) with
       | Committed utcnow =>
           (Returned Leave,
            {| students := students s;
               snapshots := snapshots s ++ [mk sid d (next_id (snapshots s)) utcnow];
               commits := S (commits s); net := n; log := log s1; session := Active |})
       | Rejected _ =>
           let s2 :=
             {| students := students s; snapshots := snapshots s;
                commits := S (commits s); net := n; log := log s1; session := Inactive |} in
           if (a <? max_retries - 1)%nat
           then (Returned Go_on, log_event (Waited 2000) s2)
           else (Raised pending_rollback, s2)
       end
   | _ =>
       (Returned Go_on,
        if (a <? max_retries - 1)%nat then log_event (Waited 2000) s1
        else snd (_save_failed_snapshot env sid p (error_text (summary r)) s1))
   end).
Proof.
  intros Hs. destruct s as [st sn c nt lg se]. cbn in Hs. subst se.
  unfold attempt_once, try_except, attempt_body, and_then, attribute, call_adapter.
  cbn [session net]. fold call.
  destruct (call nt) as [[[d|]|e] n]; cbv zeta.
  - unfold add_and_commit, after_call, log_event. cbn [session commits snapshots students net log].
    destruct (commit env c); [reflexivity|].
    unfold failed_attempt, and_then, attribute, wait, done, log_event.
    cbn [session net log students snapshots commits].
    destruct (a <? max_retries - 1)%nat; reflexivity.
  - change (log_event (Called sid p (summary (Returned None)))
              {| students := st; snapshots := sn; commits := c; net := n; log := lg;
                 session := Active |})
      with (after_call sid p (@Returned (option D) None) n
              {| students := st; snapshots := sn; commits := c; net := nt; log := lg;
                 session := Active |}).
    rewrite failed_attempt_active by reflexivity. reflexivity.
  - change (log_event (Called sid p (summary (@Raised (option D) e)))
              {| students := st; snapshots := sn; commits := c; net := n; log := lg;
                 session := Active |})
      with (after_call sid p (@Raised (option D) e) n
              {| students := st; snapshots := sn; commits := c; net := nt; log := lg;
                 session := Active |}).
    rewrite failed_attempt_active by reflexivity. reflexivity.
Qed.

Lemma for_attempts_step a rest s :
  loop (a :: rest) s =
  match attempt_once env sid handle p adapter mk a s with
  | (Returned Leave, s') => (Returned tt, s')
  | (Returned Go_on, s') => loop rest s'
  | (Raised e, s') => (Raised e, s')
  end.
Proof.
  unfold loop. cbn [for_attempts]. unfold and_then.
  destruct (attempt_once env sid handle p adapter mk a s) as [[[|]|e] s']; reflexivity.
Qed.

(** The loop in a session that was not rolled back: no attempt reaches the
    adapter, the delays are slept, and the last attempt raises. *)
Lemma for_attempts_inactive k :
  forall a s, (a + k = max_retries)%nat -> (1 <= k)%nat -> session s = Inactive ->
  exists s',
    loop (seq a k) s = (Raised pending_rollback, s') /\
    ends s s' [] (repeat (Waited 2000) (k - 1)) 0 Inactive /\
    net s' = net s.
Proof.
  induction k as [|k IH]; intros a s Ha Hk Hs; [lia|].
  cbn [seq]. rewrite for_attempts_step, (attempt_once_inactive a s Hs).
  destruct (a <? max_retries - 1)%nat eqn:Elast.
  - apply Nat.ltb_lt in Elast. unfold max_retries in *.
    destruct (IH (S a) (log_event (Waited 2000) s) ltac:(lia) ltac:(lia) Hs)
      as (s' & Hrun & Hends & Hnet).
    exists s'. split; [exact Hrun|]. split; [|exact Hnet].
    replace (S k - 1)%nat with (S (k - 1))%nat by lia. cbn [repeat].
    pose proof (ends_trans _ _ _ _ _ _ _ _ _ _ _ (ends_waited s) Hends) as H.
    cbn [app Nat.add] in H. exact H.
  - apply Nat.ltb_ge in Elast. unfold max_retries in *.
    assert (k = 0)%nat by lia. subst k.
    exists s. split; [reflexivity|]. split; [|reflexivity].
    cbn [Nat.sub repeat]. rewrite <- Hs. apply ends_refl.
Qed.

(** The loop in a thread without an application context: every attempt
    reaches the adapter, nothing is written, and the last attempt raises. *)
Lemma for_attempts_no_context k :
  forall a s, (a + k = max_retries)%nat -> (1 <= k)%nat -> session s = NoContext ->
  exists s' rs,
    loop (seq a k) s = (Raised working_outside_context, s') /\
    List.length rs = k /\
    ends s s' [] (attempts_log sid p rs) 0 NoContext.
Proof.
  induction k as [|k IH]; intros a s Ha Hk Hs; [lia|].
  cbn [seq]. rewrite for_attempts_step, (attempt_once_no_context a s Hs).
  destruct (call (net s)) as [r n].
  pose proof (ends_called r n s) as Hcalled. rewrite Hs in Hcalled.
  destruct (a <? max_retries - 1)%nat eqn:Elast.
  - apply Nat.ltb_lt in Elast. unfold max_retries in *.
    destruct (IH (S a) (log_event (Waited 2000) (after_call sid p r n s))
                ltac:(lia) ltac:(lia) Hs) as (s' & rs & Hrun & Hlen & Hends).
    exists s', (summary r :: rs). split; [exact Hrun|]. split; [simpl; lia|].
    assert (Hne : rs <> []) by (destruct rs; simpl in Hlen; [lia|congruence]).
    rewrite attempts_log_cons by exact Hne.
    pose proof (ends_trans _ _ _ _ _ _ _ _ _ _ _ Hcalled
                  (ends_trans _ _ _ _ _ _ _ _ _ _ _
                     (ends_waited (after_call sid p r n s)) Hends)) as H.
    cbn [app Nat.add] in H. exact H.
  - apply Nat.ltb_ge in Elast. unfold max_retries in *.
    assert (k = 0)%nat by lia. subst k.
    exists (after_call sid p r n s), [summary r].
    split; [reflexivity|]. split; [reflexivity|]. exact Hcalled.
Qed.

(** The loop in a usable session.  [rs] are the results of the adapter
    calls.  Either the last call is the first that gave data: its row is
    committed and the function returns, or the engine refuses it, the
    remaining delays are slept and the last attempt raises.  Or all the
    calls failed, and the failed snapshot is committed or refused. *)
Lemma for_attempts_active k :
  forall a s, (a + k = max_retries)%nat -> (1 <= k)%nat -> session s = Active ->
  exists r s' rs,
    loop (seq a k) s = (r, s') /\
    (1 <= List.length rs <= k)%nat /\
    ~ In Got (removelast rs) /\
    ((last rs Absent = Got /\
      exists d n, fst (call n) = Returned (Some d) /\
        match commit env (commits s) with
        | Committed utcnow =>
            r = Returned tt /\
            ends s s' [mk sid d (next_id (snapshots s)) utcnow] (attempts_log sid p rs) 1 Active
        | Rejected _ =>
            r = Raised pending_rollback /\
            ends s s' []
              (attempts_log sid p rs ++ repeat (Waited 2000) (k - List.length rs)) 1 Inactive
        end)
     \/
     (last rs Absent <> Got /\ List.length rs = k /\ r = Returned tt /\
      match commit env (commits s) with
      | Committed utcnow =>
          ends s s' [failed_snapshot sid p (error_text (last rs Absent))
                       (next_id (snapshots s)) utcnow] (attempts_log sid p rs) 1 Active
      | Rejected _ => ends s s' [] (attempts_log sid p rs) 1 Active
      end)).
Proof.
  induction k as [|k IH]; intros a s Ha Hk Hs; [lia|].
  cbn [seq]. rewrite for_attempts_step, (attempt_once_active a s Hs).
  destruct (call (net s)) as [r n] eqn:Ecall. cbv zeta.
  pose proof (ends_called r n s) as Hcalled. rewrite Hs in Hcalled.
  assert (Hfailed : summary r <> Got ->
    exists r' s' rs,
      (if (a <? max_retries - 1)%nat
       then loop (seq (S a) k) (log_event (Waited 2000) (after_call sid p r n s))
       else loop (seq (S a) k)
              (snd (_save_failed_snapshot env sid p (error_text (summary r))
                      (after_call sid p r n s)))) = (r', s') /\
      (1 <= List.length rs <= S k)%nat /\
      ~ In Got (removelast rs) /\
      ((last rs Absent = Got /\
        exists d n, fst (call n) = Returned (Some d) /\
          match commit env (commits s) with
          | Committed utcnow =>
              r' = Returned tt /\
              ends s s' [mk sid d (next_id (snapshots s)) utcnow] (attempts_log sid p rs) 1 Active
          | Rejected _ =>
              r' = Raised pending_rollback /\
              ends s s' []
                (attempts_log sid p rs ++ repeat (Waited 2000) (S k - List.length rs)) 1 Inactive
          end)
       \/
       (last rs Absent <> Got /\ List.length rs = S k /\ r' = Returned tt /\
        match commit env (commits s) with
        | Committed utcnow =>
            ends s s' [failed_snapshot sid p (error_text (last rs Absent))
                         (next_id (snapshots s)) utcnow] (attempts_log sid p rs) 1 Active
        | Rejected _ => ends s s' [] (attempts_log sid p rs) 1 Active
        end))).
  { intros Hr. destruct (a <? max_retries - 1)%nat eqn:Elast.
    - apply Nat.ltb_lt in Elast. unfold max_retries in *.
      set (s1 := log_event (Waited 2000) (after_call sid p r n s)).
      assert (H01 : ends s s1 [] [Called sid p (summary r); Waited 2000] 0 Active).
      { unfold ends, s1, log_event, after_call. cbn. rewrite app_nil_r, <- app_assoc.
        repeat split; [lia|exact Hs]. }
      destruct (IH (S a) s1 ltac:(lia) ltac:(lia) Hs) as (r' & s' & rs & Hrun & Hlen & Hnot & Hcases).
      assert (Hne : rs <> []) by (destruct rs; simpl in Hlen; [lia|congruence]).
      change (commits s1) with (commits s) in Hcases.
      change (snapshots s1) with (snapshots s) in Hcases.
      exists r', s', (summary r :: rs). split; [exact Hrun|]. split; [simpl; lia|]. split.
      { rewrite removelast_cons_nonempty by exact Hne. intros [H|H]; [congruence|contradiction]. }
      rewrite last_cons_nonempty by exact Hne.
      rewrite attempts_log_cons by exact Hne.
      destruct Hcases as [(Hgot & d & n' & Hd & Hc)|(Hnot' & Hl & Hr' & Hc)].
      + left. split; [exact Hgot|]. exists d, n'. split; [exact Hd|].
        destruct (commit env (commits s)) as [t|msg].
        * destruct Hc as [-> He]. split; [reflexivity|].
          pose proof (ends_trans _ _ _ _ _ _ _ _ _ _ _ H01 He) as H.
          cbn [app Nat.add] in H. exact H.
        * destruct Hc as [-> He]. split; [reflexivity|].
          pose proof (ends_trans _ _ _ _ _ _ _ _ _ _ _ H01 He) as H.
          cbn [app Nat.add] in H.
          replace (S k - List.length (summary r :: rs))%nat with (k - List.length rs)%nat
            by (simpl; lia).
          exact H.
      + right. split; [exact Hnot'|]. split; [simpl; lia|]. split; [exact Hr'|].
        destruct (commit env (commits s)) as [t|msg];
          pose proof (ends_trans _ _ _ _ _ _ _ _ _ _ _ H01 Hc) as H;
          cbn [app Nat.add] in H; exact H.
    - apply Nat.ltb_ge in Elast. unfold max_retries in *.
      assert (k = 0)%nat by lia. subst k. cbn [seq].
      rewrite (save_failed_active _ (after_call sid p r n s) Hs). cbn [snd].
      change (commits (after_call sid p r n s)) with (commits s).
      eexists. eexists. exists [summary r]. split; [reflexivity|].
      split; [simpl; lia|]. split; [simpl; tauto|].
      right. split; [exact Hr|]. split; [reflexivity|]. split; [reflexivity|].
      cbn [last attempts_log].
      destruct (commit env (commits s)) as [t|msg]; unfold ends, after_call;
        cbn [students snapshots log commits session]; rewrite ?app_nil_r;
        repeat split; lia. }
  destruct r as [[d|]|e].
  - destruct (commit env (commits s)) as [t|msg] eqn:Ecommit.
    + eexists. eexists. exists [Got]. split; [reflexivity|].
      split; [simpl; lia|]. split; [simpl; tauto|].
      left. split; [reflexivity|]. exists d, (net s). rewrite Ecall. split; [reflexivity|].
      split; [reflexivity|]. unfold ends, after_call. cbn. repeat split; lia.
    + cbv zeta.
      set (s2 := {| students := students s; snapshots := snapshots s;
                    commits := S (commits s); net := n;
                    log := log (after_call sid p (Returned (Some d)) n s);
                    session := Inactive |}).
      assert (H02 : ends s s2 [] [Called sid p Got] 1 Inactive).
      { unfold ends, s2, after_call. cbn. rewrite app_nil_r. repeat split; lia. }
      destruct (a <? max_retries - 1)%nat eqn:Elast.
      * apply Nat.ltb_lt in Elast. unfold max_retries in *.
        destruct (for_attempts_inactive k (S a) (log_event (Waited 2000) s2)
                    ltac:(unfold max_retries; lia) ltac:(lia) eq_refl)
          as (s' & Hrun & Hends & _).
        exists (Raised pending_rollback), s', [Got]. split; [exact Hrun|].
        split; [simpl; lia|]. split; [simpl; tauto|].
        left. split; [reflexivity|]. exists d, (net s). rewrite Ecall. split; [reflexivity|].
          split; [reflexivity|].
        pose proof (ends_trans _ _ _ _ _ _ _ _ _ _ _ H02
                      (ends_trans _ _ _ _ _ _ _ _ _ _ _ (ends_waited s2) Hends)) as H.
        cbn [app Nat.add attempts_log List.length] in H |- *.
        replace (S k - 1)%nat with (S (k - 1)) by lia. cbn [repeat]. exact H.
      * apply Nat.ltb_ge in Elast. unfold max_retries in *.
        assert (k = 0)%nat by lia. subst k.
        exists (Raised pending_rollback), s2, [Got]. split; [reflexivity|].
        split; [simpl; lia|]. split; [simpl; tauto|].
        left. split; [reflexivity|]. exists d, (net s). rewrite Ecall. split; [reflexivity|].
          split; [reflexivity|]. cbn [attempts_log List.length Nat.sub repeat app]. exact H02.
  - destruct (Hfailed ltac:(discriminate)) as (r' & s' & rs & Hrun & Hrest).
    exists r', s', rs. split; [|exact Hrest].
    destruct (a <? max_retries - 1)%nat; exact Hrun.
  - destruct (Hfailed ltac:(discriminate)) as (r' & s' & rs & Hrun & Hrest).
    exists r', s', rs. split; [|exact Hrest].
    destruct (a <? max_retries - 1)%nat; exact Hrun.
Qed.

Lemma fetch_with_retry_inactive s :
  session s = Inactive ->
  exists s',
    fetch_with_retry env sid handle p adapter mk s = (Raised pending_rollback, s') /\
    ends s s' [] [Waited 2000; Waited 2000] 0 Inactive.
Proof.
  intros Hs. destruct (for_attempts_inactive max_retries 0%nat s eq_refl
                         ltac:(unfold max_retries; lia) Hs) as (s' & H1 & H2 & _).
  exists s'. split; assumption.
Qed.

Lemma fetch_with_retry_no_context s :
  session s = NoContext ->
  exists s' r1 r2 r3,
    fetch_with_retry env sid handle p adapter mk s = (Raised working_outside_context, s') /\
    ends s s' [] (attempts_log sid p [r1; r2; r3]) 0 NoContext.
Proof.
  intros Hs. destruct (for_attempts_no_context max_retries 0%nat s eq_refl
                         ltac:(unfold max_retries; lia) Hs) as (s' & rs & H1 & H2 & H3).
  destruct rs as [|r1 [|r2 [|r3 [|r4 rs]]]]; try discriminate.
  exists s', r1, r2, r3. split; assumption.
Qed.

Lemma fetch_with_retry_active s :
  session s = Active ->
  exists r s' rs,
    fetch_with_retry env sid handle p adapter mk s = (r, s') /\
    (1 <= List.length rs <= max_retries)%nat /\
    ~ In Got (removelast rs) /\
    ((last rs Absent = Got /\
      exists d n, fst (call n) = Returned (Some d) /\
        match commit env (commits s) with
        | Committed utcnow =>
            r = Returned tt /\
            ends s s' [mk sid d (next_id (snapshots s)) utcnow] (attempts_log sid p rs) 1 Active
        | Rejected _ =>
            r = Raised pending_rollback /\
            ends s s' []
              (attempts_log sid p rs ++ repeat (Waited 2000) (max_retries - List.length rs))
              1 Inactive
        end)
     \/
     (last rs Absent <> Got /\ List.length rs = max_retries /\ r = Returned tt /\
      match commit env (commits s) with
      | Committed utcnow =>
          ends s s' [failed_snapshot sid p (error_text (last rs Absent))
                       (next_id (snapshots s)) utcnow] (attempts_log sid p rs) 1 Active
      | Rejected _ => ends s s' [] (attempts_log sid p rs) 1 Active
      end)).
Proof.
  intros Hs. apply (for_attempts_active max_retries 0%nat s eq_refl); [|exact Hs].
  unfold max_retries. lia.
Qed.

Hypothesis mk_key : forall d i t,
  StatsSnapshot.student_id (mk sid d i t) = sid /\ StatsSnapshot.platform (mk sid d i t) = p /\
  StatsSnapshot.id (mk sid d i t) = i.
Hypothesis mk_success : forall d i t,
  StatsSnapshot.fetch_status (mk sid d i t) = "success"%string /\
  StatsSnapshot.error_message (mk sid d i t) = None.
Hypothesis p_platform : In p platforms.

(** What the loop leaves, whatever the session, the network and the store
    do: at most one row, a success or a failed row of the pair with a fresh
    key, and at most three calls for the pair and two delays. *)
Lemma fetch_with_retry_frame s :
  exists rows events k v,
    ends s (snd (fetch_with_retry env sid handle p adapter mk s)) rows events k v /\
    (List.length rows <= 1)%nat /\
    (forall row, In row rows ->
       StatsSnapshot.student_id row = sid /\ StatsSnapshot.platform row = p /\
       StatsSnapshot.id row = next_id (snapshots s) /\ well_formed row) /\
    Forall (fun e => match e with
                     | Called a b _ => a = sid /\ b = p
                     | Waited _ => True
                     | _ => False
                     end) events /\
    (calls events <= 3)%nat /\ (waits events <= 2)%nat.
Proof.
  assert (Hok : forall d t, let row := mk sid d (next_id (snapshots s)) t in
            StatsSnapshot.student_id row = sid /\ StatsSnapshot.platform row = p /\
            StatsSnapshot.id row = next_id (snapshots s) /\ well_formed row).
  { intros d t row. destruct (mk_key d (next_id (snapshots s)) t) as (H1 & H2 & H3).
    destruct (mk_success d (next_id (snapshots s)) t) as (H4 & H5).
    repeat split; try assumption.
    - unfold row. rewrite H2. exact p_platform.
    - left. split; assumption. }
  assert (Hfailed : forall msg t, let row := failed_snapshot sid p msg (next_id (snapshots s)) t in
            StatsSnapshot.student_id row = sid /\ StatsSnapshot.platform row = p /\
            StatsSnapshot.id row = next_id (snapshots s) /\ well_formed row).
  { intros msg t row. repeat split; [exact p_platform|].
    right. split; [repeat split|]. exists msg. reflexivity. }
  destruct (session s) eqn:Hs.
  - destruct (fetch_with_retry_no_context s Hs) as (s' & r1 & r2 & r3 & Hrun & Hends).
    rewrite Hrun. cbn [snd]. exists [], (attempts_log sid p [r1; r2; r3]), 0%nat, NoContext.
    split; [exact Hends|]. split; [simpl; lia|]. split; [intros ? []|].
    split; [apply attempts_log_pair|].
    destruct (attempts_log_counts sid p [r1; r2; r3] ltac:(discriminate)) as [Hc Hw].
    simpl List.length in *. lia.
  - destruct (fetch_with_retry_active s Hs) as (r & s' & rs & Hrun & Hlen & _ & Hcases).
    rewrite Hrun. cbn [snd].
    assert (Hne : rs <> []) by (destruct rs; simpl in Hlen; [lia|congruence]).
    destruct (attempts_log_counts sid p rs Hne) as [Hc Hw].
    unfold max_retries in *.
    destruct Hcases as [(_ & d & n & _ & Hc')|(_ & _ & _ & Hc')];
      destruct (commit env (commits s)) as [t|msg].
    + destruct Hc' as [_ He]. do 4 eexists. split; [exact He|].
      split; [simpl; lia|]. split; [intros row [<-|[]]; apply Hok|].
      split; [apply attempts_log_pair|]. lia.
    + destruct Hc' as [_ He]. do 4 eexists. split; [exact He|].
      split; [simpl; lia|]. split; [intros ? []|].
      split; [apply Forall_app; split; [apply attempts_log_pair|apply repeat_waited_pair]|].
      rewrite calls_app, waits_app.
      destruct (repeat_waited_counts (3 - List.length rs)) as [-> ->]. lia.
    + do 4 eexists. split; [exact Hc'|].
      split; [simpl; lia|]. split; [intros row [<-|[]]; apply Hfailed|].
      split; [apply attempts_log_pair|]. lia.
    + do 4 eexists. split; [exact Hc'|].
      split; [simpl; lia|]. split; [intros ? []|].
      split; [apply attempts_log_pair|]. lia.
  - destruct (fetch_with_retry_inactive s Hs) as (s' & Hrun & Hends).
    rewrite Hrun. cbn [snd]. do 4 eexists. split; [exact Hends|].
    split; [simpl; lia|]. split; [intros ? []|].
    split; [repeat constructor|]. unfold calls, waits. simpl. lia.
Qed.

Lemma touches_fetch_with_retry s :
  touches (fun a b => a = sid /\ b = p) s
    (snd (fetch_with_retry env sid handle p adapter mk s)).
Proof.
  destruct (fetch_with_retry_frame s)
    as (rows & events & k & v & (Hst & Hrows & Hlog & _) & Hlen & Hrow & Hev & _).
  split; [exact Hst|]. split.
  - rewrite Hrows. destruct rows as [|row [|row' rest]]; [| |simpl in Hlen; lia].
    + rewrite app_nil_r. apply appended_none.
    + destruct (Hrow row (or_introl eq_refl)) as (H1 & H2 & H3 & _).
      apply appended_row; [apply appended_none|split; assumption|exact H3].
  - exists events. split; [exact Hlog|exact Hev].
Qed.

Lemma effect_fetch_with_retry s :
  effect 1 s (snd (fetch_with_retry env sid handle p adapter mk s)).
Proof.
  destruct (fetch_with_retry_frame s)
    as (rows & events & k & v & (Hst & Hrows & Hlog & _) & Hlen & Hrow & Hev & Hc & Hw).
  exists events, rows. split; [exact Hlog|]. split; [exact Hrows|].
  split; [lia|]. split; [lia|]. split; [exact Hlen|]. split.
  - apply Forall_forall. intros row Hin. apply (Hrow row Hin).
  - eapply Forall_impl; [|exact Hev]. intros [a b r|ms|n m|ms]; simpl; tauto.
Qed.

(** When the store accepts every write, the loop in a usable session
    returns, leaves the session usable, and follows the retry policy. *)
Lemma fetch_with_retry_accepting s :
  accepting env -> session s = Active ->
  exists s',
    fetch_with_retry env sid handle p adapter mk s = (Returned tt, s') /\
    session s' = Active /\
    retry_policy sid p call (mk sid) s s'.
Proof.
  intros Hacc Hs.
  destruct (fetch_with_retry_active s Hs) as (r & s' & rs & Hrun & Hlen & Hnot & Hcases).
  destruct (Hacc (commits s)) as [t Ht]. rewrite Ht in Hcases.
  assert (Hne : rs <> []) by (destruct rs; simpl in Hlen; [lia|congruence]).
  destruct Hcases as [(Hgot & d & n & Hd & -> & He)|(Hlast & Hl & -> & He)];
    exists s'; (split; [exact Hrun|]); destruct He as (_ & Hrows & Hlog & _ & Hsess);
    (split; [exact Hsess|]); exists rs; (split; [exact Hlog|]); (split; [exact Hlen|]).
  - left. exists (removelast rs), d, n, t.
    split; [rewrite <- Hgot; apply app_removelast_last; exact Hne|].
    split; [exact Hnot|]. split; [exact Hd|exact Hrows].
  - right. split; [exact Hl|]. split.
    + intros Hin. rewrite (app_removelast_last Absent Hne) in Hin.
      apply in_app_or in Hin. destruct Hin as [Hin|[Hin|[]]]; [contradiction|].
      apply Hlast. exact Hin.
    + exists t. exact Hrows.
Qed.

End RetryProofs.
(** *** The three retry functions *)

Lemma codeforces_key sid d i t :
  StatsSnapshot.student_id (codeforces_snapshot sid d i t) = sid /\
  StatsSnapshot.platform (codeforces_snapshot sid d i t) = "CF"%string /\
  StatsSnapshot.id (codeforces_snapshot sid d i t) = i.
Proof. repeat split. Qed.

Lemma leetcode_key sid d i t :
  StatsSnapshot.student_id (leetcode_snapshot sid d i t) = sid /\
  StatsSnapshot.platform (leetcode_snapshot sid d i t) = "LC"%string /\
  StatsSnapshot.id (leetcode_snapshot sid d i t) = i.
Proof. repeat split. Qed.

Lemma codechef_key sid d i t :
  StatsSnapshot.student_id (codechef_snapshot sid d i t) = sid /\
  StatsSnapshot.platform (codechef_snapshot sid d i t) = "CC"%string /\
  StatsSnapshot.id (codechef_snapshot sid d i t) = i.
Proof. repeat split. Qed.

Lemma codeforces_success sid d i t :
  StatsSnapshot.fetch_status (codeforces_snapshot sid d i t) = "success"%string /\
  StatsSnapshot.error_message (codeforces_snapshot sid d i t) = None.
Proof. split; reflexivity. Qed.

Lemma leetcode_success sid d i t :
  StatsSnapshot.fetch_status (leetcode_snapshot sid d i t) = "success"%string /\
  StatsSnapshot.error_message (leetcode_snapshot sid d i t) = None.
Proof. split; reflexivity. Qed.

Lemma codechef_success sid d i t :
  StatsSnapshot.fetch_status (codechef_snapshot sid d i t) = "success"%string /\
  StatsSnapshot.error_message (codechef_snapshot sid d i t) = None.
Proof. split; reflexivity. Qed.

Lemma cf_platform : In "CF"%string platforms.
Proof. left. reflexivity. Qed.

Lemma lc_platform : In "LC"%string platforms.
Proof. right. left. reflexivity. Qed.

Lemma cc_platform : In "CC"%string platforms.
Proof. right. right. left. reflexivity. Qed.

Lemma filter_worker_attempts sid p rs :
  filter is_worker (attempts_log sid p rs) = attempts_log sid p rs.
Proof.
  induction rs as [|r rs IH]; [reflexivity|].
  destruct rs as [|r' rs']; [reflexivity|].
  change (attempts_log sid p (r :: r' :: rs'))
    with (Called sid p r :: Waited 2000 :: attempts_log sid p (r' :: rs')).
  cbn [filter is_worker]. rewrite IH. reflexivity.
Qed.

(** A run that follows the retry policy is the run of one pair. *)
Lemma retry_policy_pair {D : Type} sid p (call : M (option D)) mk s s' :
  (forall d i t, StatsSnapshot.student_id (mk d i t) = sid /\
                 StatsSnapshot.platform (mk d i t) = p /\
                 StatsSnapshot.fetch_status (mk d i t) = "success"%string) ->
  retry_policy sid p call mk s s' ->
  cycle_between [(sid, p)] s s'.
Proof.
  intros Hmk (rs & Hlog & Hlen & Hcases).
  assert (Hrun : forall row,
            StatsSnapshot.student_id row = sid -> StatsSnapshot.platform row = p ->
            (In Got rs /\ StatsSnapshot.fetch_status row = "success"%string) \/
            (~ In Got rs /\ List.length rs = max_retries /\
             StatsSnapshot.fetch_status row = "failed"%string) ->
            snapshots s' = snapshots s ++ [row] -> cycle_between [(sid, p)] s s').
  { intros row H1 H2 H3 Hrows. exists (attempts_log sid p rs), [row].
    split; [exact Hlog|]. split; [exact Hrows|]. split; [|reflexivity].
    rewrite filter_worker_attempts.
    rewrite <- (app_nil_r (attempts_log sid p rs)).
    apply cycle_pair; [|apply cycle_done].
    exists rs. repeat split; try assumption; lia. }
  destruct Hcases as [(fails & d & n & t & Hrs & Hnot & Hd & Hrows)|(Hl & Hnot & t & Hrows)].
  - destruct (Hmk d (next_id (snapshots s)) t) as (H1 & H2 & H3).
    eapply Hrun; eauto. left. split; [|assumption].
    rewrite Hrs. apply in_or_app. right. left. reflexivity.
  - eapply Hrun; eauto; try reflexivity. right. repeat split; assumption.
Qed.

Lemma cycle_runs_app w1 e1 r1 w2 e2 r2 :
  cycle_runs w1 e1 r1 -> cycle_runs w2 e2 r2 -> cycle_runs (w1 ++ w2) (e1 ++ e2) (r1 ++ r2).
Proof.
  intros H1 H2. induction H1.
  - exact H2.
  - rewrite <- app_assoc. simpl. apply cycle_pair; assumption.
Qed.

Lemma cycle_between_refl s : cycle_between [] s s.
Proof.
  exists [], []. rewrite !app_nil_r. repeat split. apply cycle_done.
Qed.

Lemma cycle_between_trans w1 w2 s1 s2 s3 :
  cycle_between w1 s1 s2 -> cycle_between w2 s2 s3 -> cycle_between (w1 ++ w2) s1 s3.
Proof.
  intros (l1 & r1 & Hl1 & Hr1 & Hc1 & Hn1) (l2 & r2 & Hl2 & Hr2 & Hc2 & Hn2).
  exists (l1 ++ l2), (r1 ++ r2). split; [|split; [|split]].
  - rewrite Hl2, Hl1, app_assoc. reflexivity.
  - rewrite Hr2, Hr1, app_assoc. reflexivity.
  - rewrite filter_app. apply cycle_runs_app; assumption.
  - rewrite !length_app. congruence.
Qed.

Lemma cycle_between_sched e s :
  is_worker e = false -> cycle_between [] s (log_event e s).
Proof.
  intros He. exists [e], []. rewrite app_nil_r. split; [reflexivity|]. split; [reflexivity|].
  split; [|reflexivity]. simpl. rewrite He. apply cycle_done.
Qed.

Lemma student_work_eq st :
  student_work st =
    (if registered_handle (Student.cf_handle st) then [(Student.id st, "CF"%string)] else []) ++
    (if registered_handle (Student.lc_username st) then [(Student.id st, "LC"%string)] else []) ++
    (if registered_handle (Student.cc_username st) then [(Student.id st, "CC"%string)] else []).
Proof.
  unfold student_work, platforms, registered, handle_for. cbn [filter String.eqb Ascii.eqb Bool.eqb].
  destruct (registered_handle (Student.cf_handle st)),
           (registered_handle (Student.lc_username st)),
           (registered_handle (Student.cc_username st)); reflexivity.
Qed.

(** *** Sequencing *)

Lemma snd_and_then {A B : Type} (m : Run A) (k : A -> Run B) s :
  snd (and_then m k s) =
  match fst (m s) with
  | Returned a => snd (k a (snd (m s)))
  | Raised _ => snd (m s)
  end.
Proof. unfold and_then. destruct (m s) as [[a|e] s']; reflexivity. Qed.

Lemma touches_and_then K {A B : Type} (m : Run A) (k : A -> Run B) s :
  touches K s (snd (m s)) ->
  (forall a s0, touches K s0 (snd (k a s0))) ->
  touches K s (snd (and_then m k s)).
Proof.
  intros Hm Hk. rewrite snd_and_then. destruct (fst (m s)) as [a|e]; [|exact Hm].
  eapply touches_trans; [exact Hm|apply Hk].
Qed.

Lemma effect_refl s : effect 0 s s.
Proof.
  exists [], []. rewrite !app_nil_r. repeat split; try (cbn; lia); constructor.
Qed.

Lemma effect_trans k1 k2 s1 s2 s3 :
  effect k1 s1 s2 -> effect k2 s2 s3 -> effect (k1 + k2) s1 s3.
Proof.
  intros (l1 & r1 & Hl1 & Hr1 & Hc1 & Hw1 & Hn1 & Hf1 & Hg1)
         (l2 & r2 & Hl2 & Hr2 & Hc2 & Hw2 & Hn2 & Hf2 & Hg2).
  exists (l1 ++ l2), (r1 ++ r2). rewrite calls_app, waits_app, length_app.
  split; [rewrite Hl2, Hl1, app_assoc; reflexivity|].
  split; [rewrite Hr2, Hr1, app_assoc; reflexivity|].
  split; [lia|]. split; [lia|]. split; [lia|].
  split; apply Forall_app; split; assumption.
Qed.

Lemma effect_more k k' s s' : (k <= k')%nat -> effect k s s' -> effect k' s s'.
Proof.
  intros Hk (l & r & Hl & Hr & Hc & Hw & Hn & Hf).
  exists l, r. repeat split; try assumption; try lia; apply Hf.
Qed.

Lemma effect_and_then k1 k2 {A B : Type} (m : Run A) (k : A -> Run B) s :
  effect k1 s (snd (m s)) ->
  (forall a s0, effect k2 s0 (snd (k a s0))) ->
  effect (k1 + k2) s (snd (and_then m k s)).
Proof.
  intros Hm Hk. rewrite snd_and_then. destruct (fst (m s)) as [a|e].
  - eapply effect_trans; [exact Hm|apply Hk].
  - eapply effect_more; [|exact Hm]. lia.
Qed.

Lemma attribute_state {A : Type} (value : A) s : snd (attribute value s) = s.
Proof. unfold attribute. destruct (session s); reflexivity. Qed.

Lemma when_registered_eq h fetch s :
  when_registered h fetch s =
  match session s with
  | Inactive => (Raised pending_rollback, s)
  | _ => if registered_handle h then fetch s else (Returned tt, s)
  end.
Proof.
  unfold when_registered, and_then, attribute, done.
  destruct (session s), (registered_handle h); reflexivity.
Qed.

Lemma touches_when_registered K h fetch s :
  (registered_handle h = true -> touches K s (snd (fetch s))) ->
  touches K s (snd (when_registered h fetch s)).
Proof.
  intros H. rewrite when_registered_eq.
  destruct (session s), (registered_handle h); try apply touches_refl; apply H; reflexivity.
Qed.

Lemma effect_when_registered h fetch s :
  effect 1 s (snd (fetch s)) -> effect 1 s (snd (when_registered h fetch s)).
Proof.
  intros H. rewrite when_registered_eq.
  destruct (session s), (registered_handle h);
    try exact H; (eapply effect_more; [|apply effect_refl]; lia).
Qed.

(** *** The three loops of a student *)

Lemma handle_for_cf st : handle_for st "CF" = Student.cf_handle st.
Proof. reflexivity. Qed.
Lemma handle_for_lc st : handle_for st "LC" = Student.lc_username st.
Proof. reflexivity. Qed.
Lemma handle_for_cc st : handle_for st "CC" = Student.cc_username st.
Proof. reflexivity. Qed.

Lemma touches_fetch_platforms env st s :
  touches (student_pairs st) s (snd (fetch_platforms env st s)).
Proof.
  unfold fetch_platforms.
  apply touches_and_then; [|intros _ s1; apply touches_and_then; [|intros _ s2]];
    apply touches_when_registered; intros E.
  - eapply touches_weaken; [|apply touches_fetch_with_retry;
                               [apply codeforces_key|apply codeforces_success|apply cf_platform]].
    intros a b [-> ->]. split; [reflexivity|]. unfold registered. rewrite handle_for_cf. exact E.
  - eapply touches_weaken; [|apply touches_fetch_with_retry;
                               [apply leetcode_key|apply leetcode_success|apply lc_platform]].
    intros a b [-> ->]. split; [reflexivity|]. unfold registered. rewrite handle_for_lc. exact E.
  - eapply touches_weaken; [|apply touches_fetch_with_retry;
                               [apply codechef_key|apply codechef_success|apply cc_platform]].
    intros a b [-> ->]. split; [reflexivity|]. unfold registered. rewrite handle_for_cc. exact E.
Qed.

Lemma effect_fetch_platforms env st s :
  effect 3 s (snd (fetch_platforms env st s)).
Proof.
  unfold fetch_platforms. change 3%nat with (1 + (1 + 1))%nat.
  apply effect_and_then; [|intros _ s1; apply effect_and_then; [|intros _ s2]];
    apply effect_when_registered; apply effect_fetch_with_retry.
  - apply codeforces_key. - apply codeforces_success. - apply cf_platform.
  - apply leetcode_key. - apply leetcode_success. - apply lc_platform.
  - apply codechef_key. - apply codechef_success. - apply cc_platform.
Qed.

Lemma touches_student env st s :
  touches (student_pairs st) s (snd (_fetch_student_all_platforms env st s)).
Proof.
  unfold _fetch_student_all_platforms.
  apply touches_and_then; [rewrite attribute_state; apply touches_refl|]. intros _ s1.
  apply touches_and_then; [rewrite attribute_state; apply touches_refl|]. intros _ s2.
  apply touches_fetch_platforms.
Qed.

(** The on-demand fetch, by what [Student.query.get] finds. *)
Lemma fetch_student_stats_missing env sid s :
  query_get sid (students s) = None -> fetch_student_stats env sid s = (Returned false, s).
Proof.
  intros H. unfold fetch_student_stats, with_app_context. cbn [set_session students].
  rewrite H. unfold done. f_equal. destruct s. reflexivity.
Qed.

Lemma fetch_student_stats_found env sid st s :
  query_get sid (students s) = Some st ->
  fetch_student_stats env sid s =
  (match fst (fetch_platforms env st (set_session Active s)) with
   | Returned _ => Returned true
   | Raised e => Raised e
   end,
   set_session (session s) (snd (fetch_platforms env st (set_session Active s)))).
Proof.
  intros H. unfold fetch_student_stats, with_app_context. cbn [set_session students].
  rewrite H. unfold and_then, done.
  change {| students := students s; snapshots := snapshots s; commits := commits s;
            net := net s; log := log s; session := Active |} with (set_session Active s).
  destruct (fetch_platforms env st (set_session Active s)) as [[[]|e] s']; reflexivity.
Qed.

Lemma touches_fetch_student_stats env sid st s :
  query_get sid (students s) = Some st ->
  touches (student_pairs st) s (snd (fetch_student_stats env sid s)).
Proof.
  intros H. rewrite (fetch_student_stats_found env sid st s H). cbn [snd].
  eapply touches_trans; [apply (touches_session _ Active)|].
  eapply touches_trans; [apply touches_fetch_platforms|apply touches_session].
Qed.

(** *** The threads of the pool *)

Lemma ends_session s s' rows events k v w :
  ends (set_session w s) s' rows events k v ->
  ends s (set_session (session s) s') rows events k (session s).
Proof. intros (H1 & H2 & H3 & H4 & _). repeat split; assumption. Qed.

(** A worker of the pool: the first loop the student has a handle for makes
    its three calls and raises out of the worker. *)
Lemma worker_in_pool env st s :
  exists events,
    worker_log st events /\
    ends s (in_pool_thread (_fetch_student_all_platforms env st) s) [] events 0 (session s).
Proof.
  unfold in_pool_thread, _fetch_student_all_platforms.
  set (s0 := set_session NoContext s).
  assert (Hs0 : session s0 = NoContext) by reflexivity.
  assert (Hnone : ends s (set_session (session s) s0) [] [] 0 (session s)).
  { apply (ends_session s s0 [] [] 0%nat NoContext NoContext). apply (ends_refl s0). }
  unfold and_then at 1. unfold attribute at 1. rewrite Hs0.
  unfold and_then at 1. unfold attribute at 1. rewrite Hs0.
  unfold fetch_platforms, worker_log, registered, platforms.
  cbn [filter]. rewrite handle_for_cf, handle_for_lc, handle_for_cc.
  unfold and_then at 1. rewrite when_registered_eq, Hs0.
  destruct (registered_handle (Student.cf_handle st)).
  { destruct (fetch_with_retry_no_context env (Student.id st) (Student.cf_handle st) "CF"
                (Codeforces.get_user_info (network env) (fmt env)) codeforces_snapshot s0 Hs0)
      as (s' & r1 & r2 & r3 & Hrun & Hends).
    unfold _fetch_codeforces_stats. rewrite Hrun. cbn [snd].
    exists (attempts_log (Student.id st) "CF" [r1; r2; r3]).
    split; [exists r1, r2, r3; reflexivity|].
    apply (ends_session s s' _ _ _ NoContext NoContext). exact Hends. }
  unfold and_then at 1. rewrite when_registered_eq, Hs0.
  destruct (registered_handle (Student.lc_username st)).
  { destruct (fetch_with_retry_no_context env (Student.id st) (Student.lc_username st) "LC"
                (LeetCode.get_user_stats (network env)) leetcode_snapshot s0 Hs0)
      as (s' & r1 & r2 & r3 & Hrun & Hends).
    unfold _fetch_leetcode_stats. rewrite Hrun. cbn [snd].
    exists (attempts_log (Student.id st) "LC" [r1; r2; r3]).
    split; [exists r1, r2, r3; reflexivity|].
    apply (ends_session s s' _ _ _ NoContext NoContext). exact Hends. }
  rewrite when_registered_eq, Hs0.
  destruct (registered_handle (Student.cc_username st)).
  { destruct (fetch_with_retry_no_context env (Student.id st) (Student.cc_username st) "CC"
                (CodeChef.get_user_stats (network env) (text env)) codechef_snapshot s0 Hs0)
      as (s' & r1 & r2 & r3 & Hrun & Hends).
    unfold _fetch_codechef_stats. rewrite Hrun. cbn [snd].
    exists (attempts_log (Student.id st) "CC" [r1; r2; r3]).
    split; [exists r1, r2, r3; reflexivity|].
    apply (ends_session s s' _ _ _ NoContext NoContext). exact Hends. }
  cbn [snd]. exists []. split; [reflexivity|exact Hnone].
Qed.

Lemma workers_in_pool env batch :
  forall s, exists w,
    workers_log batch w /\ ends s (run_batch env batch s) [] w 0 (session s).
Proof.
  unfold run_batch. induction batch as [|st rest IH]; intros s; cbn [fold_left].
  - exists []. split; [constructor|apply ends_refl].
  - destruct (worker_in_pool env st s) as (e & He & Hends).
    destruct (IH (in_pool_thread (_fetch_student_all_platforms env st) s)) as (w & Hw & Hends').
    exists (e ++ w). split; [constructor; assumption|].
    pose proof (ends_trans _ _ _ _ _ _ _ _ _ _ _ Hends Hends') as H.
    cbn [app Nat.add] in H.
    replace (session (in_pool_thread (_fetch_student_all_platforms env st) s))
      with (session s) in H by reflexivity.
    exact H.
Qed.

Lemma touches_in_pool env st s :
  touches (student_pairs st) s (in_pool_thread (_fetch_student_all_platforms env st) s).
Proof.
  unfold in_pool_thread.
  eapply touches_trans; [apply (touches_session _ NoContext)|].
  eapply touches_trans; [apply touches_student|apply touches_session].
Qed.

Lemma touches_run_batch env batch s :
  touches (roster_pairs batch) s (run_batch env batch s).
Proof.
  unfold run_batch. revert s. induction batch as [|st rest IH]; intros s; simpl.
  - apply touches_refl.
  - apply touches_trans with (s2 := in_pool_thread (_fetch_student_all_platforms env st) s).
    + eapply touches_weaken; [|apply touches_in_pool].
      intros a b [Ha Hb]. exists st. split; [left; reflexivity|]. split; assumption.
    + eapply touches_weaken; [|apply IH].
      intros a b (st' & Hin & Ha & Hb). exists st'. split; [right; assumption|]. split; assumption.
Qed.

(** *** Batches *)

Lemma firstn_add {A : Type} (a b : nat) (l : list A) :
  firstn (a + b) l = firstn a l ++ firstn b (skipn a l).
Proof.
  revert l. induction a as [|a IH]; intros l; [reflexivity|].
  destruct l as [|x l]; simpl.
  - rewrite firstn_nil. reflexivity.
  - rewrite IH. reflexivity.
Qed.

Lemma slice_batch {A : Type} (l : list A) (j : nat) :
  slice l (j * batch_size) (j * batch_size + batch_size) =
  firstn batch_size (skipn (j * batch_size) l).
Proof. unfold slice. f_equal. lia. Qed.

Lemma batches_concat_from {A : Type} (l : list A) (c j : nat) :
  List.concat (map (fun i => slice l i (i + batch_size))
            (map (fun k => (k * batch_size)%nat) (seq j c))) =
  firstn (c * batch_size) (skipn (j * batch_size) l).
Proof.
  revert j. induction c as [|c IH]; intros j; [reflexivity|].
  cbn [seq map List.concat]. rewrite IH, slice_batch.
  replace (S c * batch_size)%nat with (batch_size + c * batch_size)%nat by lia.
  rewrite firstn_add, skipn_skipn.
  replace (S j * batch_size)%nat with (batch_size + j * batch_size)%nat by lia.
  reflexivity.
Qed.

Lemma batch_count_bounds n :
  (0 < n)%nat ->
  (1 <= batch_count n /\ (batch_count n - 1) * batch_size < n <= batch_count n * batch_size)%nat.
Proof.
  intros Hn. unfold batch_count, batch_size.
  pose proof (Nat.div_mod_eq (n + 10 - 1) 10) as Hdm.
  pose proof (Nat.mod_upper_bound (n + 10 - 1) 10 ltac:(lia)) as Hmod.
  lia.
Qed.

Lemma batch_count_zero : batch_count 0 = 0%nat.
Proof. reflexivity. Qed.

Lemma batches_of_concat (roster : list Student.t) : List.concat (batches_of roster) = roster.
Proof.
  unfold batches_of, range0. rewrite batches_concat_from. simpl skipn.
  apply firstn_all2.
  destruct roster as [|st rest]; [simpl; lia|].
  pose proof (batch_count_bounds (List.length (st :: rest)) ltac:(simpl; lia)) as H.
  unfold batch_count in H. lia.
Qed.

Lemma work_list_app l1 l2 : work_list (l1 ++ l2) = work_list l1 ++ work_list l2.
Proof. unfold work_list. apply flat_map_app. Qed.

(** *** What a cycle touches, whatever the store and the network do *)

Lemma touches_cycle_touches K s s' : touches K s s' -> cycle_touches K s s'.
Proof.
  intros (Hs & Ha & l & Hl & Hf). split; [assumption|]. split; [assumption|].
  exists l. split; [assumption|].
  eapply Forall_impl; [|eassumption]. intros [a b r|ms|n m|ms]; simpl; auto.
Qed.

Lemma cycle_touches_refl K s : cycle_touches K s s.
Proof. apply touches_cycle_touches, touches_refl. Qed.

Lemma cycle_touches_trans K s1 s2 s3 :
  cycle_touches K s1 s2 -> cycle_touches K s2 s3 -> cycle_touches K s1 s3.
Proof.
  intros (Hs12 & Ha12 & l12 & Hl12 & Hf12) (Hs23 & Ha23 & l23 & Hl23 & Hf23).
  split; [congruence|]. split; [eapply appended_trans; eauto|].
  exists (l12 ++ l23). split.
  - rewrite Hl23, Hl12, app_assoc. reflexivity.
  - apply Forall_app. split; assumption.
Qed.

Lemma cycle_touches_sched K e s :
  is_worker e = false -> cycle_touches K s (log_event e s).
Proof.
  intros He. split; [reflexivity|]. split; [apply appended_none|].
  exists [e]. split; [reflexivity|]. constructor; [|constructor].
  destruct e; simpl in *; try discriminate; exact I.
Qed.

Lemma in_firstn {A : Type} (n : nat) (l : list A) x : In x (firstn n l) -> In x l.
Proof.
  intros H. rewrite <- (firstn_skipn n l). apply in_or_app. left. exact H.
Qed.

Lemma in_skipn {A : Type} (n : nat) (l : list A) x : In x (skipn n l) -> In x l.
Proof.
  intros H. rewrite <- (firstn_skipn n l). apply in_or_app. right. exact H.
Qed.

Lemma in_slice {A : Type} (l : list A) i j x : In x (slice l i j) -> In x l.
Proof.
  unfold slice. intros H. apply in_firstn in H. apply in_skipn in H. exact H.
Qed.

Lemma cycle_touches_batch_step env roster s i :
  cycle_touches (roster_pairs roster) s (batch_step env roster s i).
Proof.
  unfold batch_step.
  set (batch := slice roster i (i + batch_size)).
  set (s1 := log_event (BatchStarted (i / batch_size + 1) (map Student.id batch)) s).
  apply cycle_touches_trans with (s2 := s1); [apply cycle_touches_sched; reflexivity|].
  apply cycle_touches_trans with (s2 := run_batch env batch s1).
  - apply touches_cycle_touches. eapply touches_weaken; [|apply touches_run_batch].
    intros a b (st & Hin & Ha & Hb). exists st. split; [|split; assumption].
    eapply in_slice; eassumption.
  - destruct (i + batch_size <? List.length roster)%nat.
    + apply cycle_touches_sched. reflexivity.
    + apply cycle_touches_refl.
Qed.

(** The cycle, once the scheduler is bound and the roster is not empty. *)
Lemma fetch_all_stats_eq env s :
  fetch_all_stats env true s =
  match students s with
  | [] => s
  | roster =>
      set_session (session s)
        (fold_left (batch_step env roster) (range0 (List.length roster) batch_size)
           (set_session Active s))
  end.
Proof.
  unfold fetch_all_stats, with_app_context. cbn [negb set_session students].
  destruct (students s) as [|st rest]; unfold done; cbn [snd].
  - destruct s. reflexivity.
  - reflexivity.
Qed.

Lemma cycle_touches_fetch_all_stats env app s :
  cycle_touches (roster_pairs (students s)) s (fetch_all_stats env app s).
Proof.
  destruct app; [|apply cycle_touches_refl].
  rewrite fetch_all_stats_eq.
  destruct (students s) as [|st rest] eqn:Eroster; [apply cycle_touches_refl|].
  assert (H : forall idxs s0, students s0 = st :: rest ->
            cycle_touches (roster_pairs (st :: rest)) s0
              (fold_left (batch_step env (st :: rest)) idxs s0)).
  { induction idxs as [|i idxs IH]; intros s0 Hs0; simpl.
    - apply cycle_touches_refl.
    - pose proof (cycle_touches_batch_step env (st :: rest) s0 i) as Hstep.
      eapply cycle_touches_trans; [exact Hstep|]. apply IH.
      destruct Hstep as (Hst & _). congruence. }
  eapply cycle_touches_trans; [apply touches_cycle_touches, (touches_session _ Active)|].
  eapply cycle_touches_trans; [apply H; exact Eroster|].
  apply touches_cycle_touches, touches_session.
Qed.

(** *** The batch loop *)

Lemma batches_of_eq roster :
  batches_of roster = map (batch_at roster) (seq 0 (batch_count (List.length roster))).
Proof. unfold batches_of, range0, batch_at, batch_count. rewrite map_map. reflexivity. Qed.

Lemma range0_eq n : range0 n batch_size = map (fun k => (k * batch_size)%nat) (seq 0 (batch_count n)).
Proof. reflexivity. Qed.

Lemma batch_loop_log env roster (c : nat) :
  forall j s,
    (1 <= c)%nat -> (j + c = batch_count (List.length roster))%nat ->
    exists l,
      ends s (fold_left (batch_step env roster)
                (map (fun k => (k * batch_size)%nat) (seq j c)) s) [] l 0 (session s) /\
      batches_log (j + 1) (map (batch_at roster) (seq j c)) l.
Proof.
  assert (Hn : (0 < batch_count (List.length roster))%nat ->
               (0 < List.length roster)%nat).
  { destruct roster; simpl; [rewrite batch_count_zero|]; lia. }
  induction c as [|c IH]; intros j s Hc Hj; [lia|].
  cbn [seq map fold_left].
  pose proof (batch_count_bounds (List.length roster) ltac:(apply Hn; lia)) as (_ & Hlo & Hhi).
  unfold batch_step at 2.
  change (slice roster (j * batch_size) (j * batch_size + batch_size)) with (batch_at roster j).
  set (batch := batch_at roster j).
  replace (j * batch_size / batch_size + 1)%nat with (j + 1)%nat
    by (rewrite Nat.div_mul; [reflexivity|discriminate]).
  set (s1 := log_event (BatchStarted (j + 1) (map Student.id batch)) s).
  assert (H01 : ends s s1 [] [BatchStarted (j + 1) (map Student.id batch)] 0 (session s)).
  { unfold ends, s1, log_event. cbn. rewrite app_nil_r, Nat.add_0_r. repeat split. }
  destruct (workers_in_pool env batch s1) as (w & Hw & Hends).
  change (session s1) with (session s) in Hends.
  pose proof (ends_trans _ _ _ _ _ _ _ _ _ _ _ H01 Hends) as H02. cbn [app Nat.add] in H02.
  destruct c as [|c].
  - (* the last batch *)
    assert (Hno : (j * batch_size + batch_size <? List.length roster)%nat = false).
    { apply Nat.ltb_ge. unfold batch_size in *. lia. }
    rewrite Hno. cbn [seq map fold_left].
    exists (BatchStarted (j + 1) (map Student.id batch) :: w). split; [exact H02|].
    apply batches_last. assumption.
  - assert (Hyes : (j * batch_size + batch_size <? List.length roster)%nat = true).
    { apply Nat.ltb_lt. unfold batch_size in *. lia. }
    rewrite Hyes.
    set (s2 := run_batch env batch s1) in *.
    assert (H23 : ends s2 (pause 2000 s2) [] [Paused 2000] 0 (session s)).
    { destruct H02 as (_ & _ & _ & _ & Hsess).
      unfold ends, pause, log_event. cbn. rewrite app_nil_r, Nat.add_0_r.
      repeat split. exact Hsess. }
    destruct (IH (S j) (pause 2000 s2) ltac:(lia) ltac:(lia)) as (l & Hl & Hbl).
    exists (BatchStarted (j + 1) (map Student.id batch) :: w ++ Paused 2000 :: l). split.
    + pose proof (ends_trans _ _ _ _ _ _ _ _ _ _ _ H02
                    (ends_trans _ _ _ _ _ _ _ _ _ _ _ H23 Hl)) as H.
      cbn [app Nat.add] in H.
      destruct H02 as (_ & _ & _ & _ & Hsess).
      change (session (pause 2000 s2)) with (session s2) in H. rewrite Hsess in H. exact H.
    + cbn [seq map] in Hbl |- *. apply batches_more; [assumption|].
      replace (S (j + 1)) with (S j + 1)%nat by lia. exact Hbl.
Qed.

Lemma fetch_all_stats_log env s :
  students s <> [] ->
  exists l,
    ends s (fetch_all_stats env true s) [] l 0 (session s) /\
    batches_log 1 (batches_of (students s)) l.
Proof.
  intros Hne. rewrite fetch_all_stats_eq.
  destruct (students s) as [|st rest] eqn:Eroster; [congruence|]. cbv zeta.
  rewrite range0_eq, batches_of_eq.
  destruct (batch_loop_log env (st :: rest) (batch_count (List.length (st :: rest))) 0%nat
              (set_session Active s)) as (l & Hends & Hlog).
  - apply batch_count_bounds. simpl. lia.
  - reflexivity.
  - exists l. split; [|exact Hlog].
    eapply (ends_session s _ _ _ _ _ Active). exact Hends.
Qed.

Lemma batch_at_length roster k :
  List.length (batch_at roster k) =
  Nat.min batch_size (List.length roster - k * batch_size).
Proof.
  unfold batch_at, slice. rewrite length_firstn, length_skipn. f_equal. lia.
Qed.

Lemma batches_all_but_last roster b :
  In b (removelast (batches_of roster)) -> List.length b = batch_size.
Proof.
  rewrite batches_of_eq.
  destruct (batch_count (List.length roster)) as [|m] eqn:Em; [simpl; contradiction|].
  rewrite seq_S, map_app. cbn [map]. rewrite removelast_last.
  intros H. apply in_map_iff in H. destruct H as (k & <- & Hk).
  apply in_seq in Hk. rewrite batch_at_length.
  assert (Hpos : (0 < List.length roster)%nat).
  { destruct roster; [cbv in Em; discriminate|simpl; lia]. }
  pose proof (batch_count_bounds _ Hpos) as (_ & Hlo & _).
  rewrite Em in Hlo. unfold batch_size in *. lia.
Qed.

Lemma batches_last_size roster :
  roster <> [] ->
  (1 <= List.length (last (batches_of roster) []) <= batch_size)%nat.
Proof.
  intros Hne. rewrite batches_of_eq.
  assert (Hpos : (0 < List.length roster)%nat) by (destruct roster; simpl; [congruence|lia]).
  pose proof (batch_count_bounds _ Hpos) as (H1 & Hlo & Hhi).
  destruct (batch_count (List.length roster)) as [|m] eqn:Em; [lia|].
  rewrite seq_S, map_app. cbn [map]. rewrite last_last, batch_at_length.
  unfold batch_size in *. cbn [Nat.add] in *. lia.
Qed.

Lemma batches_of_23 roster :
  List.length roster = 23%nat -> map (@List.length _) (batches_of roster) = [10; 10; 3]%nat.
Proof.
  intros H. rewrite batches_of_eq, H.
  change (batch_count 23) with 3%nat. cbn [seq map].
  rewrite !batch_at_length, H. reflexivity.
Qed.

(** *** The on-demand fetch when the store accepts every write *)

Lemma cycle_between_session v s : cycle_between [] s (set_session v s).
Proof.
  exists [], []. cbn [set_session log snapshots]. rewrite !app_nil_r.
  repeat split. apply cycle_done.
Qed.

Section Accepting.
Variable env : Env.
Hypothesis Hacc : accepting env.

Lemma codeforces_cycle st s :
  session s = Active ->
  exists s',
    _fetch_codeforces_stats env st s = (Returned tt, s') /\ session s' = Active /\
    cycle_between [(Student.id st, "CF"%string)] s s'.
Proof.
  intros Hs.
  destruct (fetch_with_retry_accepting env (Student.id st) (Student.cf_handle st) "CF"
              (Codeforces.get_user_info (network env) (fmt env)) codeforces_snapshot s Hacc Hs)
    as (s' & Hrun & Hsess & Hpolicy).
  exists s'. split; [exact Hrun|]. split; [exact Hsess|].
  eapply retry_policy_pair; [|exact Hpolicy]. intros; repeat split.
Qed.

Lemma leetcode_cycle st s :
  session s = Active ->
  exists s',
    _fetch_leetcode_stats env st s = (Returned tt, s') /\ session s' = Active /\
    cycle_between [(Student.id st, "LC"%string)] s s'.
Proof.
  intros Hs.
  destruct (fetch_with_retry_accepting env (Student.id st) (Student.lc_username st) "LC"
              (LeetCode.get_user_stats (network env)) leetcode_snapshot s Hacc Hs)
    as (s' & Hrun & Hsess & Hpolicy).
  exists s'. split; [exact Hrun|]. split; [exact Hsess|].
  eapply retry_policy_pair; [|exact Hpolicy]. intros; repeat split.
Qed.

Lemma codechef_cycle st s :
  session s = Active ->
  exists s',
    _fetch_codechef_stats env st s = (Returned tt, s') /\ session s' = Active /\
    cycle_between [(Student.id st, "CC"%string)] s s'.
Proof.
  intros Hs.
  destruct (fetch_with_retry_accepting env (Student.id st) (Student.cc_username st) "CC"
              (CodeChef.get_user_stats (network env) (text env)) codechef_snapshot s Hacc Hs)
    as (s' & Hrun & Hsess & Hpolicy).
  exists s'. split; [exact Hrun|]. split; [exact Hsess|].
  eapply retry_policy_pair; [|exact Hpolicy]. intros; repeat split.
Qed.

Lemma when_registered_cycle h fetch pair s :
  session s = Active ->
  (exists s', fetch s = (Returned tt, s') /\ session s' = Active /\ cycle_between [pair] s s') ->
  exists s',
    when_registered h fetch s = (Returned tt, s') /\ session s' = Active /\
    cycle_between (if registered_handle h then [pair] else []) s s'.
Proof.
  intros Hs (s' & Hrun & Hsess & Hc). rewrite when_registered_eq, Hs.
  destruct (registered_handle h).
  - exists s'. repeat split; assumption.
  - exists s. split; [reflexivity|]. split; [exact Hs|apply cycle_between_refl].
Qed.

Lemma student_cycle st s :
  session s = Active ->
  exists s',
    fetch_platforms env st s = (Returned tt, s') /\ session s' = Active /\
    cycle_between (student_work st) s s'.
Proof.
  intros Hs. rewrite student_work_eq. unfold fetch_platforms.
  destruct (when_registered_cycle (Student.cf_handle st) (_fetch_codeforces_stats env st)
              (Student.id st, "CF"%string) s Hs (codeforces_cycle st s Hs))
    as (s1 & Hrun1 & Hs1 & Hc1).
  destruct (when_registered_cycle (Student.lc_username st) (_fetch_leetcode_stats env st)
              (Student.id st, "LC"%string) s1 Hs1 (leetcode_cycle st s1 Hs1))
    as (s2 & Hrun2 & Hs2 & Hc2).
  destruct (when_registered_cycle (Student.cc_username st) (_fetch_codechef_stats env st)
              (Student.id st, "CC"%string) s2 Hs2 (codechef_cycle st s2 Hs2))
    as (s3 & Hrun3 & Hs3 & Hc3).
  exists s3. unfold and_then. rewrite Hrun1, Hrun2, Hrun3.
  split; [reflexivity|]. split; [exact Hs3|].
  eapply cycle_between_trans; [exact Hc1|]. eapply cycle_between_trans; eassumption.
Qed.

Lemma on_demand_cycle sid st s :
  query_get sid (students s) = Some st ->
  fst (fetch_student_stats env sid s) = Returned true /\
  cycle_between (student_work st) s (snd (fetch_student_stats env sid s)).
Proof.
  intros Hget. rewrite (fetch_student_stats_found env sid st s Hget). cbn [fst snd].
  destruct (student_cycle st (set_session Active s) eq_refl) as (s' & Hrun & _ & Hc).
  rewrite Hrun. cbn [fst snd]. split; [reflexivity|].
  rewrite <- (app_nil_l (student_work st)).
  eapply cycle_between_trans; [apply (cycle_between_session Active)|].
  rewrite <- (app_nil_r (student_work st)).
  eapply cycle_between_trans; [exact Hc|apply cycle_between_session].
Qed.

End Accepting.

(** *** Append-only tables *)

Lemma next_id_above (t : list StatsSnapshot.t) row :
  In row t -> StatsSnapshot.id row < next_id t.
Proof.
  unfold next_id. induction t as [|x t IH]; [contradiction|].
  cbn [fold_right In]. intros [->|H]; [lia|]. specialize (IH H). lia.
Qed.

Lemma appended_rows P t t' :
  appended P t t' ->
  exists rows,
    t' = t ++ rows /\ Forall P rows /\
    forall row old, In row rows -> In old t -> StatsSnapshot.id old < StatsSnapshot.id row.
Proof.
  intros H. induction H as [t|t t' row H IH HP Hid].
  - exists []. rewrite app_nil_r. repeat split; [constructor|]. intros ? ? [].
  - destruct IH as (rows & -> & Hall & Hfresh).
    exists (rows ++ [row]). split; [rewrite app_assoc; reflexivity|]. split.
    + apply Forall_app. split; [assumption|]. constructor; [assumption|constructor].
    + intros r old Hr Hold. apply in_app_or in Hr. destruct Hr as [Hr|[<-|[]]].
      * apply Hfresh; assumption.
      * rewrite Hid. apply next_id_above. apply in_or_app. left. assumption.
Qed.

Lemma rows_of_app a p t1 t2 : rows_of a p (t1 ++ t2) = rows_of a p t1 ++ rows_of a p t2.
Proof. unfold rows_of. apply filter_app. Qed.

Lemma rows_of_In a p t row :
  In row (rows_of a p t) <->
  In row t /\ StatsSnapshot.student_id row = a /\ StatsSnapshot.platform row = p.
Proof.
  unfold rows_of. rewrite filter_In, andb_true_iff, Z.eqb_eq, String.eqb_eq. reflexivity.
Qed.

Lemma rows_of_untouched (P : StatsSnapshot.t -> Prop) a p t t' :
  (forall row, P row ->
     ~ (StatsSnapshot.student_id row = a /\ StatsSnapshot.platform row = p)) ->
  appended P t t' -> rows_of a p t' = rows_of a p t.
Proof.
  intros HP H. induction H as [t|t t' row H IH Hrow Hid]; [reflexivity|].
  rewrite rows_of_app, IH.
  assert (Hnil : rows_of a p [row] = []).
  { unfold rows_of. simpl.
    destruct ((StatsSnapshot.student_id row =? a) &&
              String.eqb (StatsSnapshot.platform row) p) eqn:E; [|reflexivity].
    apply andb_true_iff in E. destruct E as [E1 E2].
    apply Z.eqb_eq in E1. apply String.eqb_eq in E2. exfalso. apply (HP row Hrow). auto. }
  rewrite Hnil, app_nil_r. reflexivity.
Qed.

Lemma cycle_touches_untouched (K : Z -> string -> Prop) a p s s' :
  ~ K a p -> cycle_touches K s s' -> untouched a p s s'.
Proof.
  intros HK (_ & Happ & l & Hl & Hf). split.
  - eapply rows_of_untouched; [|eassumption].
    intros row Hrow [<- <-]. exact (HK Hrow).
  - intros r Hin. rewrite Hl in Hin. apply in_app_or in Hin. destruct Hin as [Hin|Hin]; [assumption|].
    rewrite Forall_forall in Hf. specialize (Hf _ Hin). simpl in Hf. contradiction.
Qed.

(** *** ORDER BY *)

Section OrderByProofs.
Context {A : Type}.
Variable before : Z -> Z -> bool.
Variable key : A -> Z.
Hypothesis before_total : forall a b, before a b = false -> before b a = true.
Hypothesis before_trans :
  forall a b c, before a b = true -> before b c = true -> before a c = true.

Let R (x y : A) : Prop := before (key x) (key y) = true.

Lemma insert_perm x l : Permutation (Query.insert before key x l) (x :: l).
Proof.
  induction l as [|y l IH]; simpl; [reflexivity|].
  destruct (before (key x) (key y)); [reflexivity|].
  rewrite IH. apply perm_swap.
Qed.

Lemma order_by_perm l : Permutation (Query.order_by before key l) l.
Proof.
  induction l as [|x l IH]; simpl; [reflexivity|].
  rewrite insert_perm, IH. reflexivity.
Qed.

Lemma insert_sorted x l :
  StronglySorted R l -> StronglySorted R (Query.insert before key x l).
Proof.
  induction l as [|y l IH]; intros Hs; simpl.
  - constructor; constructor.
  - inversion Hs as [|y' l' Hs' Hall]; subst.
    destruct (before (key x) (key y)) eqn:E.
    + constructor; [assumption|]. constructor; [exact E|].
      eapply Forall_impl; [|exact Hall]. intros z Hz. unfold R in *. eapply before_trans; eassumption.
    + constructor; [apply IH; assumption|].
      eapply Permutation_Forall; [symmetry; apply insert_perm|].
      constructor; [apply before_total; exact E|assumption].
Qed.

Lemma order_by_sorted l : StronglySorted R (Query.order_by before key l).
Proof.
  induction l as [|x l IH]; simpl; [constructor|]. apply insert_sorted. assumption.
Qed.

End OrderByProofs.

Lemma strongly_sorted_impl {A : Type} (R R' : A -> A -> Prop) l :
  (forall x y, R x y -> R' x y) -> StronglySorted R l -> StronglySorted R' l.
Proof.
  intros HR H. induction H as [|x l Hs IH Hall]; constructor; [assumption|].
  eapply Forall_impl; [|exact Hall]. intros y. apply HR.
Qed.

Lemma asc_sorted {A : Type} (key : A -> Z) l :
  StronglySorted (fun x y => key x <= key y) (Query.asc key l).
Proof.
  unfold Query.asc.
  eapply strongly_sorted_impl; [|apply (order_by_sorted Z.leb key)].
  - intros x y H. apply Z.leb_le. exact H.
  - intros a b H. apply Z.leb_gt in H. apply Z.leb_le. lia.
  - intros a b c H1 H2. apply Z.leb_le in H1, H2. apply Z.leb_le. lia.
Qed.

Lemma desc_sorted {A : Type} (key : A -> Z) l :
  StronglySorted (fun x y => key y <= key x) (Query.desc key l).
Proof.
  unfold Query.desc.
  eapply strongly_sorted_impl; [|apply (order_by_sorted Z.geb key)].
  - intros x y H. apply Z.geb_le. exact H.
  - intros a b H. rewrite Z.geb_leb in *. apply Z.leb_gt in H. apply Z.leb_le. lia.
  - intros a b c H1 H2. rewrite Z.geb_leb in *. apply Z.leb_le in H1, H2. apply Z.leb_le. lia.
Qed.

Lemma filter_filter {A : Type} (f g : A -> bool) l :
  filter f (filter g l) = filter (fun x => g x && f x) l.
Proof.
  induction l as [|x l IH]; simpl; [reflexivity|].
  destruct (g x); simpl; [destruct (f x)|]; rewrite IH; reflexivity.
Qed.

Lemma pair_rows (self : Student.t) p table :
  filter (fun row => String.eqb (StatsSnapshot.platform row) p)
    (Student.stats_snapshots self table) = rows_of (Student.id self) p table.
Proof. unfold Student.stats_snapshots, rows_of. apply filter_filter. Qed.

(** *** The adapters *)

Lemma returning_none_on_uncaught {A : Type} (caught : exn_kind -> bool)
  (body : M (option A)) n e n' :
  returning_none_on caught body n = (Raised e, n') -> caught (kind e) = false.
Proof.
  unfold returning_none_on. destruct (body n) as [[a|e0] n0].
  - discriminate.
  - destruct (caught (kind e0)) eqn:E; [discriminate|].
    intros H. injection H as <- _. exact E.
Qed.

(** The CodeChef adapter catches every exception. *)
Lemma codechef_never_raises net lib user n :
  exists r n', CodeChef.get_user_stats net lib user n = (Returned r, n').
Proof.
  unfold CodeChef.get_user_stats, returning_none_on.
  destruct (CodeChef.get_user_stats_body net lib user n) as [[r|e] n'].
  - exists r, n'. reflexivity.
  - exists None, n'. reflexivity.
Qed.

(** The Codeforces and LeetCode adapters let through exactly what their
    [except] clauses do not name. *)
Lemma codeforces_raises_uncaught net fmt handle n e n' :
  Codeforces.get_user_info net fmt handle n = (Raised e, n') ->
  Codeforces.caught (kind e) = false.
Proof. apply returning_none_on_uncaught. Qed.

Lemma leetcode_raises_uncaught net user n e n' :
  LeetCode.get_user_stats net user n = (Raised e, n') ->
  LeetCode.caught (kind e) = false.
Proof. apply returning_none_on_uncaught. Qed.

(** * The claims *)

Lemma for_attempts_cons {D : Type} env sid handle p (adapter : string -> M (option D)) mk
  a rest s :
  for_attempts env sid handle p adapter mk (a :: rest) s =
  match attempt_once env sid handle p adapter mk a s with
  | (Returned Leave, s') => (Returned tt, s')
  | (Returned Go_on, s') => for_attempts env sid handle p adapter mk rest s'
  | (Raised e, s') => (Raised e, s')
  end.
Proof. apply for_attempts_step. Qed.

(** A success row the engine refuses, at the first attempt. *)
Lemma refused_success {D : Type} env sid handle p (adapter : string -> M (option D)) mk
  s d msg :
  session s = Active ->
  fst (adapter (handle_text handle) (net s)) = Returned (Some d) ->
  commit env (commits s) = Rejected msg ->
  let run := fetch_with_retry env sid handle p adapter mk s in
  fst run = Raised pending_rollback /\
  log (snd run) = log s ++ [Called sid p Got; Waited 2000; Waited 2000] /\
  snapshots (snd run) = snapshots s /\
  session (snd run) = Inactive.
Proof.
  intros Hs Hcall Hcommit. cbv zeta. unfold fetch_with_retry, max_retries. cbn [seq].
  rewrite for_attempts_cons, (attempt_once_active env sid handle p adapter mk 0%nat s Hs).
  destruct (adapter (handle_text handle) (net s)) as [r n]. cbn [fst] in Hcall. subst r.
  rewrite Hcommit. cbv zeta. cbn [Nat.ltb Nat.leb max_retries Nat.sub].
  match goal with
  | |- context [for_attempts _ _ _ _ _ _ _ ?s2] =>
      destruct (for_attempts_inactive env sid handle p adapter mk 2%nat 1%nat s2
                  eq_refl ltac:(lia) eq_refl) as (s' & Hrun & (_ & Hrows & Hlog & _ & Hsess) & _)
  end.
  cbn [seq] in Hrun. rewrite Hrun. cbn [fst snd].
  split; [reflexivity|]. split.
  - rewrite Hlog. unfold log_event, after_call. cbn [log summary Nat.sub repeat].
    rewrite <- !app_assoc. reflexivity.
  - split; [|exact Hsess]. rewrite Hrows. unfold log_event. cbn [snapshots].
    apply app_nil_r.
Qed.

(** C1.  The claim holds of a run in which the store accepts the write, and
    fails when the engine refuses the success row: the [except] clause of the
    loop does not roll the session back, as [_save_failed_snapshot] does.
    For every environment, when the first call gives data and the engine
    refuses the row, the loop makes no further call, sleeps the two delays
    and raises [PendingRollbackError] out of the function, with nothing
    recorded: it neither returns after the first result nor records a
    terminal failure.  So it is for alice when Codeforces answers and the
    engine refuses every write. *)
Theorem C1_refused_write_raises :
  (forall env student s d msg,
      session s = Active ->
      fst (Codeforces.get_user_info (network env) (fmt env)
             (handle_text (Student.cf_handle student)) (net s)) = Returned (Some d) ->
      commit env (commits s) = Rejected msg ->
      let run := _fetch_codeforces_stats env student s in
      fst run = Raised pending_rollback /\
      log (snd run) = log s ++ [Called (Student.id student) "CF" Got; Waited 2000; Waited 2000] /\
      snapshots (snd run) = snapshots s) /\
  let run := _fetch_codeforces_stats Examples.rejecting_env Examples.alice Examples.start in
  fst run = Raised pending_rollback /\
  log (snd run) = [Called 1 "CF" Got; Waited 2000; Waited 2000] /\
  snapshots (snd run) = [].
Proof.
  assert (H : forall env student s d msg,
      session s = Active ->
      fst (Codeforces.get_user_info (network env) (fmt env)
             (handle_text (Student.cf_handle student)) (net s)) = Returned (Some d) ->
      commit env (commits s) = Rejected msg ->
      let run := _fetch_codeforces_stats env student s in
      fst run = Raised pending_rollback /\
      log (snd run) = log s ++ [Called (Student.id student) "CF" Got; Waited 2000; Waited 2000] /\
      snapshots (snd run) = snapshots s).
  { intros env student s d msg Hs Hcall Hcommit. cbv zeta.
    destruct (refused_success env (Student.id student) (Student.cf_handle student) "CF"
                (Codeforces.get_user_info (network env) (fmt env)) codeforces_snapshot
                s d msg Hs Hcall Hcommit) as (H1 & H2 & H3 & _).
    split; [exact H1|]. split; [exact H2|exact H3]. }
  split; [exact H|].
  exact (H Examples.rejecting_env Examples.alice Examples.start
           {| Codeforces.rating := PInt 1500; Codeforces.max_rating := PInt 1600;
              Codeforces.solved := 1; Codeforces.handle := PStr "tourist";
              Codeforces.rank := PStr "Unrated" |}
           "database is locked"%string eq_refl eq_refl eq_refl).
Qed.

(** C2.  The claim fails of the periodic cycle: the workers of the pool run
    in threads without the application context that [fetch_all_stats]
    pushed, so every use of [db.session] raises there and no cycle appends a
    snapshot, whatever the adapters return and the store would accept.  In
    the cycle over alice and bob, with Codeforces answering and the store
    accepting, the three calls for (alice, CF) give data and the table stays
    empty. *)
Theorem C2_periodic_cycle_appends_nothing :
  (forall env app s,
      snapshots (fetch_all_stats env app s) = snapshots s /\
      commits (fetch_all_stats env app s) = commits s) /\
  accepting Examples.accepting_env /\
  work_list (students Examples.start) = [(1, "CF"%string)] /\
  let s' := fetch_all_stats Examples.accepting_env true Examples.start in
  log s' = [BatchStarted 1 [1; 2];
            Called 1 "CF" Got; Waited 2000; Called 1 "CF" Got; Waited 2000; Called 1 "CF" Got] /\
  snapshots s' = [].
Proof.
  split; [|split; [|split; [|split]]].
  - intros env app s. destruct app; [|split; reflexivity].
    destruct (students s) as [|st rest] eqn:E.
    + rewrite fetch_all_stats_eq, E. split; reflexivity.
    + destruct (fetch_all_stats_log env s ltac:(rewrite E; discriminate))
        as (l & (_ & Hrows & _ & Hcommits & _) & _).
      rewrite Hrows, Hcommits, app_nil_r, Nat.add_0_r. split; reflexivity.
  - intros n. eexists. reflexivity.
  - reflexivity.
  - vm_compute. reflexivity.
  - vm_compute. reflexivity.
Qed.

(** C3.  The batch scheduler cuts the roster loaded at trigger time into
    consecutive batches of 10 students, the last one possibly smaller, and
    processes them in order: each batch is started, the worker of each of
    its students runs, and a pause of 2 s follows every batch but the last.
    With 23 students there are 3 batches, of sizes 10, 10 and 3.  With no
    student the cycle does nothing: the state, and so the table of
    snapshots, is unchanged. *)
Theorem C3_batches (env : Env) (s : State) :
  let roster := students s in
  let s' := fetch_all_stats env true s in
  (roster = [] -> s' = s) /\
  (roster <> [] ->
   exists l, log s' = log s ++ l /\ batches_log 1 (batches_of roster) l) /\
  List.concat (batches_of roster) = roster /\
  (forall b, In b (removelast (batches_of roster)) -> List.length b = 10%nat) /\
  (roster <> [] -> (1 <= List.length (last (batches_of roster) []) <= 10)%nat) /\
  (List.length roster = 23%nat ->
   map (@List.length Student.t) (batches_of roster) = [10; 10; 3]%nat).
Proof.
  cbv zeta. repeat split.
  - intros H. rewrite fetch_all_stats_eq, H. reflexivity.
  - intros H. destruct (fetch_all_stats_log env s H) as (l & (_ & _ & Hlog & _) & Hb).
    exists l. split; assumption.
  - apply batches_of_concat.
  - apply batches_all_but_last.
  - apply batches_last_size. assumption.
  - apply batches_last_size. assumption.
  - apply batches_of_23.
Qed.

Lemma C3_batches_witness :
  List.length Examples.roster23 = 23%nat /\
  (exists l,
     log (fetch_all_stats Examples.failing_env true (Examples.state_of Examples.roster23)) = l /\
     batches_log 1 (batches_of Examples.roster23) l) /\
  map (@List.length Student.t) (batches_of Examples.roster23) = [10; 10; 3]%nat /\
  fetch_all_stats Examples.failing_env true (Examples.state_of []) = Examples.state_of [].
Proof.
  split; [reflexivity|].
  destruct (C3_batches Examples.failing_env (Examples.state_of Examples.roster23))
    as (_ & Hlog & _ & _ & _ & H23).
  destruct (C3_batches Examples.failing_env (Examples.state_of [])) as (Hnone & _).
  split; [|split].
  - destruct (Hlog ltac:(discriminate)) as (l & Hl & Hb). exists l. split; [exact Hl|exact Hb].
  - apply H23. reflexivity.
  - apply Hnone. reflexivity.
Defined.

(** C4.  A platform for which a student has no registered handle is skipped
    for that student: the orchestrator of the periodic path, the on-demand
    fetch and the whole periodic cycle append no row for the pair and make
    no adapter call for it. *)
Theorem C4_unregistered_platform_skipped (env : Env) (student : Student.t) (platform : string) :
  registered student platform = false ->
  (forall s,
      untouched (Student.id student) platform s
        (snd (_fetch_student_all_platforms env student s))) /\
  (forall s,
      query_get (Student.id student) (students s) = Some student ->
      untouched (Student.id student) platform s
        (snd (fetch_student_stats env (Student.id student) s))) /\
  (forall s app,
      In student (students s) -> NoDup (map Student.id (students s)) ->
      untouched (Student.id student) platform s (fetch_all_stats env app s)).
Proof.
  intros Hreg.
  assert (Hst : ~ student_pairs student (Student.id student) platform).
  { intros [_ H]. congruence. }
  split; [|split].
  - intros s. eapply cycle_touches_untouched; [exact Hst|].
    apply touches_cycle_touches, touches_student.
  - intros s Hget.
    eapply cycle_touches_untouched; [exact Hst|].
    apply touches_cycle_touches, touches_fetch_student_stats. exact Hget.
  - intros s app Hin Hnodup.
    eapply cycle_touches_untouched; [|apply cycle_touches_fetch_all_stats].
    intros (st & Hin' & Hid & Hreg').
    assert (st = student); [|subst st; congruence].
    clear - Hin Hin' Hid Hnodup. revert Hin Hin' Hnodup.
    induction (students s) as [|x l IH]; simpl; [contradiction|].
    intros [->|H1] [->|H2] Hnd; inversion Hnd as [|? ? Hnotin Hnd']; subst.
    + reflexivity.
    + exfalso. apply Hnotin. rewrite Hid. apply in_map. assumption.
    + exfalso. apply Hnotin. rewrite <- Hid. apply in_map. assumption.
    + apply IH; assumption.
Qed.

Lemma C4_unregistered_platform_skipped_witness :
  registered Examples.alice "CC" = false /\
  query_get 1 (students Examples.start) = Some Examples.alice /\
  NoDup (map Student.id (students Examples.start)) /\
  untouched 1 "CC" Examples.start
    (snd (_fetch_student_all_platforms Examples.accepting_env Examples.alice Examples.start)) /\
  untouched 1 "CC" Examples.start
    (snd (fetch_student_stats Examples.accepting_env 1 Examples.start)) /\
  untouched 1 "CC" Examples.start
    (fetch_all_stats Examples.accepting_env true Examples.start).
Proof.
  assert (Hnd : NoDup (map Student.id (students Examples.start))).
  { simpl. constructor; [simpl; intros [H|[]]; discriminate|].
    constructor; [simpl; tauto|constructor]. }
  split; [reflexivity|]. split; [reflexivity|]. split; [exact Hnd|].
  destruct (C4_unregistered_platform_skipped Examples.accepting_env Examples.alice "CC" eq_refl)
    as (H1 & H2 & H3).
  split; [apply H1|]. split; [apply (H2 Examples.start); reflexivity|].
  apply (H3 Examples.start true); [simpl; auto|exact Hnd].
Defined.

(** C5.  The claim (an adapter never raises: every malformed response ends
    in [None]) holds for the CodeChef adapter, which catches [Exception], and
    fails for the other two, whose [except] clauses name only
    [RequestException], [KeyError], [ValueError] and [IndexError]: a 200
    answer whose JSON body is the array [[]] makes [get_user_info] raise a
    [TypeError], and one whose body is [{"data": null}] makes the LeetCode
    [get_user_stats] raise an [AttributeError]. *)
Theorem C5_adapter_raises :
  fst (Codeforces.get_user_info Examples.array_body Examples.format "tourist" Examples.idle)
    = Raised (Exn TypeError "list indices must be integers or slices, not str") /\
  fst (LeetCode.get_user_stats Examples.null_data "alice" Examples.idle)
    = Raised (Exn AttributeError "'NoneType' object has no attribute 'get'") /\
  (forall net lib user n,
      exists r n', CodeChef.get_user_stats net lib user n = (Returned r, n')).
Proof.
  split; [vm_compute; reflexivity|]. split; [vm_compute; reflexivity|].
  apply codechef_never_raises.
Qed.

(** *** Two cycles in succession *)

Lemma cycle_runs_pair_row work events rows a p :
  cycle_runs work events rows -> NoDup work -> In (a, p) work ->
  exists r, rows_of a p rows = [r].
Proof.
  intros H. induction H as [|sid q ev row work ev' rows Hrun Hc IH]; intros Hnd Hin.
  - contradiction.
  - destruct Hrun as (rs & _ & _ & Hsid & Hq & _).
    inversion Hnd as [|? ? Hnotin Hnd']; subst.
    change (row :: rows) with ([row] ++ rows). rewrite rows_of_app.
    destruct Hin as [Heq|Hin].
    + injection Heq as <- <-.
      assert (Hrest : rows_of (StatsSnapshot.student_id row) (StatsSnapshot.platform row) rows = []).
      { destruct (rows_of (StatsSnapshot.student_id row) (StatsSnapshot.platform row) rows)
          as [|x xs] eqn:E; [reflexivity|].
        exfalso. apply Hnotin.
        assert (Hx : In x (rows_of (StatsSnapshot.student_id row) (StatsSnapshot.platform row) rows))
          by (rewrite E; left; reflexivity).
        apply rows_of_In in Hx. destruct Hx as (Hx & Hx1 & Hx2).
        clear - Hc Hx Hx1 Hx2. induction Hc as [|sid q ev r0 work ev' rows Hrun Hc IH].
        - contradiction.
        - destruct Hrun as (rs & _ & _ & Hsid & Hq & _).
          destruct Hx as [->|Hx]; [left; congruence|right; apply IH; assumption]. }
      rewrite Hrest, app_nil_r. exists row. unfold rows_of. simpl.
      rewrite Z.eqb_refl, String.eqb_refl. reflexivity.
    + assert (Hnil : rows_of a p [row] = []).
      { unfold rows_of. simpl.
        destruct ((StatsSnapshot.student_id row =? a) &&
                  String.eqb (StatsSnapshot.platform row) p) eqn:E; [|reflexivity].
        apply andb_true_iff in E. destruct E as [E1 E2].
        apply Z.eqb_eq in E1. apply String.eqb_eq in E2. subst.
        exfalso. apply Hnotin. assumption. }
      rewrite Hnil. apply IH; assumption.
Qed.

Lemma registered_platform st p : registered st p = true -> In p platforms.
Proof.
  unfold registered, handle_for, platforms.
  destruct (String.eqb_spec p "CF"); [subst; simpl; auto|].
  destruct (String.eqb_spec p "LC"); [subst; simpl; auto|].
  destruct (String.eqb_spec p "CC"); [subst; simpl; auto|].
  simpl. discriminate.
Qed.

Lemma student_work_nodup st : NoDup (student_work st).
Proof.
  unfold student_work. apply Finite.Injective_map_NoDup.
  - intros x y H. congruence.
  - apply NoDup_filter. unfold platforms.
    repeat constructor; simpl; intuition discriminate.
Qed.

Lemma student_work_in st p :
  registered st p = true -> In (Student.id st, p) (student_work st).
Proof.
  intros H. unfold student_work. apply in_map, filter_In.
  split; [eapply registered_platform; eassumption|assumption].
Qed.

Lemma query_get_id sid roster st : query_get sid roster = Some st -> Student.id st = sid.
Proof.
  unfold query_get. intros H. apply find_some in H. destruct H as [_ H].
  apply Z.eqb_eq. exact H.
Qed.

(** C6.  The pipeline only appends to the table of snapshots: after a
    periodic cycle and after an on-demand fetch the old rows are still
    there, unchanged and in place, followed by the new ones.  Two on-demand
    fetches in succession do not overwrite: the rows of the first are kept
    and the rows of the second come after them with larger keys; and for a
    student with a registered handle on a platform (the store accepting the
    writes) the pair has two more rows after the two fetches, with different
    keys. *)
Theorem C6_append_only (env : Env) (s : State) :
  (forall app, exists rows, snapshots (fetch_all_stats env app s) = snapshots s ++ rows) /\
  (forall student_id,
      exists rows, snapshots (snd (fetch_student_stats env student_id s)) = snapshots s ++ rows) /\
  (forall student_id,
      let s1 := snd (fetch_student_stats env student_id s) in
      let s2 := snd (fetch_student_stats env student_id s1) in
      exists rows1 rows2,
        snapshots s1 = snapshots s ++ rows1 /\
        snapshots s2 = snapshots s ++ rows1 ++ rows2 /\
        forall old new, In old (snapshots s ++ rows1) -> In new rows2 ->
                        StatsSnapshot.id old < StatsSnapshot.id new) /\
  (forall student_id student platform,
      accepting env ->
      query_get student_id (students s) = Some student ->
      registered student platform = true ->
      let s1 := snd (fetch_student_stats env student_id s) in
      let s2 := snd (fetch_student_stats env student_id s1) in
      exists r1 r2,
        rows_of student_id platform (snapshots s2) =
          rows_of student_id platform (snapshots s) ++ [r1; r2] /\
        StatsSnapshot.id r1 < StatsSnapshot.id r2).
Proof.
  assert (Hstep : forall sid s0,
            students (snd (fetch_student_stats env sid s0)) = students s0 /\
            exists rows,
              snapshots (snd (fetch_student_stats env sid s0)) = snapshots s0 ++ rows /\
              forall old new, In old (snapshots s0) -> In new rows ->
                              StatsSnapshot.id old < StatsSnapshot.id new).
  { intros sid s0. destruct (query_get sid (students s0)) as [st|] eqn:Hget.
    - destruct (touches_fetch_student_stats env sid st s0 Hget) as (Hst & Happ & _).
      split; [exact Hst|].
      destruct (appended_rows _ _ _ Happ) as (rows & Hrows & _ & Hfresh).
      exists rows. split; [exact Hrows|]. intros old new Ho Hn. apply Hfresh; assumption.
    - rewrite (fetch_student_stats_missing env sid s0 Hget). cbn [snd].
      split; [reflexivity|]. exists []. rewrite app_nil_r. split; [reflexivity|]. intros ? ? ? []. }
  split; [|split; [|split]].
  - intros app. destruct (cycle_touches_fetch_all_stats env app s) as (_ & Happ & _).
    destruct (appended_rows _ _ _ Happ) as (rows & Hrows & _). exists rows. exact Hrows.
  - intros sid. destruct (Hstep sid s) as (_ & rows & Hrows & _). exists rows. exact Hrows.
  - intros sid s1 s2. subst s1 s2.
    destruct (Hstep sid s) as (_ & rows1 & Hrows1 & _).
    destruct (Hstep sid (snd (fetch_student_stats env sid s))) as (_ & rows2 & Hrows2 & Hfresh2).
    exists rows1, rows2. split; [exact Hrows1|]. split.
    + rewrite Hrows2, Hrows1, app_assoc. reflexivity.
    + intros old new Ho Hn. apply Hfresh2; [rewrite Hrows1|]; assumption.
  - intros sid st p Hacc Hget Hreg s1 s2. subst s1 s2.
    pose proof (query_get_id _ _ _ Hget) as Hid.
    destruct (Hstep sid s) as (Hst1 & rows1 & Hrows1 & _).
    destruct (Hstep sid (snd (fetch_student_stats env sid s))) as (_ & rows2 & Hrows2 & Hfresh2).
    assert (Hget1 : query_get sid (students (snd (fetch_student_stats env sid s))) = Some st)
      by (rewrite Hst1; exact Hget).
    set (s1 := snd (fetch_student_stats env sid s)) in *.
    destruct (on_demand_cycle env Hacc sid st s Hget) as (_ & l1 & w1 & _ & Hw1 & Hc1 & _).
    destruct (on_demand_cycle env Hacc sid st s1 Hget1) as (_ & l2 & w2 & _ & Hw2 & Hc2 & _).
    fold s1 in Hw1.
    assert (w1 = rows1) by (apply (app_inv_head (snapshots s)); congruence). subst w1.
    assert (w2 = rows2) by (apply (app_inv_head (snapshots s1)); congruence). subst w2.
    destruct (cycle_runs_pair_row _ _ _ sid p Hc1 (student_work_nodup st)) as (r1 & Hr1);
      [rewrite <- Hid; apply student_work_in; assumption|].
    destruct (cycle_runs_pair_row _ _ _ sid p Hc2 (student_work_nodup st)) as (r2 & Hr2);
      [rewrite <- Hid; apply student_work_in; assumption|].
    exists r1, r2. split.
    + rewrite Hrows2, Hrows1, !rows_of_app, Hr1, Hr2, <- app_assoc. reflexivity.
    + apply Hfresh2.
      * rewrite Hrows1. apply in_or_app. right.
        assert (H : In r1 (rows_of sid p rows1)) by (rewrite Hr1; left; reflexivity).
        apply rows_of_In in H. tauto.
      * assert (H : In r2 (rows_of sid p rows2)) by (rewrite Hr2; left; reflexivity).
        apply rows_of_In in H. tauto.
Qed.

Lemma C6_append_only_witness :
  accepting Examples.accepting_env /\
  query_get 1 (students Examples.start) = Some Examples.alice /\
  registered Examples.alice "CF" = true /\
  exists r1 r2,
    rows_of 1 "CF"
      (snapshots (snd (fetch_student_stats Examples.accepting_env 1
                         (snd (fetch_student_stats Examples.accepting_env 1 Examples.start))))) =
      rows_of 1 "CF" (snapshots Examples.start) ++ [r1; r2] /\
    StatsSnapshot.id r1 < StatsSnapshot.id r2.
Proof.
  assert (Hacc : accepting Examples.accepting_env) by (intros n; eexists; reflexivity).
  split; [exact Hacc|]. split; [reflexivity|]. split; [reflexivity|].
  destruct (C6_append_only Examples.accepting_env Examples.start) as (_ & _ & _ & H).
  exact (H 1 Examples.alice "CF"%string Hacc eq_refl eq_refl).
Defined.

(** C7.  The latest stats of a student on a platform are absent when the
    pair has no snapshot, and otherwise are a snapshot of the pair whose
    timestamp is the largest among the snapshots of the pair. *)
Theorem C7_latest_is_maximum (self : Student.t) (platform : string)
  (table : list StatsSnapshot.t) :
  match Student.get_latest_stats self platform table with
  | None =>
      forall row, In row table ->
        ~ (StatsSnapshot.student_id row = Student.id self /\
           StatsSnapshot.platform row = platform)
  | Some latest =>
      In latest table /\
      StatsSnapshot.student_id latest = Student.id self /\
      StatsSnapshot.platform latest = platform /\
      forall row, In row table ->
        StatsSnapshot.student_id row = Student.id self ->
        StatsSnapshot.platform row = platform ->
        StatsSnapshot.timestamp row <= StatsSnapshot.timestamp latest
  end.
Proof.
  unfold Student.get_latest_stats. rewrite pair_rows.
  set (rows := rows_of (Student.id self) platform table).
  pose proof (order_by_perm Z.geb StatsSnapshot.timestamp rows) as Hperm.
  pose proof (desc_sorted StatsSnapshot.timestamp rows) as Hsorted.
  unfold Query.desc in *.
  destruct (Query.order_by Z.geb StatsSnapshot.timestamp rows) as [|latest rest] eqn:E;
    cbn [Query.first].
  - intros row Hin Hpair. apply Permutation_nil in Hperm.
    assert (Hrow : In row rows) by (apply rows_of_In; tauto).
    rewrite Hperm in Hrow. contradiction.
  - assert (Hlatest : In latest rows).
    { eapply Permutation_in; [exact Hperm|]. left. reflexivity. }
    apply rows_of_In in Hlatest. destruct Hlatest as (H1 & H2 & H3).
    repeat split; try assumption.
    intros row Hin Hs Hp.
    assert (Hrow : In row rows) by (apply rows_of_In; tauto).
    apply (Permutation_in _ (Permutation_sym Hperm)) in Hrow.
    inversion Hsorted as [|? ? _ Hall]; subst.
    destruct Hrow as [<-|Hrow]; [lia|].
    rewrite Forall_forall in Hall. apply Hall. assumption.
Qed.

Lemma history_representable self platform days utcnow table :
  representable days utcnow ->
  Student.get_stats_history self platform days utcnow table =
  Returned
    (Query.asc StatsSnapshot.timestamp
       (filter (fun row => String.eqb (StatsSnapshot.platform row) platform
                           && (StatsSnapshot.timestamp row >=? cutoff days utcnow))
          (Student.stats_snapshots self table))).
Proof.
  intros [Hdays [Hlo Hhi]]. unfold Student.get_stats_history, Student.timedelta_days.
  destruct (Z.leb_spec (Z.abs days) 999999999) as [_|H]; [|lia]. cbn [Py.bind].
  unfold Student.datetime_sub. fold (cutoff days utcnow).
  destruct (Z.leb_spec Student.datetime_min (cutoff days utcnow)) as [_|H]; [|lia].
  destruct (Z.leb_spec (cutoff days utcnow) Student.datetime_max) as [_|H]; [|lia].
  reflexivity.
Qed.

Lemma history_rows self platform days utcnow table :
  Permutation
    (Query.asc StatsSnapshot.timestamp
       (filter (fun row => String.eqb (StatsSnapshot.platform row) platform
                           && (StatsSnapshot.timestamp row >=? cutoff days utcnow))
          (Student.stats_snapshots self table)))
    (filter (fun row => StatsSnapshot.timestamp row >=? cutoff days utcnow)
       (rows_of (Student.id self) platform table)).
Proof.
  assert (Hfilter :
    filter (fun row => String.eqb (StatsSnapshot.platform row) platform
                       && (StatsSnapshot.timestamp row >=? cutoff days utcnow))
      (Student.stats_snapshots self table) =
    filter (fun row => StatsSnapshot.timestamp row >=? cutoff days utcnow)
      (rows_of (Student.id self) platform table)).
  { unfold Student.stats_snapshots, rows_of. rewrite !filter_filter.
    apply filter_ext. intros row. rewrite andb_assoc. reflexivity. }
  rewrite Hfilter. apply order_by_perm.
Qed.

(** C8 (as amended).  For a window that a [timedelta] holds and whose cutoff
    is a [datetime], the history of a student on a platform is exactly the
    snapshots of the pair that are not older than the window (timestamp at
    or after [utcnow - days]), each once, in ascending order of timestamp. *)
Theorem C8_history_window (self : Student.t) (platform : string) (days utcnow : Z)
  (table : list StatsSnapshot.t) :
  representable days utcnow ->
  exists history,
    Student.get_stats_history self platform days utcnow table = Returned history /\
    Permutation history
      (filter (fun row => StatsSnapshot.timestamp row >=? cutoff days utcnow)
         (rows_of (Student.id self) platform table)) /\
    StronglySorted (fun a b => StatsSnapshot.timestamp a <= StatsSnapshot.timestamp b) history /\
    (forall row,
        In row history <->
        In row table /\
        StatsSnapshot.student_id row = Student.id self /\
        StatsSnapshot.platform row = platform /\
        cutoff days utcnow <= StatsSnapshot.timestamp row).
Proof.
  intros Hrange. eexists. split; [apply history_representable; exact Hrange|].
  pose proof (history_rows self platform days utcnow table) as Hperm.
  split; [exact Hperm|]. split; [apply asc_sorted|].
  intros row. split.
  - intros Hin. apply (Permutation_in _ Hperm) in Hin.
    apply filter_In in Hin. destruct Hin as [Hin Hts].
    apply rows_of_In in Hin. rewrite Z.geb_le in Hts. tauto.
  - intros (Hin & Hs & Hp & Hts).
    apply (Permutation_in _ (Permutation_sym Hperm)).
    apply filter_In. split; [apply rows_of_In; tauto|]. apply Z.geb_le. exact Hts.
Qed.

Lemma C8_history_window_witness :
  representable 30 2000 /\
  exists history,
    Student.get_stats_history Examples.alice "CF" 30 2000 Cases.table =
      Returned history /\
    StronglySorted (fun a b => StatsSnapshot.timestamp a <= StatsSnapshot.timestamp b) history.
Proof.
  assert (H : representable 30 2000)
    by (unfold representable, cutoff, Student.datetime_min, Student.datetime_max; lia).
  split; [exact H|].
  destruct (C8_history_window Examples.alice "CF"%string 30 2000 Cases.table H)
    as (history & H1 & _ & H2 & _).
  exists history. split; [exact H1|exact H2].
Defined.

(** C8, as stated, fails for a window of a thousand million days: a
    [timedelta] does not hold it, and the history is not returned though the
    pair has snapshots. *)
Lemma C8_counterexample :
  rows_of 1 "CF" Cases.table = [Cases.first_row; Cases.third_row] /\
  Student.get_stats_history Examples.alice "CF" 1000000000 1700000000000000 Cases.table =
    Raised (Exn OverflowError "days=1000000000; must have magnitude <= 999999999") /\
  ~ exists history,
      Student.get_stats_history Examples.alice "CF" 1000000000 1700000000000000 Cases.table =
        Returned history.
Proof.
  assert (H : Student.get_stats_history Examples.alice "CF" 1000000000 1700000000000000
                Cases.table =
              Raised (Exn OverflowError "days=1000000000; must have magnitude <= 999999999"))
    by (vm_compute; reflexivity).
  split; [reflexivity|]. split; [exact H|].
  intros [history Hh]. rewrite H in Hh. discriminate.
Qed.








(** C10.  The on-demand fetch returns [False] exactly when no student has
    the given id, and then it does nothing: the state (table, log, network)
    is unchanged.  For a student who exists it never returns [False]; it
    returns [True] when the student has no registered handle, appending
    nothing and making no call, and when the store accepts the writes.  The
    claim that it returns [True] for every student who exists fails when the
    engine refuses a success row: the exception the retry loop lets out
    leaves the function.  So it is for alice when Codeforces answers and the
    engine refuses every write. *)
Theorem C10_on_demand_result :
  (forall env student_id s,
      let result := fst (fetch_student_stats env student_id s) in
      let s' := snd (fetch_student_stats env student_id s) in
      (result = Returned false <->
       forall student, In student (students s) -> Student.id student <> student_id) /\
      (result = Returned false -> s' = s) /\
      (forall student,
          query_get student_id (students s) = Some student ->
          registered student "CF" = false ->
          registered student "LC" = false ->
          registered student "CC" = false ->
          result = Returned true /\ s' = s) /\
      (accepting env ->
       forall student,
         In student (students s) -> Student.id student = student_id ->
         result = Returned true)) /\
  query_get 1 (students Examples.start) = Some Examples.alice /\
  fst (fetch_student_stats Examples.rejecting_env 1 Examples.start) = Raised pending_rollback /\
  snapshots (snd (fetch_student_stats Examples.rejecting_env 1 Examples.start)) = [].
Proof.
  split; [|split; [reflexivity|split; vm_compute; reflexivity]].
  intros env student_id s. cbv zeta.
  assert (Hnone : query_get student_id (students s) = None <->
                  forall student, In student (students s) -> Student.id student <> student_id).
  { unfold query_get. split.
    - intros H st Hin Hid. pose proof (find_none _ _ H st Hin) as Hf. cbv beta in Hf.
      apply Z.eqb_neq in Hf. contradiction.
    - intros H. destruct (find _ _) as [st|] eqn:E; [|reflexivity].
      apply find_some in E. destruct E as [Hin Hid]. apply Z.eqb_eq in Hid.
      exfalso. exact (H st Hin Hid). }
  destruct (query_get student_id (students s)) as [st|] eqn:Hget.
  - assert (Hnot : fst (fetch_student_stats env student_id s) <> Returned false).
    { rewrite (fetch_student_stats_found env student_id st s Hget). cbn [fst].
      destruct (fst (fetch_platforms env st (set_session Active s))); discriminate. }
    split; [|split; [|split]].
    + split; [intros H; contradiction|]. intros H. apply Hnone in H. discriminate.
    + intros H. contradiction.
    + intros st' Heq Hcf Hlc Hcc. injection Heq as <-.
      rewrite (fetch_student_stats_found env student_id st s Hget). cbn [fst snd].
      unfold registered in Hcf, Hlc, Hcc.
      rewrite handle_for_cf in Hcf. rewrite handle_for_lc in Hlc. rewrite handle_for_cc in Hcc.
      unfold fetch_platforms, and_then.
      rewrite when_registered_eq. cbn [set_session session]. rewrite Hcf.
      rewrite when_registered_eq. cbn [set_session session]. rewrite Hlc.
      rewrite when_registered_eq. cbn [set_session session]. rewrite Hcc.
      cbn [fst snd]. split; [reflexivity|]. destruct s. reflexivity.
    + intros Hacc st' Hin Hid. apply (on_demand_cycle env Hacc student_id st s Hget).
  - rewrite (fetch_student_stats_missing env student_id s Hget). cbn [fst snd].
    split; [|split; [|split]].
    + split; [intros _; apply Hnone; reflexivity|reflexivity].
    + reflexivity.
    + discriminate.
    + intros _ st Hin Hid. exfalso. exact (proj1 Hnone eq_refl st Hin Hid).
Qed.

(** * Further properties of the pipeline *)

Import Wire.

(** *** The requests and the answers of the adapters *)

Lemma set_add_nodup x s : NoDup s -> NoDup (Codeforces.set_add x s).
Proof.
  intros H. unfold Codeforces.set_add.
  destruct (existsb (String.eqb x) s) eqn:E; [assumption|].
  apply NoDup_app; [assumption|repeat constructor; simpl; tauto|].
  intros y Hy [Heq|[]]. subst y.
  assert (existsb (String.eqb x) s = true); [|congruence].
  apply existsb_exists. exists x. split; [assumption|apply String.eqb_refl].
Qed.

Lemma set_add_length x s :
  (List.length s <= List.length (Codeforces.set_add x s) <= S (List.length s))%nat.
Proof.
  unfold Codeforces.set_add. destruct (existsb (String.eqb x) s); [lia|].
  rewrite length_app. simpl. lia.
Qed.

Lemma solved_problems_distinct fmt submissions :
  forall acc l,
    NoDup acc ->
    Codeforces.solved_problems fmt submissions acc = Returned l ->
    NoDup l /\
    (List.length acc <= List.length l <=
       List.length acc + List.length (filter accepted submissions))%nat.
Proof.
  induction submissions as [|sub rest IH]; intros acc l Hnd H.
  - simpl in H. injection H as <-. split; [assumption|simpl; lia].
  - cbn [Codeforces.solved_problems] in H. cbn [filter]. unfold accepted at 1.
    destruct (Py.get sub "verdict" PNone) as [verdict|e]; cbn [Py.bind] in H; [|discriminate].
    destruct (is_str verdict "OK").
    + destruct (getitem sub "problem") as [problem|e]; cbn [Py.bind] in H; [|discriminate].
      destruct (getitem problem "contestId") as [c|e]; cbn [Py.bind] in H; [|discriminate].
      destruct (getitem problem "index") as [i|e]; cbn [Py.bind] in H; [|discriminate].
      destruct (IH _ _ (set_add_nodup (fmt c ++ fmt i)%string acc Hnd) H) as [H1 H2].
      split; [assumption|].
      pose proof (set_add_length (fmt c ++ fmt i)%string acc). simpl. lia.
    + destruct (IH _ _ Hnd H) as [H1 H2]. split; [assumption|lia].
Qed.

(** A submission that was accepted and whose problem has no [contestId]. *)
Lemma solved_problems_missing_contest fmt submissions :
  forall acc sub problem,
    In sub submissions -> accepted sub = true ->
    getitem sub "problem" = Returned (PDict problem) ->
    dict_lookup problem "contestId" = None ->
    exists e, Codeforces.solved_problems fmt submissions acc = Raised e.
Proof.
  induction submissions as [|s0 rest IH]; intros acc sub problem Hin Hacc Hp Hc; [contradiction|].
  cbn [Codeforces.solved_problems].
  destruct Hin as [->|Hin].
  - unfold accepted in Hacc.
    destruct (Py.get sub "verdict" PNone) as [verdict|e]; [|discriminate].
    cbn [Py.bind]. rewrite Hacc, Hp. cbn [Py.bind getitem]. rewrite Hc. cbn [Py.bind].
    eexists. reflexivity.
  - destruct (Py.get s0 "verdict" PNone) as [verdict|e]; cbn [Py.bind]; [|eexists; reflexivity].
    destruct (is_str verdict "OK").
    + destruct (getitem s0 "problem") as [pr|e]; cbn [Py.bind]; [|eexists; reflexivity].
      destruct (getitem pr "contestId") as [c|e]; cbn [Py.bind]; [|eexists; reflexivity].
      destruct (getitem pr "index") as [i|e]; cbn [Py.bind]; [|eexists; reflexivity].
      eapply IH; eassumption.
    + eapply IH; eassumption.
Qed.


(** The body of [get_user_info], request by request. *)
Lemma get_user_info_body_steps net fmt handle n :
  Codeforces.get_user_info_body net fmt handle n =
  match net (requests_made n) (info_request handle) with
  | Failed msg => (Raised (Exn RequestException msg), sent (info_request handle) n)
  | Answered response =>
      if negb (status_code response =? 200)
      then (Returned None, sent (info_request handle) n)
      else
        match user_of response with
        | Raised e => (Raised e, sent (info_request handle) n)
        | Returned None => (Returned None, sent (info_request handle) n)
        | Returned (Some user) =>
            let n1 := slept 500 (sent (info_request handle) n) in
            match net (requests_made n1) (status_request handle) with
            | Failed msg => (Raised (Exn RequestException msg), sent (status_request handle) n1)
            | Answered submissions_response =>
                (let* solved_set := solved_set_of fmt submissions_response in
                 info_of user solved_set,
                 sent (status_request handle) n1)
            end
        end
  end.
Proof.
  unfold Codeforces.get_user_info_body, mbind, send, lift, ret, sleep, user_of.
  fold (info_request handle). fold (status_request handle).
  destruct (net (requests_made n) (info_request handle)) as [msg|response]; [reflexivity|].
  destruct (negb (status_code response =? 200)); [reflexivity|].
  destruct (response_json response) as [data|e]; [|reflexivity]. cbn [Py.bind].
  destruct (getitem data "status") as [status|e]; [|reflexivity]. cbn [Py.bind].
  destruct (negb (is_str status "OK")); [reflexivity|].
  destruct (getitem data "result") as [result|e]; [|reflexivity]. cbn [Py.bind].
  destruct (getitem0 result) as [user|e]; [|reflexivity]. cbn [Py.bind].
  cbv zeta. unfold slept, sent. cbn [requests_made net_log].
  destruct (net (S (requests_made n)) (status_request handle)) as [msg|sresp]; [reflexivity|].
  unfold solved_set_of, info_of.
  destruct (status_code sresp =? 200).
  - destruct (response_json sresp) as [sd|e]; [|reflexivity]. cbn [Py.bind].
    destruct (getitem sd "status") as [st|e]; [|reflexivity]. cbn [Py.bind].
    destruct (is_str st "OK").
    + destruct (getitem sd "result") as [subs|e]; [|reflexivity]. cbn [Py.bind].
      destruct (iter subs) as [items|e]; [|reflexivity]. cbn [Py.bind].
      destruct (Codeforces.solved_problems fmt items []) as [set|e]; [|reflexivity]. cbn [Py.bind].
      destruct (Py.get user "rating" (PInt 0)); [|reflexivity]. cbn [Py.bind].
      destruct (Py.get user "maxRating" (PInt 0)); [|reflexivity]. cbn [Py.bind].
      destruct (Py.get user "handle" PNone); [|reflexivity]. cbn [Py.bind].
      destruct (Py.get user "rank" (PStr "Unrated")); reflexivity.
    + cbn [Py.bind].
      destruct (Py.get user "rating" (PInt 0)); [|reflexivity]. cbn [Py.bind].
      destruct (Py.get user "maxRating" (PInt 0)); [|reflexivity]. cbn [Py.bind].
      destruct (Py.get user "handle" PNone); [|reflexivity]. cbn [Py.bind].
      destruct (Py.get user "rank" (PStr "Unrated")); reflexivity.
  - cbn [Py.bind].
    destruct (Py.get user "rating" (PInt 0)); [|reflexivity]. cbn [Py.bind].
    destruct (Py.get user "maxRating" (PInt 0)); [|reflexivity]. cbn [Py.bind].
    destruct (Py.get user "handle" PNone); [|reflexivity]. cbn [Py.bind].
    destruct (Py.get user "rank" (PStr "Unrated")); reflexivity.
Qed.

Lemma net_log_two (n : Net) (a b c : NetEvent) :
  ((net_log n ++ [a]) ++ [b]) ++ [c] = net_log n ++ [a; b; c].
Proof. rewrite <- !app_assoc. reflexivity. Qed.

Lemma returning_none_on_state {A : Type} caught (body : M (option A)) n :
  snd (returning_none_on caught body n) = snd (body n).
Proof.
  unfold returning_none_on. destruct (body n) as [[r|e] n']; [reflexivity|].
  destruct (caught (kind e)); reflexivity.
Qed.

Lemma returning_none_on_some {A : Type} caught (body : M (option A)) n d :
  fst (returning_none_on caught body n) = Returned (Some d) <->
  fst (body n) = Returned (Some d).
Proof.
  unfold returning_none_on. destruct (body n) as [[r|e] n']; [reflexivity|].
  destruct (caught (kind e)); simpl; split; discriminate.
Qed.

(** X1.  Whatever the network answers, a call of the Codeforces
    [get_user_info] makes either one request, for [user.info], and then
    returns no data; or two requests, for [user.info] and then for
    [user.status] of the same handle, with one sleep of half a second
    between them.  It makes no other request and no other sleep, and both
    requests have a timeout of ten seconds. *)
Theorem codeforces_request_discipline net fmt handle n :
  let result := fst (Codeforces.get_user_info net fmt handle n) in
  let n' := snd (Codeforces.get_user_info net fmt handle n) in
  (requests_made n' = S (requests_made n) /\
   net_log n' = net_log n ++ [Sent (info_request handle)] /\
   forall d, result <> Returned (Some d))
  \/
  (requests_made n' = S (S (requests_made n)) /\
   net_log n' =
     net_log n ++ [Sent (info_request handle); Slept 500; Sent (status_request handle)]).
Proof.
  cbv zeta. unfold Codeforces.get_user_info.
  rewrite returning_none_on_state.
  assert (Hsome : forall d,
            fst (returning_none_on Codeforces.caught
                   (Codeforces.get_user_info_body net fmt handle) n) = Returned (Some d) ->
            fst (Codeforces.get_user_info_body net fmt handle n) = Returned (Some d))
    by (intros d; apply returning_none_on_some).
  revert Hsome. rewrite get_user_info_body_steps.
  destruct (net (requests_made n) (info_request handle)) as [msg|response].
  { intros Hsome. left. repeat split. intros d H. apply Hsome in H. discriminate. }
  destruct (negb (status_code response =? 200)).
  { intros Hsome. left. repeat split. intros d H. apply Hsome in H. discriminate. }
  destruct (user_of response) as [[user|]|e].
  - intros _. right. cbv zeta.
    destruct (net _ (status_request handle)); cbn [snd sent slept requests_made net_log];
      rewrite net_log_two; split; reflexivity.
  - intros Hsome. left. repeat split. intros d H. apply Hsome in H. discriminate.
  - intros Hsome. left. repeat split. intros d H. apply Hsome in H. discriminate.
Qed.

Lemma user_of_documented response d u others :
  json response = Some (PDict d) ->
  dict_lookup d "status" = Some (PStr "OK") ->
  dict_lookup d "result" = Some (PList (PDict u :: others)) ->
  user_of response = Returned (Some (PDict u)).
Proof.
  intros Hj Hs Hr. unfold user_of, response_json. rewrite Hj. cbn [Py.bind getitem].
  rewrite Hs. cbn [Py.bind is_str String.eqb Ascii.eqb Bool.eqb negb]. rewrite Hr. reflexivity.
Qed.

Lemma info_of_dict u set :
  info_of (PDict u) set =
  Returned (Some {| Codeforces.rating := lookup_or u "rating" (PInt 0);
                    Codeforces.max_rating := lookup_or u "maxRating" (PInt 0);
                    Codeforces.solved := Z.of_nat (List.length set);
                    Codeforces.handle := lookup_or u "handle" PNone;
                    Codeforces.rank := lookup_or u "rank" (PStr "Unrated") |}).
Proof.
  unfold info_of, Py.get, lookup_or.
  destruct (dict_lookup u "rating"), (dict_lookup u "maxRating"),
           (dict_lookup u "handle"), (dict_lookup u "rank"); reflexivity.
Qed.

Lemma get_user_info_after_first net fmt handle n response d u others :
  net (requests_made n) (info_request handle) = Answered response ->
  status_code response = 200 ->
  json response = Some (PDict d) ->
  dict_lookup d "status" = Some (PStr "OK") ->
  dict_lookup d "result" = Some (PList (PDict u :: others)) ->
  Codeforces.get_user_info_body net fmt handle n =
  let n1 := slept 500 (sent (info_request handle) n) in
  match net (S (requests_made n)) (status_request handle) with
  | Failed msg => (Raised (Exn RequestException msg), sent (status_request handle) n1)
  | Answered submissions_response =>
      (let* solved_set := solved_set_of fmt submissions_response in
       info_of (PDict u) solved_set,
       sent (status_request handle) n1)
  end.
Proof.
  intros first_answer first_ok first_json first_status first_result.
  rewrite get_user_info_body_steps, first_answer, first_ok.
  cbn [Z.eqb Pos.eqb negb].
  rewrite (user_of_documented response d u others first_json first_status first_result).
  reflexivity.
Qed.

(** X2.  After a first answer of the documented form (status code 200,
    status OK, a user object first in the result), the second request
    decides the outcome of the Codeforces [get_user_info]: an answer with a
    status code other than 200 gives the data of the user with zero solved
    problems, and the defaults for the fields the user object lacks; a
    request that fails, or a 200 answer whose body is not JSON, gives no
    data at all. *)
Theorem codeforces_second_request (net : Network) (fmt : pyval -> string) (handle : string)
  (n : Net) (response : Response) (d u : list (string * pyval)) (others : list pyval) :
  net (requests_made n) (info_request handle) = Answered response ->
  status_code response = 200 ->
  json response = Some (PDict d) ->
  dict_lookup d "status" = Some (PStr "OK") ->
  dict_lookup d "result" = Some (PList (PDict u :: others)) ->
  (forall submissions_response,
      net (S (requests_made n)) (status_request handle) = Answered submissions_response ->
      status_code submissions_response <> 200 ->
      fst (Codeforces.get_user_info net fmt handle n) =
        Returned (Some {| Codeforces.rating := lookup_or u "rating" (PInt 0);
                          Codeforces.max_rating := lookup_or u "maxRating" (PInt 0);
                          Codeforces.solved := 0;
                          Codeforces.handle := lookup_or u "handle" PNone;
                          Codeforces.rank := lookup_or u "rank" (PStr "Unrated") |})) /\
  (forall msg,
      net (S (requests_made n)) (status_request handle) = Failed msg ->
      fst (Codeforces.get_user_info net fmt handle n) = Returned None) /\
  (forall submissions_response,
      net (S (requests_made n)) (status_request handle) = Answered submissions_response ->
      status_code submissions_response = 200 ->
      json submissions_response = None ->
      fst (Codeforces.get_user_info net fmt handle n) = Returned None).
Proof.
  intros H1 H2 H3 H4 H5.
  unfold Codeforces.get_user_info, returning_none_on.
  rewrite (get_user_info_after_first net fmt handle n response d u others H1 H2 H3 H4 H5).
  cbv zeta. split; [|split].
  - intros sresp Hnet Hcode. rewrite Hnet. unfold solved_set_of.
    apply Z.eqb_neq in Hcode. rewrite Hcode. cbn [Py.bind]. rewrite info_of_dict. reflexivity.
  - intros msg Hnet. rewrite Hnet. reflexivity.
  - intros sresp Hnet Hcode Hjson. rewrite Hnet. unfold solved_set_of, response_json.
    rewrite Hcode, Hjson. reflexivity.
Qed.

Lemma codeforces_second_request_witness :
  Cases.status_down 0%nat (info_request "tourist") =
    Answered (Examples.json_response Examples.user_info) /\
  Cases.status_down 1%nat (status_request "tourist") = Failed "Read timed out" /\
  fst (Codeforces.get_user_info Cases.status_down Examples.format "tourist" Examples.idle) =
    Returned None.
Proof.
  split; [reflexivity|]. split; [reflexivity|].
  destruct (codeforces_second_request Cases.status_down Examples.format "tourist"%string
              Examples.idle (Examples.json_response Examples.user_info) _ _ _
              eq_refl eq_refl eq_refl eq_refl eq_refl) as (_ & H & _).
  exact (H _ eq_refl).
Defined.

(** X3.  After a first answer of the documented form, when the list of
    submissions of the second answer has an accepted submission whose
    problem has no [contestId], the Codeforces [get_user_info] returns no
    data: the rating of the first answer is lost with the solved count. *)
Theorem codeforces_missing_contest_id (net : Network) (fmt : pyval -> string) (handle : string)
  (n : Net) (response : Response) (d u : list (string * pyval)) (others : list pyval)
  (submissions_response : Response) (sd : list (string * pyval)) (submissions : list pyval)
  (submission : pyval) (problem : list (string * pyval)) :
  net (requests_made n) (info_request handle) = Answered response ->
  status_code response = 200 ->
  json response = Some (PDict d) ->
  dict_lookup d "status" = Some (PStr "OK") ->
  dict_lookup d "result" = Some (PList (PDict u :: others)) ->
  net (S (requests_made n)) (status_request handle) = Answered submissions_response ->
  status_code submissions_response = 200 ->
  json submissions_response = Some (PDict sd) ->
  dict_lookup sd "status" = Some (PStr "OK") ->
  dict_lookup sd "result" = Some (PList submissions) ->
  In submission submissions ->
  accepted submission = true ->
  getitem submission "problem" = Returned (PDict problem) ->
  dict_lookup problem "contestId" = None ->
  forall info, fst (Codeforces.get_user_info net fmt handle n) <> Returned (Some info).
Proof.
  intros H1 H2 H3 H4 H5 Hnet Hcode Hjson Hst Hres Hin Hacc Hp Hc info.
  unfold Codeforces.get_user_info. rewrite returning_none_on_some.
  rewrite (get_user_info_after_first net fmt handle n response d u others H1 H2 H3 H4 H5).
  cbv zeta. rewrite Hnet.
  unfold solved_set_of, response_json. rewrite Hcode, Hjson.
  cbn [Z.eqb Pos.eqb Py.bind getitem]. rewrite Hst.
  cbn [Py.bind is_str String.eqb Ascii.eqb Bool.eqb]. rewrite Hres. cbn [Py.bind iter].
  destruct (solved_problems_missing_contest fmt submissions [] submission problem Hin Hacc Hp Hc)
    as [e He].
  rewrite He. cbn [Py.bind fst]. discriminate.
Qed.

Lemma codeforces_missing_contest_id_witness :
  Cases.gym 1%nat (status_request "tourist") =
    Answered (Examples.json_response Cases.gym_status) /\
  fst (Codeforces.get_user_info Cases.gym Examples.format "tourist" Examples.idle) =
    Returned None /\
  forall info,
    fst (Codeforces.get_user_info Cases.gym Examples.format "tourist" Examples.idle) <>
      Returned (Some info).
Proof.
  split; [reflexivity|]. split; [reflexivity|].
  apply (codeforces_missing_contest_id Cases.gym Examples.format "tourist"%string
           Examples.idle (Examples.json_response Examples.user_info) _ _ _
           (Examples.json_response Cases.gym_status) _ _
           (PDict [("verdict", PStr "OK");
                   ("problem", PDict [("problemsetName", PStr "acmsguru");
                                      ("index", PStr "A")])]%string)
           [("problemsetName", PStr "acmsguru"); ("index", PStr "A")]%string
           eq_refl eq_refl eq_refl eq_refl eq_refl eq_refl eq_refl eq_refl eq_refl eq_refl).
  - left. reflexivity.
  - reflexivity.
  - reflexivity.
  - reflexivity.
Defined.


Lemma set_add_In x y s : In y (Codeforces.set_add x s) <-> In y s \/ y = x.
Proof.
  unfold Codeforces.set_add. destruct (existsb (String.eqb x) s) eqn:E.
  - split; [tauto|]. intros [H| ->]; [assumption|].
    apply existsb_exists in E. destruct E as (z & Hz & Heq).
    apply String.eqb_eq in Heq. subst z. assumption.
  - rewrite in_app_iff. simpl. split.
    + intros [H|[<-|[]]]; [left; assumption|right; reflexivity].
    + intros [H| ->]; [left; assumption|right; left; reflexivity].
Qed.

Lemma solved_problems_members fmt submissions :
  forall acc l,
    Codeforces.solved_problems fmt submissions acc = Returned l ->
    forall x,
      In x l <->
      In x acc \/
      exists submission,
        In submission submissions /\ accepted submission = true /\
        problem_id fmt submission = Returned x.
Proof.
  induction submissions as [|sub rest IH]; intros acc l H x.
  - simpl in H. injection H as <-. split; [tauto|].
    intros [Hx|(s & [] & _)]. assumption.
  - cbn [Codeforces.solved_problems] in H.
    destruct (Py.get sub "verdict" PNone) as [verdict|e] eqn:Hv; cbn [Py.bind] in H;
      [|discriminate].
    destruct (is_str verdict "OK") eqn:Hok.
    + destruct (getitem sub "problem") as [problem|e] eqn:Hp; cbn [Py.bind] in H; [|discriminate].
      destruct (getitem problem "contestId") as [c|e] eqn:Hc; cbn [Py.bind] in H; [|discriminate].
      destruct (getitem problem "index") as [i|e] eqn:Hi; cbn [Py.bind] in H; [|discriminate].
      assert (Hacc : accepted sub = true) by (unfold accepted; rewrite Hv; exact Hok).
      assert (Hid : problem_id fmt sub = Returned (fmt c ++ fmt i)%string)
        by (unfold problem_id; rewrite Hp; cbn [Py.bind]; rewrite Hc; cbn [Py.bind];
            rewrite Hi; reflexivity).
      rewrite (IH _ _ H x), set_add_In. split.
      * intros [[Hx|Hx]|(s & Hs & Ha & Hs')].
        -- left. assumption.
        -- right. exists sub. subst x. split; [left; reflexivity|]. split; assumption.
        -- right. exists s. split; [right; assumption|]. split; assumption.
      * intros [Hx|(s & [<-|Hs] & Ha & Hs')].
        -- left. left. assumption.
        -- left. right. rewrite Hid in Hs'. injection Hs' as <-. reflexivity.
        -- right. exists s. split; [assumption|]. split; assumption.
    + assert (Hacc : accepted sub = false) by (unfold accepted; rewrite Hv; exact Hok).
      rewrite (IH _ _ H x). split.
      * intros [Hx|(s & Hs & Ha & Hs')]; [left; assumption|].
        right. exists s. split; [right; assumption|]. split; assumption.
      * intros [Hx|(s & [<-|Hs] & Ha & Hs')]; [left; assumption|congruence|].
        right. exists s. split; [assumption|]. split; assumption.
Qed.

(** X15.  The solved count of the Codeforces [get_user_info] counts
    problems, not submissions.  After two answers of the documented form,
    when [get_user_info] returns data, its solved count is the number of
    distinct problem ids (contest id followed by index) among the accepted
    submissions of the second answer; it is at most the number of accepted
    submissions. *)
Theorem codeforces_solved_count (net : Network) (fmt : pyval -> string) (handle : string)
  (n : Net) (response : Response) (d u : list (string * pyval)) (others : list pyval)
  (submissions_response : Response) (sd : list (string * pyval)) (submissions : list pyval)
  (info : Codeforces.Info) :
  net (requests_made n) (info_request handle) = Answered response ->
  status_code response = 200 ->
  json response = Some (PDict d) ->
  dict_lookup d "status" = Some (PStr "OK") ->
  dict_lookup d "result" = Some (PList (PDict u :: others)) ->
  net (S (requests_made n)) (status_request handle) = Answered submissions_response ->
  status_code submissions_response = 200 ->
  json submissions_response = Some (PDict sd) ->
  dict_lookup sd "status" = Some (PStr "OK") ->
  dict_lookup sd "result" = Some (PList submissions) ->
  fst (Codeforces.get_user_info net fmt handle n) = Returned (Some info) ->
  exists ids,
    Codeforces.solved info = Z.of_nat (List.length ids) /\
    NoDup ids /\
    (forall x, In x ids <->
               exists submission,
                 In submission submissions /\ accepted submission = true /\
                 problem_id fmt submission = Returned x) /\
    (List.length ids <= List.length (filter accepted submissions))%nat.
Proof.
  intros H1 H2 H3 H4 H5 Hnet Hcode Hjson Hst Hres Hinfo.
  unfold Codeforces.get_user_info in Hinfo. rewrite returning_none_on_some in Hinfo.
  rewrite (get_user_info_after_first net fmt handle n response d u others H1 H2 H3 H4 H5)
    in Hinfo.
  cbv zeta in Hinfo. rewrite Hnet in Hinfo.
  unfold solved_set_of, response_json in Hinfo. rewrite Hcode, Hjson in Hinfo.
  cbn [Z.eqb Pos.eqb Py.bind getitem] in Hinfo. rewrite Hst in Hinfo.
  cbn [Py.bind is_str String.eqb Ascii.eqb Bool.eqb] in Hinfo. rewrite Hres in Hinfo.
  cbn [Py.bind iter] in Hinfo.
  destruct (Codeforces.solved_problems fmt submissions []) as [ids|e] eqn:E;
    cbn [Py.bind fst] in Hinfo; [|discriminate].
  rewrite info_of_dict in Hinfo. injection Hinfo as <-.
  exists ids. cbn [Codeforces.solved]. split; [reflexivity|].
  destruct (solved_problems_distinct fmt submissions [] ids (NoDup_nil _) E) as [Hnd Hlen].
  split; [exact Hnd|]. split; [|simpl in Hlen; lia].
  intros x. rewrite (solved_problems_members fmt submissions [] ids E x).
  split; [intros [[]|H]; exact H|intros H; right; exact H].
Qed.

Lemma codeforces_solved_count_witness :
  fst (Codeforces.get_user_info Examples.codeforces_up Examples.format "tourist" Examples.idle) =
    Returned (Some {| Codeforces.rating := PInt 1500; Codeforces.max_rating := PInt 1600;
                      Codeforces.solved := 1; Codeforces.handle := PStr "tourist";
                      Codeforces.rank := PStr "Unrated" |}) /\
  exists ids : list string,
    1 = Z.of_nat (List.length ids) /\ NoDup ids /\ (List.length ids <= 1)%nat.
Proof.
  split; [reflexivity|].
  destruct (codeforces_solved_count Examples.codeforces_up Examples.format "tourist"%string
              Examples.idle (Examples.json_response Examples.user_info) _ _ _
              (Examples.json_response Examples.user_status) _ _
              {| Codeforces.rating := PInt 1500; Codeforces.max_rating := PInt 1600;
                 Codeforces.solved := 1; Codeforces.handle := PStr "tourist";
                 Codeforces.rank := PStr "Unrated" |}
              eq_refl eq_refl eq_refl eq_refl eq_refl eq_refl eq_refl eq_refl eq_refl eq_refl
              eq_refl) as (ids & Hsolved & Hnd & _ & Hlen).
  exists ids. split; [exact Hsolved|]. split; [exact Hnd|exact Hlen].
Defined.

(** *** The validators *)

Lemma validate_handle_steps net handle n :
  Codeforces.validate_handle net handle n =
  (Returned
     match net (requests_made n) (info_request handle) with
     | Failed _ => false
     | Answered response =>
         (status_code response =? 200) &&
         match json response with
         | Some (PDict d) =>
             match dict_lookup d "status" with
             | Some status => is_str status "OK"
             | None => false
             end
         | _ => false
         end
     end,
   sent (info_request handle) n).
Proof.
  unfold Codeforces.validate_handle, returning_false_on_any, Codeforces.validate_handle_body,
    mbind, send, lift, ret. fold (info_request handle).
  destruct (net (requests_made n) (info_request handle)) as [msg|response]; [reflexivity|].
  destruct (status_code response =? 200); [|reflexivity].
  unfold response_json. destruct (json response) as [data|]; [|reflexivity].
  destruct data as [| | | | |l|d]; try reflexivity. cbn [getitem andb].
  destruct (dict_lookup d "status"); reflexivity.
Qed.

(** X4.  The Codeforces [validate_handle] makes exactly one request, for
    [user.info] of the handle, and returns a boolean.  It returns [True]
    exactly when the answer has status code 200 and a JSON object whose
    status is OK.  Whenever [get_user_info] returns data from the same
    connection, [validate_handle] returns [True]. *)
Theorem codeforces_validate_handle net fmt handle n :
  (exists b, Codeforces.validate_handle net handle n = (Returned b, sent (info_request handle) n)) /\
  (fst (Codeforces.validate_handle net handle n) = Returned true <->
   exists response d,
     net (requests_made n) (info_request handle) = Answered response /\
     status_code response = 200 /\
     json response = Some (PDict d) /\
     dict_lookup d "status" = Some (PStr "OK")) /\
  (forall info,
      fst (Codeforces.get_user_info net fmt handle n) = Returned (Some info) ->
      fst (Codeforces.validate_handle net handle n) = Returned true).
Proof.
  rewrite validate_handle_steps. cbn [fst].
  assert (Hiff :
    Returned
      match net (requests_made n) (info_request handle) with
      | Failed _ => false
      | Answered response =>
          (status_code response =? 200) &&
          match json response with
          | Some (PDict d) =>
              match dict_lookup d "status" with
              | Some status => is_str status "OK"
              | None => false
              end
          | _ => false
          end
      end = Returned true <->
    exists response d,
      net (requests_made n) (info_request handle) = Answered response /\
      status_code response = 200 /\
      json response = Some (PDict d) /\
      dict_lookup d "status" = Some (PStr "OK")).
  { destruct (net (requests_made n) (info_request handle)) as [msg|response].
    - split; [discriminate|]. intros (r & d & H & _). discriminate.
    - split.
      + intros H. injection H as H. apply andb_true_iff in H. destruct H as [Hc Hs].
        apply Z.eqb_eq in Hc.
        destruct (json response) as [[| | | | |l|d]|] eqn:Hj; try discriminate.
        destruct (dict_lookup d "status") as [[| | | |st| |]|] eqn:Hd; try discriminate.
        cbn [is_str] in Hs. apply String.eqb_eq in Hs. subst st.
        exists response, d. repeat split; assumption.
      + intros (r & d & Hr & Hc & Hj & Hd). injection Hr as <-.
        rewrite Hc, Hj, Hd. reflexivity. }
  split; [eexists; reflexivity|]. split; [exact Hiff|].
  intros info H. apply Hiff.
  unfold Codeforces.get_user_info in H. rewrite returning_none_on_some in H.
  rewrite get_user_info_body_steps in H.
  destruct (net (requests_made n) (info_request handle)) as [msg|response]; [discriminate|].
  destruct (status_code response =? 200) eqn:Hc; cbn [negb] in H; [|discriminate].
  apply Z.eqb_eq in Hc.
  unfold user_of, response_json in H.
  destruct (json response) as [data|] eqn:Hj; [|discriminate]. cbn [Py.bind] in H.
  destruct data as [| | | | |l|d]; try discriminate.
  cbn [getitem] in H.
  destruct (dict_lookup d "status") as [status|] eqn:Hd; [|discriminate]. cbn [Py.bind] in H.
  destruct status as [| | | |st| |]; cbn [is_str negb] in H; try discriminate.
  destruct (String.eqb_spec st "OK") as [->|Hne]; [|discriminate].
  exists response, d. repeat split; assumption.
Qed.

(** The body of the LeetCode [get_user_stats] after its only request. *)
Lemma leetcode_body_steps net user n :
  LeetCode.get_user_stats_body net user n =
  match net (requests_made n) (graphql_request user) with
  | Failed msg => (Raised (Exn RequestException msg), sent (graphql_request user) n)
  | Answered response =>
      (fst (LeetCode.get_user_stats_body (fun _ _ => Answered response) user n),
       sent (graphql_request user) n)
  end.
Proof.
  unfold LeetCode.get_user_stats_body, mbind, send, lift, ret. fold (graphql_request user).
  destruct (net (requests_made n) (graphql_request user)) as [msg|response]; [reflexivity|].
  destruct (negb (status_code response =? 200)); [reflexivity|].
  repeat match goal with
         | |- context [match ?r with Returned _ => _ | Raised _ => _ end] =>
             destruct r; try reflexivity
         | |- context [if ?b then _ else _] => destruct b; try reflexivity
         end.
Qed.

(** X8.  Whatever the network answers, the LeetCode [get_user_stats] and
    [validate_username], the CodeChef [get_user_stats] and
    [validate_username], and the Codeforces [validate_handle] each make
    exactly one request and no sleep: the GraphQL POST with a timeout of 15
    seconds, the profile page with a timeout of 15 seconds for the stats and
    of 10 seconds for the validation, and [user.info] with a timeout of 10
    seconds. *)
Theorem one_request_per_call net lib user n :
  snd (LeetCode.get_user_stats net user n) = sent (graphql_request user) n /\
  snd (LeetCode.validate_username net user n) = sent (graphql_request user) n /\
  snd (CodeChef.get_user_stats net lib user n) = sent (profile_request user 15) n /\
  snd (CodeChef.validate_username net user n) = sent (profile_request user 10) n /\
  snd (Codeforces.validate_handle net user n) = sent (info_request user) n.
Proof.
  assert (Hlc : snd (LeetCode.get_user_stats net user n) = sent (graphql_request user) n).
  { unfold LeetCode.get_user_stats. rewrite returning_none_on_state, leetcode_body_steps.
    destruct (net (requests_made n) (graphql_request user)); reflexivity. }
  split; [exact Hlc|]. split; [|split; [|split]].
  - unfold LeetCode.validate_username, returning_false_on_any, LeetCode.validate_username_body,
      mbind, ret.
    destruct (LeetCode.get_user_stats net user n) as [[r|e] n'] eqn:E; cbn [snd] in *;
      exact Hlc.
  - unfold CodeChef.get_user_stats. rewrite returning_none_on_state.
    unfold CodeChef.get_user_stats_body, mbind, send, ret. fold (profile_request user 15).
    destruct (net (requests_made n) (profile_request user 15)) as [msg|response]; [reflexivity|].
    destruct (negb (status_code response =? 200)); [reflexivity|].
    destruct (_ && _); reflexivity.
  - unfold CodeChef.validate_username, returning_false_on_any, CodeChef.validate_username_body,
      mbind, send, ret. fold (profile_request user 10).
    destruct (net (requests_made n) (profile_request user 10)); reflexivity.
  - rewrite validate_handle_steps. reflexivity.
Qed.

(** *** LeetCode *)

Lemma difficulty_counts_app l1 l2 c0 :
  LeetCode.difficulty_counts (l1 ++ l2) c0 =
  (let* c := LeetCode.difficulty_counts l1 c0 in LeetCode.difficulty_counts l2 c).
Proof.
  revert c0. induction l1 as [|stat l1 IH]; intros c0; [reflexivity|].
  cbn [app LeetCode.difficulty_counts].
  destruct (getitem stat "difficulty"); [|reflexivity]. cbn [Py.bind].
  destruct (getitem stat "count"); [|reflexivity]. cbn [Py.bind]. apply IH.
Qed.

Lemma difficulty_counts_keeps name l :
  In name difficulty_names ->
  (forall stat, In stat l -> names stat name = false) ->
  forall c0 c, LeetCode.difficulty_counts l c0 = Returned c -> counter name c = counter name c0.
Proof.
  intros Hname. induction l as [|stat l IH]; intros Hno c0 c H.
  - injection H as <-. reflexivity.
  - cbn [LeetCode.difficulty_counts] in H.
    pose proof (Hno stat (or_introl eq_refl)) as Hstat. unfold names in Hstat.
    destruct (getitem stat "difficulty") as [d|e]; [|discriminate]. cbn [Py.bind] in H.
    destruct (getitem stat "count") as [v|e]; [|discriminate]. cbn [Py.bind] in H.
    rewrite (IH (fun s Hs => Hno s (or_intror Hs)) _ _ H).
    destruct d as [| | | |t| |]; try reflexivity. cbn [is_str] in *.
    unfold difficulty_names in Hname. simpl in Hname.
    destruct Hname as [<-|[<-|[<-|[<-|[]]]]];
      destruct (String.eqb_spec t "Easy"); try discriminate;
      destruct (String.eqb_spec t "Medium"); try discriminate;
      destruct (String.eqb_spec t "Hard"); try discriminate;
      destruct (String.eqb_spec t "All"); try discriminate;
      subst; try reflexivity; try discriminate.
Qed.

(** X5.  In the loop of the LeetCode [get_user_stats] over the list
    [acSubmissionNum], the last entry of a difficulty decides its counter:
    when no entry after [stat] is about the difficulty of [stat], the
    counter of that difficulty ends with the count of [stat], whatever the
    entries before it say. *)
Theorem leetcode_last_entry_wins name before stat after value c0 c :
  In name difficulty_names ->
  getitem stat "difficulty" = Returned (PStr name) ->
  getitem stat "count" = Returned value ->
  (forall later, In later after -> names later name = false) ->
  LeetCode.difficulty_counts (before ++ stat :: after) c0 = Returned c ->
  counter name c = value.
Proof.
  intros Hname Hd Hv Hafter H.
  rewrite difficulty_counts_app in H.
  destruct (LeetCode.difficulty_counts before c0) as [c1|e]; [|discriminate].
  cbn [Py.bind LeetCode.difficulty_counts] in H. rewrite Hd, Hv in H. cbn [Py.bind is_str] in H.
  rewrite (difficulty_counts_keeps name after Hname Hafter _ _ H).
  unfold difficulty_names in Hname. simpl in Hname.
  destruct Hname as [<-|[<-|[<-|[<-|[]]]]]; reflexivity.
Qed.

Lemma leetcode_last_entry_wins_witness :
  LeetCode.difficulty_counts
    ([Cases.entry "Easy" 7; Cases.entry "All" 10] ++
     Cases.entry "Easy" 8 :: [Cases.entry "Medium" 2]) Cases.zero =
    Returned {| LeetCode.c_easy := PInt 8; LeetCode.c_medium := PInt 2;
                LeetCode.c_hard := PInt 0; LeetCode.c_total := PInt 10 |} /\
  counter "Easy" {| LeetCode.c_easy := PInt 8; LeetCode.c_medium := PInt 2;
                    LeetCode.c_hard := PInt 0; LeetCode.c_total := PInt 10 |} = PInt 8.
Proof.
  split; [reflexivity|].
  apply (leetcode_last_entry_wins "Easy"%string
           [Cases.entry "Easy" 7; Cases.entry "All" 10] (Cases.entry "Easy" 8)
           [Cases.entry "Medium" 2] (PInt 8) Cases.zero).
  - left. reflexivity.
  - reflexivity.
  - reflexivity.
  - intros later [<-|[]]. reflexivity.
  - reflexivity.
Defined.

(** X6.  A difficulty that no entry of [acSubmissionNum] is about is
    reported with the count zero by the LeetCode [get_user_stats]: its
    counter keeps the initial value. *)
Theorem leetcode_absent_difficulty name entries c :
  In name difficulty_names ->
  (forall stat, In stat entries -> names stat name = false) ->
  LeetCode.difficulty_counts entries
    {| LeetCode.c_easy := PInt 0; LeetCode.c_medium := PInt 0;
       LeetCode.c_hard := PInt 0; LeetCode.c_total := PInt 0 |} = Returned c ->
  counter name c = PInt 0.
Proof.
  intros Hname Hno H. rewrite (difficulty_counts_keeps name entries Hname Hno _ _ H).
  unfold difficulty_names in Hname. simpl in Hname.
  destruct Hname as [<-|[<-|[<-|[<-|[]]]]]; reflexivity.
Qed.

Lemma leetcode_absent_difficulty_witness :
  LeetCode.difficulty_counts [Cases.entry "Easy" 7; Cases.entry "All" 10] Cases.zero =
    Returned {| LeetCode.c_easy := PInt 7; LeetCode.c_medium := PInt 0;
                LeetCode.c_hard := PInt 0; LeetCode.c_total := PInt 10 |} /\
  counter "Hard" {| LeetCode.c_easy := PInt 7; LeetCode.c_medium := PInt 0;
                    LeetCode.c_hard := PInt 0; LeetCode.c_total := PInt 10 |} = PInt 0.
Proof.
  split; [reflexivity|].
  apply (leetcode_absent_difficulty "Hard"%string
           [Cases.entry "Easy" 7; Cases.entry "All" 10]).
  - right. right. left. reflexivity.
  - intros stat [<-|[<-|[]]]; reflexivity.
  - reflexivity.
Defined.

(** X7.  A 200 answer whose JSON object has an [errors] key, or whose
    [data] object (an empty one when the key is absent) has no matched user,
    makes the LeetCode [get_user_stats] return no data. *)
Theorem leetcode_unresolved_user net user n response d :
  net (requests_made n) (graphql_request user) = Answered response ->
  status_code response = 200 ->
  json response = Some (PDict d) ->
  (dict_lookup d "errors" <> None \/
   exists dd, lookup_or d "data" (PDict []) = PDict dd /\
              truthy (lookup_or dd "matchedUser" PNone) = false) ->
  fst (LeetCode.get_user_stats net user n) = Returned None.
Proof.
  intros Hnet Hc Hj Hcase.
  unfold LeetCode.get_user_stats, returning_none_on, LeetCode.get_user_stats_body,
    mbind, send, lift, ret. fold (graphql_request user).
  rewrite Hnet, Hc. cbn [Z.eqb Pos.eqb negb]. unfold response_json. rewrite Hj.
  cbn [contains].
  destruct (dict_lookup d "errors") as [e|] eqn:He; [reflexivity|].
  destruct Hcase as [H|(dd & Hd & Hm)]; [congruence|].
  unfold LeetCode.no_matched_user, Py.get. unfold lookup_or in Hd.
  destruct (dict_lookup d "data") as [x|]; subst; cbn [Py.bind].
  - unfold lookup_or in Hm.
    destruct (dict_lookup dd "matchedUser"); cbn [Py.bind]; rewrite Hm; reflexivity.
  - injection Hd as <-. cbn [dict_lookup Py.bind truthy negb]. reflexivity.
Qed.

Lemma leetcode_unresolved_user_witness :
  Cases.unknown_user 0%nat (graphql_request "nobody") =
    Answered (Examples.json_response (PDict Cases.no_match)) /\
  fst (LeetCode.get_user_stats Cases.unknown_user "nobody" Examples.idle) = Returned None.
Proof.
  split; [reflexivity|].
  apply (leetcode_unresolved_user Cases.unknown_user "nobody"%string Examples.idle
           (Examples.json_response (PDict Cases.no_match)) Cases.no_match).
  - reflexivity.
  - reflexivity.
  - reflexivity.
  - right. exists [("matchedUser", PNone)]%string. split; reflexivity.
Defined.

(** X9.  The three validators never raise: whatever the network answers,
    each returns a boolean.  The LeetCode [validate_username] returns [True]
    exactly when [get_user_stats] returns data from the same connection; the
    CodeChef [validate_username] returns [True] exactly when the profile
    page is answered with status code 200. *)
Theorem validators_never_raise net user n :
  (exists b, fst (Codeforces.validate_handle net user n) = Returned b) /\
  (exists b, fst (LeetCode.validate_username net user n) = Returned b) /\
  (exists b, fst (CodeChef.validate_username net user n) = Returned b) /\
  (fst (LeetCode.validate_username net user n) = Returned true <->
   exists stats, fst (LeetCode.get_user_stats net user n) = Returned (Some stats)) /\
  (fst (CodeChef.validate_username net user n) = Returned true <->
   exists response,
     net (requests_made n) (profile_request user 10) = Answered response /\
     status_code response = 200).
Proof.
  split; [rewrite validate_handle_steps; eexists; reflexivity|].
  assert (Hlc : forall r,
            fst (LeetCode.validate_username net user n) = r ->
            r = Returned match fst (LeetCode.get_user_stats net user n) with
                         | Returned (Some _) => true
                         | _ => false
                         end).
  { intros r <-. unfold LeetCode.validate_username, returning_false_on_any,
      LeetCode.validate_username_body, mbind, ret.
    destruct (LeetCode.get_user_stats net user n) as [[[st|]|e] n']; reflexivity. }
  assert (Hcc : fst (CodeChef.validate_username net user n) =
                Returned match net (requests_made n) (profile_request user 10) with
                         | Answered response => status_code response =? 200
                         | Failed _ => false
                         end).
  { unfold CodeChef.validate_username, returning_false_on_any, CodeChef.validate_username_body,
      mbind, send, ret. fold (profile_request user 10).
    destruct (net (requests_made n) (profile_request user 10)); reflexivity. }
  split; [eexists; apply Hlc; reflexivity|]. split; [eexists; exact Hcc|]. split.
  - rewrite (Hlc _ eq_refl).
    destruct (fst (LeetCode.get_user_stats net user n)) as [[st|]|e]; split;
      try discriminate; try (intros [x Hx]; discriminate).
    + intros _. exists st. reflexivity.
    + intros _. reflexivity.
  - rewrite Hcc. destruct (net (requests_made n) (profile_request user 10)) as [msg|response].
    + split; [discriminate|intros (r & H & _); discriminate].
    + split.
      * intros H. injection H as H. apply Z.eqb_eq in H. exists response. split; [reflexivity|exact H].
      * intros (r & Hr & Hc). injection Hr as <-. rewrite Hc. reflexivity.
Qed.

(** *** CodeChef *)

(** X10.  The stars of a CodeChef rating: "Unrated" exactly for a rating of
    zero or less, one star below 1200, two below 1400, three below 1600,
    four below 1800, five below 2200, six below 2500, and seven stars from
    2500 on. *)
Theorem star_rating_bands (rating : Z) :
  (CodeChef._get_star_rating rating = "Unrated"%string <-> rating <= 0) /\
  (CodeChef._get_star_rating rating = "1★"%string <-> 0 < rating < 1200) /\
  (CodeChef._get_star_rating rating = "2★"%string <-> 1200 <= rating < 1400) /\
  (CodeChef._get_star_rating rating = "3★"%string <-> 1400 <= rating < 1600) /\
  (CodeChef._get_star_rating rating = "4★"%string <-> 1600 <= rating < 1800) /\
  (CodeChef._get_star_rating rating = "5★"%string <-> 1800 <= rating < 2200) /\
  (CodeChef._get_star_rating rating = "6★"%string <-> 2200 <= rating < 2500) /\
  (CodeChef._get_star_rating rating = "7★"%string <-> 2500 <= rating).
Proof.
  unfold CodeChef._get_star_rating. rewrite !Z.geb_leb, Z.gtb_ltb.
  destruct (Z.leb_spec 2500 rating); [repeat split; intros; try discriminate; try lia|].
  destruct (Z.leb_spec 2200 rating); [repeat split; intros; try discriminate; try lia|].
  destruct (Z.leb_spec 1800 rating); [repeat split; intros; try discriminate; try lia|].
  destruct (Z.leb_spec 1600 rating); [repeat split; intros; try discriminate; try lia|].
  destruct (Z.leb_spec 1400 rating); [repeat split; intros; try discriminate; try lia|].
  destruct (Z.leb_spec 1200 rating); [repeat split; intros; try discriminate; try lia|].
  destruct (Z.ltb_spec 0 rating); repeat split; intros; try discriminate; try lia.
Qed.

(** A profile page on which the scraper finds the user container and
    nothing else. *)
Lemma codechef_bare_page net lib user n response :
  net (requests_made n) (profile_request user 15) = Answered response ->
  status_code response = 200 ->
  soup response =
    {| rating_number := None; rating_text := None; problems_solved := None;
       fully_solved := None; scripts := []; user_details_container := true |} ->
  CodeChef.get_user_stats net lib user n =
    (Returned (Some {| CodeChef.username := user; CodeChef.rating := 0;
                       CodeChef.solved := 0; CodeChef.stars := "Unrated" |}),
     sent (profile_request user 15) n).
Proof.
  intros Hnet Hc Hsoup.
  unfold CodeChef.get_user_stats, returning_none_on, CodeChef.get_user_stats_body,
    mbind, send, ret. fold (profile_request user 15).
  rewrite Hnet, Hc, Hsoup. reflexivity.
Qed.

(** X11.  A CodeChef profile page on which the scraper finds the user
    container and neither a rating nor a solved count is recorded as a
    success: in a usable session, when the store accepts the write,
    [_fetch_codechef_stats] makes one adapter call, returns, and appends one
    snapshot of the student on CC with the status "success", the rating 0,
    zero solved problems and no error message. *)
Theorem codechef_unparsed_page_recorded_as_success env student s response utcnow :
  session s = Active ->
  network env (requests_made (net s))
    (profile_request (handle_text (Student.cc_username student)) 15) = Answered response ->
  status_code response = 200 ->
  soup response =
    {| rating_number := None; rating_text := None; problems_solved := None;
       fully_solved := None; scripts := []; user_details_container := true |} ->
  commit env (commits s) = Committed utcnow ->
  let run := _fetch_codechef_stats env student s in
  fst run = Returned tt /\
  log (snd run) = log s ++ [Called (Student.id student) "CC" Got] /\
  exists row,
    snapshots (snd run) = snapshots s ++ [row] /\
    StatsSnapshot.student_id row = Student.id student /\
    StatsSnapshot.platform row = "CC"%string /\
    StatsSnapshot.fetch_status row = "success"%string /\
    StatsSnapshot.rating row = PInt 0 /\
    StatsSnapshot.solved row = PInt 0 /\
    StatsSnapshot.error_message row = None.
Proof.
  intros Hs Hnet Hc Hsoup Hcommit. cbv zeta.
  unfold _fetch_codechef_stats, fetch_with_retry, max_retries.
  cbn [seq]. rewrite for_attempts_cons.
  rewrite (attempt_once_active env (Student.id student) (Student.cc_username student) "CC"
             (CodeChef.get_user_stats (network env) (text env)) codechef_snapshot 0 s Hs).
  rewrite (codechef_bare_page _ _ _ _ _ Hnet Hc Hsoup). cbn [fst snd summary].
  unfold after_call. cbn [commits]. rewrite Hcommit. cbn [fst snd log snapshots].
  split; [reflexivity|]. split; [reflexivity|].
  eexists. split; [reflexivity|]. repeat split.
Qed.

Lemma codechef_unparsed_page_recorded_as_success_witness :
  session Cases.recorded = Active /\
  soup Cases.bare_profile = Cases.bare_page /\
  commit Cases.bare_env (commits Cases.recorded) = Committed 1700000000000000 /\
  exists row,
    snapshots (snd (_fetch_codechef_stats Cases.bare_env Cases.chef Cases.recorded)) =
      Cases.table ++ [row] /\
    StatsSnapshot.fetch_status row = "success"%string /\
    StatsSnapshot.rating row = PInt 0 /\
    StatsSnapshot.solved row = PInt 0.
Proof.
  split; [reflexivity|]. split; [reflexivity|]. split; [reflexivity|].
  destruct (codechef_unparsed_page_recorded_as_success Cases.bare_env Cases.chef Cases.recorded
              Cases.bare_profile 1700000000000000 eq_refl eq_refl eq_refl eq_refl eq_refl)
    as (_ & _ & row & Hrows & _ & _ & Hstatus & Hrating & Hsolved & _).
  exists row. split; [exact Hrows|]. split; [exact Hstatus|]. split; [exact Hrating|exact Hsolved].
Defined.

(** X22.  What the CodeChef [get_user_stats] returns is consistent with the
    page: data is returned only for a profile page answered with status code
    200; it carries the requested username, the rating and the solved count
    the scraper found, and the stars of that rating; and data with rating 0
    and zero solved problems is returned only when the page has the user
    container. *)
Theorem codechef_result_consistent (net : Network) (lib : CodeChef.TextLib) (user : string)
  (n : Net) (data : CodeChef.Stats) :
  fst (CodeChef.get_user_stats net lib user n) = Returned (Some data) ->
  exists response,
    net (requests_made n) (profile_request user 15) = Answered response /\
    status_code response = 200 /\
    CodeChef.username data = user /\
    CodeChef.rating data = CodeChef.find_rating lib (soup response) /\
    CodeChef.solved data = CodeChef.find_solved lib (soup response) /\
    CodeChef.stars data = CodeChef._get_star_rating (CodeChef.rating data) /\
    (CodeChef.rating data = 0 -> CodeChef.solved data = 0 ->
     user_details_container (soup response) = true).
Proof.
  intros H. unfold CodeChef.get_user_stats in H. rewrite returning_none_on_some in H.
  unfold CodeChef.get_user_stats_body, mbind, send, ret in H. fold (profile_request user 15) in H.
  destruct (net (requests_made n) (profile_request user 15)) as [msg|response];
    [discriminate|].
  destruct (status_code response =? 200) eqn:Hcode; cbn [negb] in H; [|discriminate].
  apply Z.eqb_eq in Hcode. cbv zeta in H.
  destruct ((CodeChef.find_rating lib (soup response) =? 0)
            && (CodeChef.find_solved lib (soup response) =? 0)
            && negb (user_details_container (soup response))) eqn:Hcheck;
    cbn [fst] in H; [discriminate|].
  injection H as <-. exists response. cbn [CodeChef.username CodeChef.rating CodeChef.solved
                                           CodeChef.stars].
  repeat split; try assumption.
  intros Hr Hs. rewrite Hr, Hs in Hcheck. cbn [Z.eqb andb] in Hcheck.
  destruct (user_details_container (soup response)); [reflexivity|discriminate].
Qed.

Lemma codechef_result_consistent_witness :
  fst (CodeChef.get_user_stats (network Cases.bare_env) Examples.texts "chef" Examples.idle) =
    Returned (Some {| CodeChef.username := "chef"; CodeChef.rating := 0;
                      CodeChef.solved := 0; CodeChef.stars := "Unrated" |}) /\
  exists response,
    network Cases.bare_env 0%nat (profile_request "chef" 15) = Answered response /\
    user_details_container (soup response) = true.
Proof.
  split; [reflexivity|].
  destruct (codechef_result_consistent (network Cases.bare_env) Examples.texts "chef"%string
              Examples.idle
              {| CodeChef.username := "chef"; CodeChef.rating := 0;
                 CodeChef.solved := 0; CodeChef.stars := "Unrated" |} eq_refl)
    as (response & Hnet & _ & _ & _ & _ & _ & Hcontainer).
  exists response. split; [exact Hnet|]. apply Hcontainer; reflexivity.
Defined.

(** *** The cost of the scheduler *)

Lemma with_handle_app a b : with_handle (a ++ b) = with_handle a ++ with_handle b.
Proof. apply filter_app. Qed.

Lemma with_handle_bound roster : (List.length (with_handle roster) <= List.length roster)%nat.
Proof. apply filter_length_le. Qed.

Lemma worker_log_counts st events :
  worker_log st events ->
  calls events = (3 * List.length (with_handle [st]))%nat /\
  waits events = (2 * List.length (with_handle [st]))%nat.
Proof.
  unfold worker_log, with_handle. cbn [filter].
  destruct (filter (registered st) platforms) as [|p ps].
  - intros ->. split; reflexivity.
  - intros (r1 & r2 & r3 & ->). split; reflexivity.
Qed.

Lemma workers_log_counts batch w :
  workers_log batch w ->
  calls w = (3 * List.length (with_handle batch))%nat /\
  waits w = (2 * List.length (with_handle batch))%nat.
Proof.
  induction 1 as [|st rest events l Hw Hrest [IHc IHw]]; [split; reflexivity|].
  destruct (worker_log_counts st events Hw) as [Hc Hwt].
  change (st :: rest) with ([st] ++ rest).
  rewrite with_handle_app, length_app, calls_app, waits_app. split; lia.
Qed.

Lemma batches_log_counts number batches l :
  batches_log number batches l ->
  calls l = (3 * List.length (with_handle (List.concat batches)))%nat /\
  waits l = (2 * List.length (with_handle (List.concat batches)))%nat.
Proof.
  induction 1 as [number b w Hw|number b b' rest w l Hw Hl [IHc IHw]].
  - cbn [List.concat]. rewrite app_nil_r.
    destruct (workers_log_counts b w Hw) as [Hc Hwt].
    change (BatchStarted number (map Student.id b) :: w)
      with ([BatchStarted number (map Student.id b)] ++ w).
    rewrite calls_app, waits_app. unfold calls, waits in *.
    cbn [filter is_call is_wait List.length Nat.add]. split; assumption.
  - destruct (workers_log_counts b w Hw) as [Hc Hwt].
    change (List.concat (b :: b' :: rest)) with (b ++ List.concat (b' :: rest)).
    rewrite with_handle_app, length_app.
    change (BatchStarted number (map Student.id b) :: w ++ Paused 2000 :: l)
      with ([BatchStarted number (map Student.id b)] ++ w ++ [Paused 2000] ++ l).
    rewrite !calls_app, !waits_app. unfold calls, waits in *.
    cbn [filter is_call is_wait List.length]. split; lia.
Qed.

(** X12.  The cost of a periodic cycle.  With [k] the number of students of
    the roster who have a handle on some platform, a cycle makes exactly
    [3 * k] adapter calls and waits the retry delay exactly [2 * k] times,
    whatever the network and the store do: the worker of such a student
    calls the adapter of the first platform the student has a handle on
    three times and ends there.  No write reaches the engine and the table
    of snapshots is as it was. *)
Theorem cycle_cost (env : Env) (s : State) :
  let k := List.length (with_handle (students s)) in
  let s' := fetch_all_stats env true s in
  (k <= List.length (students s))%nat /\
  snapshots s' = snapshots s /\
  commits s' = commits s /\
  exists l,
    log s' = log s ++ l /\
    calls l = (3 * k)%nat /\
    waits l = (2 * k)%nat.
Proof.
  cbv zeta. split; [apply with_handle_bound|].
  destruct (students s) as [|st rest] eqn:Eroster.
  - rewrite fetch_all_stats_eq, Eroster. split; [reflexivity|]. split; [reflexivity|].
    exists []. rewrite app_nil_r. repeat split.
  - assert (Hne : students s <> []) by (rewrite Eroster; discriminate).
    destruct (fetch_all_stats_log env s Hne) as (l & (_ & Hrows & Hlog & Hcommits & _) & Hb).
    rewrite app_nil_r in Hrows. rewrite Nat.add_0_r in Hcommits.
    split; [exact Hrows|]. split; [exact Hcommits|].
    exists l. split; [exact Hlog|].
    apply batches_log_counts in Hb. rewrite batches_of_concat, Eroster in Hb. exact Hb.
Qed.

(** X13.  The cost of an on-demand fetch: whatever the student id, the
    network and the store, [fetch_student_stats] makes at most nine adapter
    calls, waits the retry delay at most six times, appends at most three
    snapshots, and logs neither a batch nor a pause between batches. *)
Theorem on_demand_cost (env : Env) (student_id : Z) (s : State) :
  let s' := snd (fetch_student_stats env student_id s) in
  exists l rows,
    log s' = log s ++ l /\
    snapshots s' = snapshots s ++ rows /\
    (calls l <= 9)%nat /\
    (waits l <= 6)%nat /\
    (List.length rows <= 3)%nat /\
    Forall (fun e => is_worker e = true) l.
Proof.
  cbv zeta. destruct (query_get student_id (students s)) as [st|] eqn:Hget.
  - rewrite (fetch_student_stats_found env student_id st s Hget). cbn [snd].
    destruct (effect_fetch_platforms env st (set_session Active s))
      as (l & rows & Hl & Hr & Hc & Hw & Hn & _ & Hf).
    exists l, rows. cbn [set_session log snapshots] in *.
    repeat split; try assumption; lia.
  - rewrite (fetch_student_stats_missing env student_id s Hget). cbn [snd].
    exists [], []. rewrite !app_nil_r. repeat split; try (cbn; lia). constructor.
Qed.

(** X14.  Every snapshot a cycle or an on-demand fetch appends is of one of
    the platforms CF, LC and CC, and is either a success row without an
    error message or a failed row with zero solved problems, no other
    statistics, and an error message. *)
Theorem appended_rows_well_formed (env : Env) (s : State) :
  (exists rows,
     snapshots (fetch_all_stats env true s) = snapshots s ++ rows /\
     Forall well_formed rows) /\
  (forall student_id,
      exists rows,
        snapshots (snd (fetch_student_stats env student_id s)) = snapshots s ++ rows /\
        Forall well_formed rows).
Proof.
  split.
  - exists []. split; [|constructor].
    destruct (students s) as [|st rest] eqn:Eroster.
    + rewrite fetch_all_stats_eq, Eroster. symmetry. apply app_nil_r.
    + assert (Hne : students s <> []) by (rewrite Eroster; discriminate).
      destruct (fetch_all_stats_log env s Hne) as (l & (_ & Hrows & _) & _). exact Hrows.
  - intros sid. destruct (query_get sid (students s)) as [st|] eqn:Hget.
    + rewrite (fetch_student_stats_found env sid st s Hget). cbn [snd].
      destruct (effect_fetch_platforms env st (set_session Active s))
        as (l & rows & _ & Hr & _ & _ & _ & Hwf & _).
      exists rows. cbn [set_session snapshots] in *. split; assumption.
    + rewrite (fetch_student_stats_missing env sid s Hget). cbn [snd].
      exists []. rewrite app_nil_r. split; [reflexivity|constructor].
Qed.

(** *** The newest snapshot and the history *)

Lemma latest_spec self platform table :
  match Student.get_latest_stats self platform table with
  | None => rows_of (Student.id self) platform table = []
  | Some latest =>
      In latest (rows_of (Student.id self) platform table) /\
      forall row, In row (rows_of (Student.id self) platform table) ->
                  StatsSnapshot.timestamp row <= StatsSnapshot.timestamp latest
  end.
Proof.
  unfold Student.get_latest_stats. rewrite pair_rows.
  set (rows := rows_of (Student.id self) platform table).
  pose proof (order_by_perm Z.geb StatsSnapshot.timestamp rows) as Hperm.
  pose proof (desc_sorted StatsSnapshot.timestamp rows) as Hsorted.
  unfold Query.desc in *.
  destruct (Query.order_by Z.geb StatsSnapshot.timestamp rows) as [|latest rest];
    cbn [Query.first].
  - apply Permutation_nil in Hperm. exact Hperm.
  - split; [eapply Permutation_in; [exact Hperm|left; reflexivity]|].
    intros row Hrow. apply (Permutation_in _ (Permutation_sym Hperm)) in Hrow.
    inversion Hsorted as [|? ? _ Hall]; subst.
    destruct Hrow as [<-|Hrow]; [lia|].
    rewrite Forall_forall in Hall. apply Hall. assumption.
Qed.

Lemma only_newest_latest self platform table latest :
  only_newest self platform table latest ->
  Student.get_latest_stats self platform table = Some latest.
Proof.
  intros [Hin Hstrict].
  pose proof (latest_spec self platform table) as Hspec.
  destruct (Student.get_latest_stats self platform table) as [row|].
  - destruct Hspec as [Hrow Hmax]. f_equal.
    destruct (Hstrict row Hrow) as [H|H]; [exact H|].
    specialize (Hmax latest Hin). lia.
  - rewrite Hspec in Hin. contradiction.
Qed.

Lemma rows_of_one self platform row :
  rows_of (Student.id self) platform [row] = if of_pair self platform row then [row] else [].
Proof. reflexivity. Qed.

(** X16.  Appending a snapshot changes the latest stats of a pair only when
    it must: a snapshot of the pair that is strictly newer than every
    snapshot the pair had becomes the latest one; and when one snapshot of
    the pair is strictly newer than the others, it stays the latest one
    after a snapshot of another pair, or an older snapshot of this pair, is
    appended. *)
Theorem latest_after_append (self : Student.t) (platform : string)
  (table : list StatsSnapshot.t) (row : StatsSnapshot.t) :
  (of_pair self platform row = true ->
   (forall old, In old (rows_of (Student.id self) platform table) ->
                StatsSnapshot.timestamp old < StatsSnapshot.timestamp row) ->
   Student.get_latest_stats self platform (table ++ [row]) = Some row) /\
  (forall latest,
     only_newest self platform table latest ->
     of_pair self platform row = false \/
       StatsSnapshot.timestamp row < StatsSnapshot.timestamp latest ->
     Student.get_latest_stats self platform (table ++ [row]) = Some latest).
Proof.
  split.
  - intros Hpair Hold. apply only_newest_latest.
    unfold only_newest. rewrite rows_of_app, rows_of_one, Hpair. split.
    + apply in_or_app. right. left. reflexivity.
    + intros other Hother. apply in_app_or in Hother.
      destruct Hother as [Hother|[<-|[]]]; [right; apply Hold; assumption|left; reflexivity].
  - intros latest [Hin Hstrict] Hrow. apply only_newest_latest.
    unfold only_newest. rewrite rows_of_app, rows_of_one. split.
    + apply in_or_app. left. assumption.
    + intros other Hother. apply in_app_or in Hother.
      destruct Hother as [Hother|Hother]; [apply Hstrict; assumption|].
      destruct (of_pair self platform row); [|contradiction].
      destruct Hother as [<-|[]]. right.
      destruct Hrow as [Hrow|Hrow]; [discriminate|exact Hrow].
Qed.

Lemma latest_after_append_witness :
  of_pair Examples.alice "CF" Cases.third_row = true /\
  Student.get_latest_stats Examples.alice "CF" [Cases.first_row; Cases.second_row] =
    Some Cases.first_row /\
  Student.get_latest_stats Examples.alice "CF" Cases.table = Some Cases.third_row.
Proof.
  split; [reflexivity|]. split; [reflexivity|].
  destruct (latest_after_append Examples.alice "CF"%string
              [Cases.first_row; Cases.second_row] Cases.third_row) as [H _].
  apply H; [reflexivity|].
  intros old Hold. simpl in Hold. destruct Hold as [<-|[]]. reflexivity.
Defined.

Lemma history_returned self platform days utcnow table :
  representable days utcnow ->
  exists history,
    Student.get_stats_history self platform days utcnow table = Returned history /\
    Permutation history
      (filter (fun row => StatsSnapshot.timestamp row >=? cutoff days utcnow)
         (rows_of (Student.id self) platform table)) /\
    (forall row,
        In row history <->
        In row (rows_of (Student.id self) platform table) /\
        cutoff days utcnow <= StatsSnapshot.timestamp row).
Proof.
  intros Hrange. eexists. split; [apply history_representable; exact Hrange|].
  pose proof (history_rows self platform days utcnow table) as Hperm.
  split; [exact Hperm|]. intros row. split.
  - intros H. apply (Permutation_in _ Hperm) in H. apply filter_In in H.
    rewrite Z.geb_le in H. exact H.
  - intros H. apply (Permutation_in _ (Permutation_sym Hperm)). apply filter_In.
    rewrite Z.geb_le. exact H.
Qed.

(** X17.  The history and the latest stats of a pair agree.  For a window
    that a [timedelta] holds and whose cutoff is a [datetime], the history
    is returned, and: a pair without latest stats has an empty history;
    otherwise the history is empty exactly when the latest snapshot is older
    than the cutoff; when it is not, the latest snapshot is in the history;
    and no snapshot of the history is newer than the latest one. *)
Theorem history_and_latest (self : Student.t) (platform : string) (days utcnow : Z)
  (table : list StatsSnapshot.t) :
  representable days utcnow ->
  exists history,
    Student.get_stats_history self platform days utcnow table = Returned history /\
    match Student.get_latest_stats self platform table with
    | None => history = []
    | Some latest =>
        (history = [] <-> StatsSnapshot.timestamp latest < cutoff days utcnow) /\
        (cutoff days utcnow <= StatsSnapshot.timestamp latest -> In latest history) /\
        (forall row, In row history ->
                     StatsSnapshot.timestamp row <= StatsSnapshot.timestamp latest)
    end.
Proof.
  intros Hrange.
  destruct (history_returned self platform days utcnow table Hrange)
    as (history & Hret & _ & Hin).
  exists history. split; [exact Hret|].
  pose proof (latest_spec self platform table) as Hspec.
  destruct (Student.get_latest_stats self platform table) as [latest|].
  - destruct Hspec as [Hl Hmax]. split; [|split].
    + split.
      * intros Hnil.
        destruct (Z.lt_ge_cases (StatsSnapshot.timestamp latest) (cutoff days utcnow)) as [H|H];
          [exact H|].
        assert (Hl' : In latest history) by (apply Hin; split; assumption).
        rewrite Hnil in Hl'. contradiction.
      * intros Hlt. destruct history as [|r rest]; [reflexivity|].
        assert (Hr : In r (r :: rest)) by (left; reflexivity).
        apply Hin in Hr. destruct Hr as [Hr1 Hr2]. specialize (Hmax r Hr1). lia.
    + intros H. apply Hin. split; assumption.
    + intros row Hrow. apply Hin in Hrow. apply Hmax. tauto.
  - destruct history as [|r rest]; [reflexivity|].
    assert (Hr : In r (r :: rest)) by (left; reflexivity).
    apply Hin in Hr. rewrite Hspec in Hr. destruct Hr as [[] _].
Qed.

Lemma representable_days days utcnow :
  Z.abs days <= 999999999 ->
  Student.datetime_min <= utcnow - days * 86400000000 <= Student.datetime_max ->
  representable days utcnow.
Proof. intros H1 H2. split; [exact H1|exact H2]. Qed.

Lemma history_and_latest_witness :
  representable 30 2000 /\
  exists history,
    Student.get_stats_history Examples.alice "CF" 30 2000 Cases.table =
      Returned history /\
    (forall row, In row history -> StatsSnapshot.timestamp row <= 2000).
Proof.
  assert (H : representable 30 2000)
    by (apply representable_days; unfold Student.datetime_min, Student.datetime_max; lia).
  split; [exact H|].
  destruct (history_and_latest Examples.alice "CF"%string 30 2000 Cases.table H)
    as (history & Hret & Hlatest).
  exists history. split; [exact Hret|]. exact (proj2 (proj2 Hlatest)).
Defined.

Lemma filter_length_mono {A : Type} (f g : A -> bool) l :
  (forall x, f x = true -> g x = true) ->
  (List.length (filter f l) <= List.length (filter g l))%nat.
Proof.
  intros H. induction l as [|x l IH]; [reflexivity|]. cbn [filter].
  destruct (f x) eqn:E.
  - rewrite (H x E). simpl. lia.
  - destruct (g x); simpl; lia.
Qed.

(** X18.  At the same reading of the clock, a longer window gives a longer
    history: for two windows that a [timedelta] holds and whose cutoffs are
    [datetime]s, both histories are returned, every snapshot of the history
    over [days] days is in the history over [days'] days when
    [days <= days'], and the second history is at least as long as the
    first. *)
Theorem history_window_monotone (self : Student.t) (platform : string) (days days' utcnow : Z)
  (table : list StatsSnapshot.t) :
  days <= days' ->
  representable days utcnow ->
  representable days' utcnow ->
  exists history history',
    Student.get_stats_history self platform days utcnow table = Returned history /\
    Student.get_stats_history self platform days' utcnow table = Returned history' /\
    (forall row, In row history -> In row history') /\
    (List.length history <= List.length history')%nat.
Proof.
  intros Hdays Hr Hr'.
  assert (Hc : cutoff days' utcnow <= cutoff days utcnow) by (unfold cutoff; lia).
  destruct (history_returned self platform days utcnow table Hr) as (h & Hret & Hperm & Hin).
  destruct (history_returned self platform days' utcnow table Hr') as (h' & Hret' & Hperm' & Hin').
  exists h, h'. split; [exact Hret|]. split; [exact Hret'|]. split.
  - intros row H. apply Hin in H. apply Hin'. split; [tauto|lia].
  - rewrite (Permutation_length Hperm), (Permutation_length Hperm').
    apply filter_length_mono. intros x. rewrite !Z.geb_le. lia.
Qed.

Lemma history_window_monotone_witness :
  7 <= 30 /\
  representable 7 2000 /\
  representable 30 2000 /\
  exists history history',
    Student.get_stats_history Examples.alice "CF" 7 2000 Cases.table =
      Returned history /\
    Student.get_stats_history Examples.alice "CF" 30 2000 Cases.table =
      Returned history' /\
    (List.length history <= List.length history')%nat.
Proof.
  assert (H7 : representable 7 2000)
    by (apply representable_days; unfold Student.datetime_min, Student.datetime_max; lia).
  assert (H30 : representable 30 2000)
    by (apply representable_days; unfold Student.datetime_min, Student.datetime_max; lia).
  split; [lia|]. split; [exact H7|]. split; [exact H30|].
  destruct (history_window_monotone Examples.alice "CF"%string 7 30 2000 Cases.table
              ltac:(lia) H7 H30) as (h & h' & H1 & H2 & _ & H3).
  exists h, h'. split; [exact H1|]. split; [exact H2|exact H3].
Defined.

Lemma failed_row_only_newest env self platform error_message s utcnow :
  session s = Active ->
  commit env (commits s) = Committed utcnow ->
  (forall old, In old (rows_of (Student.id self) platform (snapshots s)) ->
               StatsSnapshot.timestamp old < utcnow) ->
  only_newest self platform
    (snapshots (snd (_save_failed_snapshot env (Student.id self) platform error_message s)))
    (failed_snapshot (Student.id self) platform error_message (next_id (snapshots s)) utcnow).
Proof.
  intros Hs Hcommit Hold.
  rewrite (save_failed_active env (Student.id self) platform error_message s Hs).
  rewrite Hcommit. cbn [snd snapshots].
  unfold only_newest. rewrite rows_of_app, rows_of_one.
  unfold of_pair. cbn [failed_snapshot StatsSnapshot.student_id StatsSnapshot.platform].
  rewrite Z.eqb_refl, String.eqb_refl. cbn [andb]. split.
  - apply in_or_app. right. left. reflexivity.
  - intros other Hother. apply in_app_or in Hother.
    destruct Hother as [Hother|[<-|[]]]; [right; apply Hold; assumption|left; reflexivity].
Qed.

(** X19.  In a usable session, when the store accepts the write and every
    snapshot the pair had is strictly older than the new timestamp, the row
    [_save_failed_snapshot] writes becomes the latest stats of the pair: the
    latest stats then have the status "failed", zero solved problems, no
    rating, and the given error message. *)
Theorem failed_snapshot_becomes_latest (env : Env) (self : Student.t) (platform : string)
  (error_message : string) (s : State) (utcnow : Z) :
  session s = Active ->
  commit env (commits s) = Committed utcnow ->
  (forall old, In old (rows_of (Student.id self) platform (snapshots s)) ->
               StatsSnapshot.timestamp old < utcnow) ->
  let s' := snd (_save_failed_snapshot env (Student.id self) platform error_message s) in
  exists row,
    Student.get_latest_stats self platform (snapshots s') = Some row /\
    StatsSnapshot.fetch_status row = "failed"%string /\
    StatsSnapshot.solved row = PInt 0 /\
    StatsSnapshot.rating row = PNone /\
    StatsSnapshot.error_message row = Some error_message.
Proof.
  intros Hs Hcommit Hold. cbv zeta.
  exists (failed_snapshot (Student.id self) platform error_message
            (next_id (snapshots s)) utcnow).
  split; [|repeat split].
  apply only_newest_latest. apply failed_row_only_newest; assumption.
Qed.

Lemma failed_snapshot_becomes_latest_witness :
  session Cases.recorded = Active /\
  commit Examples.failing_env (commits Cases.recorded) = Committed 1700000000000000 /\
  exists row,
    Student.get_latest_stats Examples.alice "CF"
      (snapshots (snd (_save_failed_snapshot Examples.failing_env 1 "CF"
                         "Failed after 3 attempts" Cases.recorded))) = Some row /\
    StatsSnapshot.fetch_status row = "failed"%string /\
    StatsSnapshot.solved row = PInt 0 /\
    StatsSnapshot.rating row = PNone /\
    StatsSnapshot.error_message row = Some "Failed after 3 attempts"%string.
Proof.
  split; [reflexivity|]. split; [reflexivity|].
  apply (failed_snapshot_becomes_latest Examples.failing_env Examples.alice "CF"%string
           "Failed after 3 attempts"%string Cases.recorded 1700000000000000).
  - reflexivity.
  - reflexivity.
  - intros old Hold. simpl in Hold. destruct Hold as [<-|[<-|[]]]; reflexivity.
Defined.

(** *** The admin dashboard *)

Lemma max_timestamp_spec platform sid table :
  match Dashboard.max_timestamp platform sid table with
  | None => rows_of sid platform table = []
  | Some m =>
      (exists row, In row (rows_of sid platform table) /\ StatsSnapshot.timestamp row = m) /\
      forall row, In row (rows_of sid platform table) -> StatsSnapshot.timestamp row <= m
  end.
Proof.
  unfold Dashboard.max_timestamp.
  destruct (rows_of sid platform table) as [|row rest]; [reflexivity|].
  induction rest as [|r rest IH]; cbn [fold_right].
  - split; [exists row; split; [left; reflexivity|reflexivity]|].
    intros x [<-|[]]. lia.
  - destruct IH as [(w & Hw & Hm) Hmax]. split.
    + destruct (Z.max_spec (StatsSnapshot.timestamp r)
                  (fold_right (fun r m => Z.max (StatsSnapshot.timestamp r) m)
                     (StatsSnapshot.timestamp row) rest)) as [[_ ->]|[_ ->]].
      * exists w. split; [|exact Hm]. destruct Hw as [<-|Hw]; [left; reflexivity|right; right; exact Hw].
      * exists r. split; [right; left; reflexivity|reflexivity].
    + intros x [<-|[<-|Hx]].
      * specialize (Hmax row (or_introl eq_refl)). lia.
      * lia.
      * specialize (Hmax x (or_intror Hx)). lia.
Qed.

Lemma latest_rows_In platform ids table row :
  In row (Dashboard.latest_rows platform ids table) <->
  In row (rows_of (StatsSnapshot.student_id row) platform table) /\
  In (StatsSnapshot.student_id row) ids /\
  forall other, In other (rows_of (StatsSnapshot.student_id row) platform table) ->
                StatsSnapshot.timestamp other <= StatsSnapshot.timestamp row.
Proof.
  unfold Dashboard.latest_rows. rewrite filter_In, !andb_true_iff, String.eqb_eq.
  pose proof (max_timestamp_spec platform (StatsSnapshot.student_id row) table) as Hmax.
  assert (Hids : existsb (Z.eqb (StatsSnapshot.student_id row)) ids = true <->
                 In (StatsSnapshot.student_id row) ids).
  { rewrite existsb_exists. split.
    - intros (x & Hx & Heq). apply Z.eqb_eq in Heq. congruence.
    - intros H. exists (StatsSnapshot.student_id row). split; [exact H|apply Z.eqb_refl]. }
  rewrite Hids. split.
  - intros (Hin & (Hp & Hi) & Hm).
    assert (Hrow : In row (rows_of (StatsSnapshot.student_id row) platform table))
      by (apply rows_of_In; auto).
    destruct (Dashboard.max_timestamp platform (StatsSnapshot.student_id row) table) as [m|];
      [|discriminate].
    apply Z.eqb_eq in Hm. destruct Hmax as [_ Hle].
    split; [exact Hrow|]. split; [exact Hi|]. intros other Ho. rewrite Hm. apply Hle. exact Ho.
  - intros (Hrow & Hi & Hle). pose proof Hrow as Hrow'. apply rows_of_In in Hrow'.
    destruct Hrow' as (Hin & _ & Hp). split; [exact Hin|]. split; [split; assumption|].
    destruct (Dashboard.max_timestamp platform (StatsSnapshot.student_id row) table) as [m|].
    + destruct Hmax as [(w & Hw & Hwm) Hall]. apply Z.eqb_eq.
      specialize (Hle w Hw). specialize (Hall row Hrow). lia.
    + rewrite Hmax in Hrow. contradiction.
Qed.

Lemma stats_dict_spec stats sid :
  match Dashboard.stats_dict stats sid with
  | Some row => In row stats /\ StatsSnapshot.student_id row = sid
  | None => forall row, In row stats -> StatsSnapshot.student_id row <> sid
  end.
Proof.
  unfold Dashboard.stats_dict.
  destruct (find _ (rev stats)) as [row|] eqn:E.
  - apply find_some in E. destruct E as [Hin Heq]. apply in_rev in Hin.
    apply Z.eqb_eq in Heq. split; assumption.
  - intros row Hin Heq. apply in_rev in Hin.
    pose proof (find_none _ _ E row Hin) as Hf. cbv beta in Hf.
    apply Z.eqb_neq in Hf. contradiction.
Qed.

(** The row the dashboard reads is a row of the pair with the largest
    timestamp; there is one whenever the pair has a row. *)
Lemma shown_spec platform students table student :
  In student students ->
  match Dashboard.shown platform students table student with
  | Some row =>
      In row (rows_of (Student.id student) platform table) /\
      forall other, In other (rows_of (Student.id student) platform table) ->
                    StatsSnapshot.timestamp other <= StatsSnapshot.timestamp row
  | None => rows_of (Student.id student) platform table = []
  end.
Proof.
  intros Hstudent. unfold Dashboard.shown.
  pose proof (stats_dict_spec
                (Dashboard.latest_rows platform (map Student.id students) table)
                (Student.id student)) as Hspec.
  destruct (Dashboard.stats_dict _ _) as [row|].
  - destruct Hspec as [Hin Hid]. apply latest_rows_In in Hin. rewrite Hid in Hin. tauto.
  - pose proof (max_timestamp_spec platform (Student.id student) table) as Hmax.
    destruct (Dashboard.max_timestamp platform (Student.id student) table) as [m|];
      [|exact Hmax].
    destruct Hmax as [(w & Hw & Hwm) Hall]. exfalso.
    pose proof Hw as Hw'. apply rows_of_In in Hw'. destruct Hw' as (_ & Hsid & _).
    apply (Hspec w); [|exact Hsid].
    apply latest_rows_In. rewrite Hsid. split; [exact Hw|]. split.
    + apply in_map. exact Hstudent.
    + intros other Ho. specialize (Hall other Ho). lia.
Qed.

Lemma shown_only_newest platform students table student latest :
  In student students ->
  only_newest student platform table latest ->
  Dashboard.shown platform students table student = Some latest.
Proof.
  intros Hstudent [Hin Hstrict].
  pose proof (shown_spec platform students table student Hstudent) as Hspec.
  destruct (Dashboard.shown platform students table student) as [row|].
  - destruct Hspec as [Hrow Hmax]. f_equal.
    destruct (Hstrict row Hrow) as [H|H]; [exact H|].
    specialize (Hmax latest Hin). lia.
  - rewrite Hspec in Hin. contradiction.
Qed.

Lemma leaderboard_data_items students table :
  Dashboard.leaderboard_data students table = map (Dashboard.item students table) students.
Proof. reflexivity. Qed.

(** X20.  The leaderboard of the admin dashboard reads the latest stats.
    When one snapshot of a student of the page on a platform is strictly
    newer than the others of the pair, it is what [get_latest_stats]
    returns, and the entry of the platform in the item of the student shows
    its values (rating, highest rating and solved count for CF; solved,
    easy, medium and hard counts for LC; rating and solved count for CC)
    when the student has a handle on the platform and the snapshot is a
    success; otherwise the entry is [None]. *)
Theorem dashboard_reads_latest_snapshot (students : list Student.t)
  (table : list StatsSnapshot.t) (student : Student.t) (platform : string)
  (latest : StatsSnapshot.t) :
  In student students ->
  only_newest student platform table latest ->
  let item := Dashboard.item students table student in
  Student.get_latest_stats student platform table = Some latest /\
  (platform = "CF"%string ->
   Dashboard.cf_stats item =
     if registered_handle (Student.cf_handle student) && Dashboard.visible latest
     then PDict [("rating", StatsSnapshot.rating latest);
                 ("max_rating", StatsSnapshot.max_rating latest);
                 ("solved", StatsSnapshot.solved latest)]%string
     else PNone) /\
  (platform = "LC"%string ->
   Dashboard.lc_stats item =
     if registered_handle (Student.lc_username student) && Dashboard.visible latest
     then PDict [("solved", StatsSnapshot.solved latest);
                 ("easy", StatsSnapshot.easy latest);
                 ("medium", StatsSnapshot.medium latest);
                 ("hard", StatsSnapshot.hard latest)]%string
     else PNone) /\
  (platform = "CC"%string ->
   Dashboard.cc_stats item =
     if registered_handle (Student.cc_username student) && Dashboard.visible latest
     then PDict [("rating", StatsSnapshot.rating latest);
                 ("solved", StatsSnapshot.solved latest)]%string
     else PNone).
Proof.
  intros Hstudent Honly. cbv zeta.
  split; [apply only_newest_latest; assumption|].
  pose proof (shown_only_newest platform students table student latest Hstudent Honly) as Hshown.
  unfold Dashboard.shown in Hshown.
  repeat split; intros ->; cbn [Dashboard.item Dashboard.cf_stats Dashboard.lc_stats Dashboard.cc_stats];
    unfold Dashboard.cf_entry, Dashboard.lc_entry, Dashboard.cc_entry, Dashboard.visible;
    rewrite Hshown;
    match goal with |- context [registered_handle ?h] => destruct (registered_handle h) end;
    cbn [andb]; reflexivity.
Qed.

Lemma dashboard_reads_latest_snapshot_witness :
  In Examples.alice (students Cases.recorded) /\
  only_newest Examples.alice "CF" Cases.table Cases.third_row /\
  Dashboard.cf_stats (Dashboard.item (students Cases.recorded) Cases.table Examples.alice) =
    PDict [("rating", PInt 1550); ("max_rating", PInt 1550); ("solved", PInt 2)]%string.
Proof.
  assert (Honly : only_newest Examples.alice "CF" Cases.table Cases.third_row).
  { split; [right; left; reflexivity|].
    intros other Hother. simpl in Hother.
    destruct Hother as [<-|[<-|[]]]; [right; reflexivity|left; reflexivity]. }
  split; [left; reflexivity|]. split; [exact Honly|].
  destruct (dashboard_reads_latest_snapshot (students Cases.recorded) Cases.table
              Examples.alice "CF"%string Cases.third_row (or_introl eq_refl) Honly)
    as (_ & H & _).
  exact (H eq_refl).
Defined.

(** X21.  The leaderboard of the admin dashboard has one item per student
    of the page, in the order of the page.  The entry of a platform in the
    item of a student is [None] when the student has no handle on the
    platform, and when the pair has no snapshot. *)
Theorem dashboard_without_data (students : list Student.t) (table : list StatsSnapshot.t) :
  map Dashboard.id (Dashboard.leaderboard_data students table) = map Student.id students /\
  forall student,
    In student students ->
    let item := Dashboard.item students table student in
    In item (Dashboard.leaderboard_data students table) /\
    ((registered student "CF" = false \/ rows_of (Student.id student) "CF" table = []) ->
     Dashboard.cf_stats item = PNone) /\
    ((registered student "LC" = false \/ rows_of (Student.id student) "LC" table = []) ->
     Dashboard.lc_stats item = PNone) /\
    ((registered student "CC" = false \/ rows_of (Student.id student) "CC" table = []) ->
     Dashboard.cc_stats item = PNone).
Proof.
  split.
  - rewrite leaderboard_data_items, map_map. reflexivity.
  - intros student Hstudent. cbv zeta.
    split; [rewrite leaderboard_data_items; apply in_map; assumption|].
    assert (Hnone : forall platform,
              rows_of (Student.id student) platform table = [] ->
              Dashboard.stats_dict
                (Dashboard.latest_rows platform (map Student.id students) table)
                (Student.id student) = None).
    { intros platform Hempty.
      pose proof (shown_spec platform students table student Hstudent) as Hspec.
      unfold Dashboard.shown in Hspec.
      destruct (Dashboard.stats_dict _ _) as [row|]; [|reflexivity].
      destruct Hspec as [Hin _]. rewrite Hempty in Hin. contradiction. }
    repeat split; intros [Hreg|Hempty];
      cbn [Dashboard.item Dashboard.cf_stats Dashboard.lc_stats Dashboard.cc_stats];
      unfold Dashboard.cf_entry, Dashboard.lc_entry, Dashboard.cc_entry.
    + unfold registered in Hreg. rewrite handle_for_cf in Hreg. rewrite Hreg. reflexivity.
    + rewrite (Hnone _ Hempty). destruct (registered_handle _); reflexivity.
    + unfold registered in Hreg. rewrite handle_for_lc in Hreg. rewrite Hreg. reflexivity.
    + rewrite (Hnone _ Hempty). destruct (registered_handle _); reflexivity.
    + unfold registered in Hreg. rewrite handle_for_cc in Hreg. rewrite Hreg. reflexivity.
    + rewrite (Hnone _ Hempty). destruct (registered_handle _); reflexivity.
Qed.

Lemma dashboard_without_data_witness :
  registered Examples.bob "CF" = false /\
  rows_of (Student.id Cases.chef) "LC" Cases.table = [] /\
  Dashboard.cf_stats (Dashboard.item (students Cases.recorded) Cases.table Examples.bob) = PNone /\
  Dashboard.lc_stats (Dashboard.item (students Cases.recorded) Cases.table Cases.chef) = PNone.
Proof.
  split; [reflexivity|]. split; [reflexivity|].
  destruct (dashboard_without_data (students Cases.recorded) Cases.table) as [_ H].
  destruct (H Examples.bob (or_intror (or_introl eq_refl))) as (_ & Hcf & _).
  destruct (H Cases.chef (or_intror (or_intror (or_introl eq_refl)))) as (_ & _ & Hlc & _).
  split; [apply Hcf; left; reflexivity|apply Hlc; right; reflexivity].
Defined.

(** X23.  A failed fetch blanks the entry of the dashboard.  In a usable
    session, when the store accepts the write and every snapshot the pair
    had is strictly older than the new timestamp, then after
    [_save_failed_snapshot] the entry of the platform in the item of the
    student is [None], whatever the earlier snapshots of the pair hold. *)
Theorem failed_fetch_blanks_dashboard (env : Env) (students : list Student.t)
  (student : Student.t) (platform : string) (error_message : string) (s : State) (utcnow : Z) :
  In student students ->
  In platform platforms ->
  session s = Active ->
  commit env (commits s) = Committed utcnow ->
  (forall old, In old (rows_of (Student.id student) platform (snapshots s)) ->
               StatsSnapshot.timestamp old < utcnow) ->
  let s' := snd (_save_failed_snapshot env (Student.id student) platform error_message s) in
  Dashboard.entry platform (Dashboard.item students (snapshots s') student) = PNone.
Proof.
  intros Hstudent Hplatform Hs Hcommit Hold. cbv zeta.
  pose proof (shown_only_newest platform students _ student _ Hstudent
                (failed_row_only_newest env student platform error_message s utcnow
                   Hs Hcommit Hold)) as Hshown.
  unfold Dashboard.shown in Hshown.
  unfold platforms in Hplatform. simpl in Hplatform.
  destruct Hplatform as [<-|[<-|[<-|[]]]];
    cbn [Dashboard.entry String.eqb Ascii.eqb Bool.eqb Dashboard.item
         Dashboard.cf_stats Dashboard.lc_stats Dashboard.cc_stats];
    unfold Dashboard.cf_entry, Dashboard.lc_entry, Dashboard.cc_entry;
    rewrite Hshown;
    match goal with |- context [registered_handle ?h] => destruct (registered_handle h) end;
    reflexivity.
Qed.

Lemma failed_fetch_blanks_dashboard_witness :
  Dashboard.entry "CF" (Dashboard.item (students Cases.recorded) Cases.table Examples.alice) =
    PDict [("rating", PInt 1550); ("max_rating", PInt 1550); ("solved", PInt 2)]%string /\
  session Cases.recorded = Active /\
  commit Examples.failing_env (commits Cases.recorded) = Committed 1700000000000000 /\
  Dashboard.entry "CF"
    (Dashboard.item (students Cases.recorded)
       (snapshots (snd (_save_failed_snapshot Examples.failing_env 1 "CF"
                          "Failed after 3 attempts" Cases.recorded)))
       Examples.alice) = PNone.
Proof.
  split; [reflexivity|]. split; [reflexivity|]. split; [reflexivity|].
  apply (failed_fetch_blanks_dashboard Examples.failing_env (students Cases.recorded)
           Examples.alice "CF"%string "Failed after 3 attempts"%string Cases.recorded
           1700000000000000).
  - left. reflexivity.
  - left. reflexivity.
  - reflexivity.
  - reflexivity.
  - intros old Hold. simpl in Hold. destruct Hold as [<-|[<-|[]]]; reflexivity.
Defined.

(** *** The fetch inside the application context *)



(** X25.  One snapshot per registered pair on demand.  When the snapshot
    store accepts the writes, [fetch_student_stats] of a student who exists
    returns [True], and it processes the registered pairs of the student in
    the order CF, LC, CC: the retry loops logged are those of these pairs,
    and exactly one snapshot is appended for each of them, a success row
    when some attempt gave data and a failed row when the three attempts
    failed. *)
Theorem on_demand_one_snapshot_per_pair (env : Env) (student_id : Z) (student : Student.t)
  (s : State) :
  accepting env ->
  query_get student_id (students s) = Some student ->
  fst (fetch_student_stats env student_id s) = Returned true /\
  cycle_between (student_work student) s (snd (fetch_student_stats env student_id s)).
Proof.
  intros Hacc Hget. apply on_demand_cycle; assumption.
Qed.

Lemma on_demand_one_snapshot_per_pair_witness :
  accepting Examples.accepting_env /\
  query_get 1 (students Examples.start) = Some Examples.alice /\
  student_work Examples.alice = [(1, "CF"%string)] /\
  fst (fetch_student_stats Examples.accepting_env 1 Examples.start) = Returned true /\
  cycle_between (student_work Examples.alice) Examples.start
    (snd (fetch_student_stats Examples.accepting_env 1 Examples.start)).
Proof.
  assert (Hacc : accepting Examples.accepting_env) by (intros n; eexists; reflexivity).
  split; [exact Hacc|]. split; [reflexivity|]. split; [reflexivity|].
  exact (on_demand_one_snapshot_per_pair Examples.accepting_env 1 Examples.alice Examples.start
           Hacc eq_refl).
Defined.
